(** * Master-plan document registry

    A shallow embedding of the documents API (controller
    [app/controllers/masterPlanDocController.js], model
    [app/models/masterplandoc.js], router [app/routes/masterPlanDocs.js])
    and of the client service [src/services/masterPlanDocService.ts],
    followed by the properties established about them.

    Conventions of the embedding:
    - a JavaScript value is a [jsval]; numbers are the integers (and NaN),
      strings are sequences of code units;
    - a request body is a finite map from field names to values, an absent
      field reads as [JUndefined];
    - handlers are functions from the world (table + disk) and the request
      to a response and the next world; an exception raised inside a
      handler is a [Throw] that the handler's own [catch] turns into a
      response;
    - the clock ([new Date()], [Date.now()]) is an input of the handler. *)

From Stdlib Require Import ZArith NArith String Ascii List Bool Lia DecimalString.
From Stdlib Require Import Sorted Permutation DecimalN.
From stdpp Require Import gmap strings.
Import ListNotations.

#[local] Open Scope string_scope.
#[local] Open Scope Z_scope.

(** ** JavaScript values *)

Module Js.

Inductive jsval : Type :=
| JUndefined
| JNull
| JBool (b : bool)
| JNum (n : Z)
| JNaN
| JStr (s : string)
| JDate (ms : Z)
| JObj (repr : string).   (* an object, array or function; [repr] is its string conversion *)

#[export] Instance jsval_eq_dec : EqDecision jsval.
Proof. solve_decision. Defined.

(** [ToBoolean]: what [!v], [v || w], [v ? a : b] and [Boolean(v)] test. *)
Definition truthy (v : jsval) : bool :=
  match v with
  | JUndefined | JNull | JNaN => false
  | JBool b => b
  | JNum n => negb (n =? 0)
  | JStr s => negb (s =? "")%string
  | JDate _ | JObj _ => true
  end.

(** [a || b] *)
Definition or_else (a b : jsval) : jsval := if truthy a then a else b.

(** [value === null || value === undefined] *)
Definition nullish (v : jsval) : bool :=
  match v with
  | JUndefined | JNull => true
  | _ => false
  end.

(** Exceptions that the handlers can meet, by [error.name]. *)
Inductive js_error : Type :=
| TypeError (message : string)
| SequelizeValidationError (errors : list (string * string * jsval))
| SequelizeUniqueConstraintError
| SequelizeDatabaseError
| SystemError (message : string).

Inductive outcome (A : Type) : Type :=
| Ok (a : A)
| Throw (e : js_error).
Arguments Ok {A} a.
Arguments Throw {A} e.

Definition bind {A B} (m : outcome A) (k : A -> outcome B) : outcome B :=
  match m with
  | Ok a => k a
  | Throw e => Throw e
  end.

(** *** Strings *)

(** [s.substring(0, n)] *)
Definition substring0 (n : nat) (s : string) : string := String.substring 0 n s.

(** [xs.join(sep)] *)
Definition join (sep : string) (xs : list string) : string := String.concat sep xs.

(** Decimal rendering of a non-negative integer, as a template literal
    prints it. *)
Definition decimal (n : N) : string := NilZero.string_of_uint (N.to_uint n).

(** *** parseInt *)

Definition is_space (c : ascii) : bool :=
  let k := nat_of_ascii c in
  ((9 <=? k) && (k <=? 13) || (k =? 32) || (k =? 160))%nat.

Fixpoint skip_spaces (s : string) : string :=
  match s with
  | String c r => if is_space c then skip_spaces r else s
  | EmptyString => s
  end.

(** Value of [c] as a digit in the given radix. *)
Definition digit_of (radix : Z) (c : ascii) : option Z :=
  let k := Z.of_nat (nat_of_ascii c) in
  let d := if (48 <=? k) && (k <=? 57) then Some (k - 48)
           else if (97 <=? k) && (k <=? 122) then Some (k - 87)
           else if (65 <=? k) && (k <=? 90) then Some (k - 55)
           else None in
  match d with
  | Some v => if v <? radix then Some v else None
  | None => None
  end.

(** Longest prefix of digits; [None] when there is no digit at all. *)
Fixpoint digits (radix : Z) (acc : option Z) (s : string) : option Z :=
  match s with
  | String c r =>
      match digit_of radix c with
      | Some d => digits radix (Some (radix * default 0 acc + d)) r
      | None => acc
      end
  | EmptyString => acc
  end.

Definition parse_int_string (s : string) : jsval :=
  let s := skip_spaces s in
  let '(neg, s) :=
    match s with
    | String "-" r => (true, r)
    | String "+" r => (false, r)
    | _ => (false, s)
    end in
  let '(radix, s) :=
    match s with
    | String "0" (String "x" r) | String "0" (String "X" r) => (16, r)
    | _ => (10, s)
    end in
  match digits radix None s with
  | Some n => JNum (if neg then - n else n)
  | None => JNaN
  end.

(** [parseInt(v)]: the argument is converted to a string first.  An
    integer prints as its own decimal, so it is read back as it is; this
    covers the integers that a number holds exactly, of magnitude below
    2^53 (beyond, a number is a rounded value, and from 10^21 on it prints
    with an exponent, of which [parseInt] reads the leading digits only).
    The words [true], [null], [undefined], [NaN] and a date's text start
    with a letter. *)
Definition parseInt (v : jsval) : jsval :=
  match v with
  | JNum n => JNum n
  | JStr s => parse_int_string s
  | JObj repr => parse_int_string repr
  | JUndefined | JNull | JBool _ | JNaN | JDate _ => JNaN
  end.

End Js.

(** ** Node's [path] module (POSIX flavour) *)

Module NodePath.

Definition is_slash (c : ascii) : bool := (c =? "/")%char.
Definition is_dot (c : ascii) : bool := (c =? ".")%char.

Fixpoint drop_while (p : ascii -> bool) (cs : list ascii) : list ascii :=
  match cs with
  | c :: r => if p c then drop_while p r else cs
  | [] => []
  end.

Fixpoint take_while (p : ascii -> bool) (cs : list ascii) : list ascii :=
  match cs with
  | c :: r => if p c then c :: take_while p r else []
  | [] => []
  end.

(** The last component of a path, read from its end: trailing slashes are
    skipped, then everything up to the previous slash is kept.  The result
    is in reverse order. *)
Definition last_component_rev (path : string) : list ascii :=
  take_while (fun c => negb (is_slash c))
             (drop_while is_slash (rev (list_ascii_of_string path))).

Definition last_component (path : string) : string :=
  string_of_list_ascii (rev (last_component_rev path)).

(** [path.extname(p)]: from the last dot of the last component to its end;
    empty when there is no dot, when the only dot is the first character,
    or when the component is [".."]. *)
Definition extname (path : string) : string :=
  let comp := last_component_rev path in
  let ext := take_while (fun c => negb (is_dot c)) comp in
  match drop_while (fun c => negb (is_dot c)) comp with
  | [] => ""                                   (* no dot *)
  | _dot :: pre =>
      match pre, ext with
      | [], _ => ""                            (* ".profile" *)
      | [d], [] => if is_dot d then ""         (* ".." *)
                   else "."
      | _, _ => string_of_list_ascii (rev (ext ++ ["."%char])%list)
      end
  end.

Fixpoint is_prefix (a b : list ascii) : bool :=
  match a, b with
  | [], _ => true
  | x :: a', y :: b' => (x =? y)%char && is_prefix a' b'
  | _ :: _, [] => false
  end.

(** [path.basename(p, suffix)]: the last component, without [suffix] when
    the component ends with it and is longer than it.  (When the component
    is itself a proper end of [suffix], Node returns the component with the
    trailing slashes of the path.) *)
Definition basename (path suffix : string) : string :=
  let comp := last_component_rev path in
  let suf := rev (list_ascii_of_string suffix) in
  if (0 <? String.length suffix)%nat && (String.length suffix <=? String.length path)%nat then
    if (suffix =? path)%string then ""
    else if is_prefix suf comp then
      if (List.length suf <? List.length comp)%nat
      then string_of_list_ascii (rev (skipn (List.length suf) comp))
      else string_of_list_ascii (rev comp)
    else if is_prefix comp suf
    then string_of_list_ascii
           (rev comp ++ take_while is_slash (rev (list_ascii_of_string path)))%list
    else string_of_list_ascii (rev comp)
  else string_of_list_ascii (rev comp).

(** *** Normalised absolute paths, as lists of segments *)

Fixpoint split_rev (cur : list ascii) (cs : list ascii) : list string :=
  match cs with
  | [] => [string_of_list_ascii (rev cur)]
  | c :: r =>
      if is_slash c then string_of_list_ascii (rev cur) :: split_rev [] r
      else split_rev (c :: cur) r
  end.

(** [s.split('/')] *)
Definition split_slash (s : string) : list string :=
  split_rev [] (list_ascii_of_string s).

(** One step of normalisation: [""] and ["."] vanish, [".."] climbs. *)
Definition push_segment (acc : list string) (seg : string) : list string :=
  if (seg =? "")%string || (seg =? ".")%string then acc
  else if (seg =? "..")%string then removelast acc
  else (acc ++ [seg])%list.

(** [path.join(base, rel)] for an absolute, normalised [base]. *)
Definition join (base : list string) (rel : string) : list string :=
  fold_left push_segment (split_slash rel) base.

(** [path.dirname] of a normalised path *)
Definition dirname (p : list string) : list string := removelast p.

End NodePath.

(** ** The File Store: a directory tree holding uploaded files *)

Module UploadedFile.
(** The file object that the multipart middleware hands to the handler
    ([req.files.document]). *)
Record t : Type := mk { name : string; size : Z; mimetype : string }.
End UploadedFile.

Module Fs.
Import Js.

Record disk : Type := mkDisk {
  dirs : gset (list string);
  files : gmap (list string) UploadedFile.t
}.

Definition is_file (d : disk) (p : list string) : bool :=
  bool_decide (is_Some (files d !! p)).

(** [fs.existsSync(p)] *)
Definition existsSync (d : disk) (p : list string) : bool :=
  bool_decide (p ∈ dirs d) || is_file d p.

(** The non-empty prefixes of a path, shortest first (the path last). *)
Fixpoint prefixes (p : list string) : list (list string) :=
  match p with
  | [] => []
  | s :: r => [s] :: map (cons s) (prefixes r)
  end.

(** A disk operation ends on some disk, with an error when it threw. *)
Definition result : Type := disk * option js_error.

(** [fs.mkdirSync(p, { recursive: true })]: creates the missing
    directories on the way; throws when a file sits on the way. *)
Definition mkdirSync (d : disk) (p : list string) : result :=
  if existsb (is_file d) (prefixes p)
  then (d, Some (SystemError "EEXIST: file already exists"))
  else ({| dirs := list_to_set (prefixes p) ∪ dirs d; files := files d |}, None).

(** [fs.writeFile(p, data)] *)
Definition writeFile (doc : UploadedFile.t) (d : disk) (p : list string) : result :=
  if bool_decide (p ∈ dirs d) || bool_decide (p = [])
  then (d, Some (SystemError "EISDIR: illegal operation on a directory"))
  else if negb (bool_decide (NodePath.dirname p ∈ dirs d))
          && negb (bool_decide (NodePath.dirname p = []))
  then (d, Some (SystemError "ENOENT: no such file or directory"))
  else ({| dirs := dirs d; files := <[p := doc]> (files d) |}, None).

(** [document.mv(p)] under [createParentPath: true]: the parent directory
    is created when missing, then the bytes are written at [p]. *)
Definition mv (doc : UploadedFile.t) (d : disk) (p : list string) : result :=
  let '(d1, err) :=
    if existsSync d (NodePath.dirname p) then (d, None)
    else mkdirSync d (NodePath.dirname p) in
  match err with
  | Some e => (d1, Some e)
  | None => writeFile doc d1 p
  end.

End Fs.

(** ** The Document Store: the [masterplandocs] table behind the model *)

Module Model.
Import Js.

(** What the controller prepares for insertion ([dbData]) and what an
    instance carries ([dataValues]). *)
Record dbData : Type := mkData {
  doc_id : jsval;
  doc_type : jsval;
  doc_title : jsval;
  revision_no : jsval;
  year : jsval;
  quarter : jsval;
  owner : jsval;
  status : jsval;
  doc_status : jsval;
  is_uploaded : jsval;
  uploaded_file : jsval;
  file_type : jsval;
  file_size : jsval;
  storage_path : jsval;
  download_url : jsval;
  uploaded_at : jsval;
  created_at : jsval;
  updated_at : jsval
}.

#[export] Instance dbData_eq_dec : EqDecision dbData.
Proof. solve_decision. Defined.

(** A row of the table, or the instance returned by the model. *)
Record instance : Type := mkInstance { id : Z; dataValues : dbData }.

#[export] Instance instance_eq_dec : EqDecision instance.
Proof. solve_decision. Defined.

(** The data model's invariant on attachments: a row flagged as uploaded
    names its file and where it is stored. *)
Definition upload_invariant (d : dbData) : Prop :=
  is_uploaded d = JBool true -> storage_path d <> JNull /\ uploaded_file d <> JNull.

Inductive data_type : Type :=
| INTEGER | BIGINT | BOOLEAN | DATE | STRING (n : nat).

Inductive default_value : Type :=
| Literal (v : jsval)
| NOW.

Record attribute : Type := mkAttr {
  field : string;
  get : dbData -> jsval;
  col_type : data_type;
  allowNull : bool;
  unique : bool;
  defaultValue : option default_value
}.

(** The attributes of [sequelize.define('MasterPlanDoc', ...)], the
    auto-incremented primary key [id] apart; [allowNull] is true and
    [unique] false where the definition is silent. *)
Definition attr_doc_id : attribute :=
  mkAttr "doc_id" doc_id (STRING 50) false true None.
Definition attr_doc_type : attribute :=
  mkAttr "doc_type" doc_type (STRING 100) false false None.
Definition attr_doc_title : attribute :=
  mkAttr "doc_title" doc_title (STRING 255) false false None.
Definition attr_revision_no : attribute :=
  mkAttr "revision_no" revision_no (STRING 20) false false None.
Definition attr_year : attribute :=
  mkAttr "year" year INTEGER false false None.
Definition attr_quarter : attribute :=
  mkAttr "quarter" quarter (STRING 10) true false None.
Definition attr_owner : attribute :=
  mkAttr "owner" owner (STRING 150) false false None.
Definition attr_status : attribute :=
  mkAttr "status" status (STRING 50) false false None.
Definition attr_doc_status : attribute :=
  mkAttr "doc_status" doc_status (STRING 50) true false (Some (Literal (JStr "Open"))).
Definition attr_is_uploaded : attribute :=
  mkAttr "is_uploaded" is_uploaded BOOLEAN true false (Some (Literal (JBool false))).
Definition attr_uploaded_file : attribute :=
  mkAttr "uploaded_file" uploaded_file (STRING 255) true false None.
Definition attr_file_type : attribute :=
  mkAttr "file_type" file_type (STRING 150) true false None.
Definition attr_file_size : attribute :=
  mkAttr "file_size" file_size BIGINT true false None.
Definition attr_storage_path : attribute :=
  mkAttr "storage_path" storage_path (STRING 500) true false None.
Definition attr_download_url : attribute :=
  mkAttr "download_url" download_url (STRING 500) true false None.
Definition attr_uploaded_at : attribute :=
  mkAttr "uploaded_at" uploaded_at DATE true false None.
Definition attr_created_at : attribute :=
  mkAttr "created_at" created_at DATE false false (Some NOW).
Definition attr_updated_at : attribute :=
  mkAttr "updated_at" updated_at DATE false false (Some NOW).

Definition attributes : list attribute :=
  [ attr_doc_id; attr_doc_type; attr_doc_title; attr_revision_no; attr_year; attr_quarter;
    attr_owner; attr_status; attr_doc_status; attr_is_uploaded; attr_uploaded_file;
    attr_file_type; attr_file_size; attr_storage_path; attr_download_url; attr_uploaded_at;
    attr_created_at; attr_updated_at ].

(** The data with every attribute rewritten by [f]. *)
Definition map_attributes (f : attribute -> jsval -> jsval) (d : dbData) : dbData :=
  {| doc_id := f attr_doc_id (doc_id d);
     doc_type := f attr_doc_type (doc_type d);
     doc_title := f attr_doc_title (doc_title d);
     revision_no := f attr_revision_no (revision_no d);
     year := f attr_year (year d);
     quarter := f attr_quarter (quarter d);
     owner := f attr_owner (owner d);
     status := f attr_status (status d);
     doc_status := f attr_doc_status (doc_status d);
     is_uploaded := f attr_is_uploaded (is_uploaded d);
     uploaded_file := f attr_uploaded_file (uploaded_file d);
     file_type := f attr_file_type (file_type d);
     file_size := f attr_file_size (file_size d);
     storage_path := f attr_storage_path (storage_path d);
     download_url := f attr_download_url (download_url d);
     uploaded_at := f attr_uploaded_at (uploaded_at d);
     created_at := f attr_created_at (created_at d);
     updated_at := f attr_updated_at (updated_at d) |}.

End Model.

Module Store.
Import Js Model.

Record table : Type := mkTable { rows : list instance; next_id : Z }.

(** A column holds SQL values: an undefined attribute is stored as NULL.
    (The conversion of a value to the type of its column, such as a
    number kept in a text column or a date read back to the second, is
    not modelled: the rows are faithful for values that are of their
    columns' types.) *)
Definition to_sql (v : jsval) : jsval :=
  match v with
  | JUndefined => JNull
  | _ => v
  end.

Definition persisted (d : dbData) : dbData :=
  map_attributes (fun _ => to_sql) d.

(** [Model.build]: an attribute left undefined takes its default. *)
Definition defaulted (now : Z) (a : attribute) (v : jsval) : jsval :=
  match defaultValue a, v with
  | Some (Literal dflt), JUndefined => dflt
  | Some NOW, JUndefined => JDate now
  | _, _ => v
  end.

Definition apply_defaults (now : Z) (d : dbData) : dbData :=
  map_attributes (defaulted now) d.

Definition is_string_type (t : data_type) : bool :=
  match t with
  | STRING _ => true
  | _ => false
  end.

(** [Array.isArray(v) || _.isObject(v)] *)
Definition is_object (v : jsval) : bool :=
  match v with
  | JObj _ | JDate _ => true
  | _ => false
  end.

(** The instance validator's schema pass: [allowNull: false] attributes
    must hold a value, string attributes must not hold an object. *)
Definition schema_errors (d : dbData) : list (string * string * jsval) :=
  flat_map (fun a =>
              let v := get a d in
              ((if negb (allowNull a) && nullish v
                then [(field a, "MasterPlanDoc." +:+ field a +:+ " cannot be null", v)]
                else [])
               ++
               (if is_string_type (col_type a) && is_object v
                then [(field a, field a +:+ " cannot be an array or an object", v)]
                else []))%list)
           attributes.

(** An attribute passes the schema pass. *)
Definition attribute_ok (d : dbData) (a : attribute) : bool :=
  (allowNull a || negb (nullish (get a d)))
  && negb (is_string_type (col_type a) && is_object (get a d)).

(** [MasterPlanDoc.findOne({ where: { doc_id } })]: the first row whose
    [doc_id] is the given value.  (The collation and the implicit casts of
    the engine are not modelled: a row matches when it holds that very
    value.  Nor is the refusal of an object as the value of a condition:
    the model covers the keys that are not objects.) *)
Definition findOne (t : table) (key : jsval) : option instance :=
  List.find (fun r => bool_decide (doc_id (dataValues r) = key)) (rows t).

(** How the engine reads a string that is compared with an integer
    column: blanks, a sign and the leading digits count, anything else
    reads as 0.  (A fraction or an exponent after the digits is not
    modelled.) *)
Definition sql_integer (s : string) : Z :=
  let s := skip_spaces s in
  let '(neg, s) :=
    match s with
    | String "-" r => (true, r)
    | String "+" r => (false, r)
    | _ => (false, s)
    end in
  let n := default 0 (digits 10 None s) in
  if neg then - n else n.

(** [MasterPlanDoc.findByPk(id)] with the route parameter, a string. *)
Definition findByPk (t : table) (param : string) : option instance :=
  List.find (fun r => id r =? sql_integer param) (rows t).

Definition date_key (v : jsval) : Z :=
  match v with
  | JDate ms => ms
  | _ => 0
  end.

Fixpoint insert_desc (r : instance) (rs : list instance) : list instance :=
  match rs with
  | [] => [r]
  | x :: rest =>
      if date_key (created_at (dataValues x)) <? date_key (created_at (dataValues r))
      then r :: rs
      else x :: insert_desc r rest
  end.

(** [MasterPlanDoc.findAll({ order: [['created_at', 'DESC']] })] *)
Definition findAll_desc (t : table) : list instance :=
  fold_right insert_desc [] (rows t).

Section Engine.

(** The database engine's own checks on an INSERT (column types and
    lengths under its SQL mode) are not part of the repository: they
    are a parameter of the model. *)
Variable engine_accepts : dbData -> bool.

(** [MasterPlanDoc.create(dbData)] *)
Definition create (now : Z) (t : table) (d : dbData) : outcome (instance * table) :=
  let d := apply_defaults now d in
  match schema_errors d with
  | e :: es => Throw (SequelizeValidationError (e :: es))
  | [] =>
      if engine_accepts (persisted d) then
        if existsb (fun r => bool_decide (doc_id (dataValues r) = doc_id (persisted d))) (rows t)
        then Throw SequelizeUniqueConstraintError
        else
          let inst := mkInstance (next_id t) d in
          Ok (inst, mkTable (rows t ++ [mkInstance (next_id t) (persisted d)])%list (next_id t + 1))
      else Throw SequelizeDatabaseError
  end.

End Engine.

End Store.

(** ** HTTP responses *)

Module Http.
Import Js Model.

(** The JSON bodies (and the two non-JSON ones) that the service sends. *)
Inductive payload : Type :=
| Exists (exists_ : bool)                            (* { exists } *)
| ErrorOnly (error : string)                         (* { error } *)
| Message (message : string)                         (* { message } *)
| MessageData (message : string) (data : instance)   (* { message, data } *)
| MessageErrors (message : string) (errors : list (string * string * jsval))
| MessageError (message error : string)              (* { message, error } *)
| Data (data : instance)                             (* { data } *)
| DataList (data : list instance)
| UploadRejected (message : string)                  (* { success: false, message } *)
| UploadFailed (message error : string)              (* { success: false, message, error } *)
| Uploaded (message fileName originalName : string) (fileSize : Z)
           (fileType storagePath downloadUrl : string) (* { success: true, ... } *)
| FileStream (file : UploadedFile.t)                 (* res.download *)
| PlainText (text : string).

Record response : Type := mkResponse { code : Z; json : payload }.

(** [response.ok] of the fetch API *)
Definition ok (r : response) : bool := (200 <=? code r) && (code r <=? 299).

End Http.

(** ** Upload requests *)

Module UploadRequest.
Import Js.
(** A parsed multipart request: [req.files.document] and the text fields
    of [req.body], each a string or undefined. *)
Record t : Type := mk {
  document : option UploadedFile.t;
  doc_id : option string;
  doc_type : option string;
  revision_no : option string
}.

(** A text field as the value that the handler sees. *)
Definition text (o : option string) : jsval :=
  match o with
  | Some s => JStr s
  | None => JUndefined
  end.
End UploadRequest.

(** ** The API Service: [masterPlanDocController] *)

Module Controller.
Import Js Model Http.

(** What the handlers read and write: the table and the disk. *)
Record world : Type := mkWorld { db : Store.table; disk : Fs.disk }.

(** A parsed JSON body: [req.body]. *)
Definition field (body : gmap string jsval) (k : string) : jsval :=
  default JUndefined (body !! k).

(** A destructuring default, [k = dflt]: used when the field is undefined. *)
Definition field_or (body : gmap string jsval) (k : string) (dflt : jsval) : jsval :=
  match field body k with
  | JUndefined => dflt
  | v => v
  end.

(** Successive readings of the clock during one request. *)
Definition clock : Type := nat -> Z.

(** *** simplifyFileType *)

Definition typeMap : list (string * string) :=
  [ ("application/vnd.openxmlformats-officedocument.wordprocessingml.document", "docx");
    ("application/vnd.openxmlformats-officedocument.spreadsheetml.sheet", "xlsx");
    ("application/vnd.openxmlformats-officedocument.presentationml.presentation", "pptx");
    ("application/msword", "doc");
    ("application/pdf", "pdf");
    ("text/plain", "txt") ].


(** [typeMap] is an object literal: a key that it does not own is looked
    up in [Object.prototype], whose members are functions (and, for
    [__proto__], an object). *)
Definition object_prototype : list (string * string) :=
  [ ("constructor", "function Object() { [native code] }");
    ("__defineGetter__", "function __defineGetter__() { [native code] }");
    ("__defineSetter__", "function __defineSetter__() { [native code] }");
    ("hasOwnProperty", "function hasOwnProperty() { [native code] }");
    ("__lookupGetter__", "function __lookupGetter__() { [native code] }");
    ("__lookupSetter__", "function __lookupSetter__() { [native code] }");
    ("isPrototypeOf", "function isPrototypeOf() { [native code] }");
    ("propertyIsEnumerable", "function propertyIsEnumerable() { [native code] }");
    ("toString", "function toString() { [native code] }");
    ("valueOf", "function valueOf() { [native code] }");
    ("__proto__", "[object Object]");
    ("toLocaleString", "function toLocaleString() { [native code] }") ].

Fixpoint assoc (k : string) (kvs : list (string * string)) : option string :=
  match kvs with
  | [] => None
  | (k', v) :: rest => if (k =? k')%string then Some v else assoc k rest
  end.

Definition decimal_Z (n : Z) : string :=
  if n <? 0 then "-" +:+ decimal (Z.to_N (- n)) else decimal (Z.to_N n).

(** The property key that a value denotes in [obj[v]]: its string
    conversion.  (A date converts to its text, which is no key of
    [typeMap] nor of [Object.prototype]; a placeholder stands for it.) *)
Definition property_key (v : jsval) : string :=
  match v with
  | JStr s => s
  | JObj repr => repr
  | JNum n => decimal_Z n
  | JBool true => "true"
  | JBool false => "false"
  | JNull => "null"
  | JUndefined => "undefined"
  | JNaN => "NaN"
  | JDate _ => "Invalid Date"
  end.

(** [typeMap[fileType]] *)
Definition typeMap_lookup (fileType : jsval) : jsval :=
  match assoc (property_key fileType) typeMap with
  | Some short => JStr short
  | None =>
      match assoc (property_key fileType) object_prototype with
      | Some repr => JObj repr
      | None => JUndefined
      end
  end.

(** [v.substring(0, n)]: only strings have the method. *)
Definition substring_method (what : string) (n : nat) (v : jsval) : outcome jsval :=
  match v with
  | JStr s => Ok (JStr (substring0 n s))
  | _ => Throw (TypeError (what +:+ ".substring is not a function"))
  end.

Definition simplifyFileType (fileType : jsval) : outcome jsval :=
  if negb (truthy fileType) then Ok JNull
  else
    let short := typeMap_lookup fileType in
    if truthy short then Ok short
    else substring_method "fileType" 20 fileType.

(** [simplifyFileType(file_type) || file_type?.substring(0, 50)] *)
Definition prepared_file_type (file_type : jsval) : outcome jsval :=
  bind (simplifyFileType file_type) (fun short =>
  if truthy short then Ok short
  else if nullish file_type then Ok JUndefined
  else substring_method "file_type" 50 file_type).



(** The keys of the literal [requiredFields], in its order. *)
Definition required_names : list string :=
  ["doc_id"; "doc_type"; "doc_title"; "revision_no"; "year"; "owner"; "status"].

(** [Object.entries(requiredFields)] *)
Definition requiredFields (body : gmap string jsval) : list (string * jsval) :=
  map (fun k => (k, field body k)) required_names.

(** [.filter(([key, value]) => !value).map(([key]) => key)] *)
Definition missingFields (body : gmap string jsval) : list string :=
  map fst (List.filter (fun kv => negb (truthy (snd kv))) (requiredFields body)).

(** The object literal [dbData], given its [file_type] entry. *)
Definition dbData_of (clk : clock) (body : gmap string jsval) (prepared_type : jsval) : dbData :=
  {| doc_id := field body "doc_id";
     doc_type := field body "doc_type";
     doc_title := field body "doc_title";
     revision_no := field body "revision_no";
     year := parseInt (field body "year");
     quarter := or_else (field body "quarter") JNull;
     owner := field body "owner";
     status := field body "status";
     doc_status := field_or body "doc_status" (JStr "Open");
     is_uploaded := JBool (truthy (field_or body "is_uploaded" (JBool false)));
     uploaded_file := or_else (field body "uploaded_file") JNull;
     file_type := prepared_type;
     file_size := if truthy (field body "file_size")
                  then parseInt (field body "file_size") else JNull;
     storage_path := or_else (field body "storage_path") JNull;
     download_url := or_else (field body "download_url") JNull;
     uploaded_at := or_else (field body "uploaded_at") JNull;
     created_at := JDate (clk 0%nat);
     updated_at := JDate (clk 1%nat) |}.

(** Only the [file_type] entry can throw. *)
Definition prepare (clk : clock) (body : gmap string jsval) : outcome dbData :=
  bind (prepared_file_type (field body "file_type")) (fun prepared_type =>
  Ok (dbData_of clk body prepared_type)).

(** A body that carries the required metadata and nothing else. *)
Definition metadata_only (doc_id doc_type doc_title revision_no year owner status : jsval)
  : gmap string jsval :=
  list_to_map [ ("doc_id", doc_id); ("doc_type", doc_type); ("doc_title", doc_title);
                ("revision_no", revision_no); ("year", year); ("owner", owner);
                ("status", status) ].

Definition error_message (e : js_error) : string :=
  match e with
  | TypeError m | SystemError m => m
  | SequelizeValidationError _ => "Validation error"
  | SequelizeUniqueConstraintError => "Validation error"
  | SequelizeDatabaseError => "Database error"
  end.

Section Handlers.

Variable engine_accepts : dbData -> bool.
(** [process.env.NODE_ENV === 'development'] *)
Variable development : bool.
(** The directory two levels above the controller's [__dirname]. *)
Variable app_root : list string.

(** *** checkDocIdExists *)
Definition checkDocIdExists (w : world) (doc_id : string) : response * world :=
  if negb (truthy (JStr doc_id))
  then (mkResponse 400 (ErrorOnly "Document ID is required"), w)
  else
    let docPlan := Store.findOne (db w) (JStr doc_id) in
    (mkResponse 200 (Exists (bool_decide (is_Some docPlan))), w).

(** *** createMasterPlanDoc *)

(** The [catch] block. *)
Definition create_failed (e : js_error) : response :=
  match e with
  | SequelizeUniqueConstraintError =>
      mkResponse 400 (Message "Document ID already exists in database")
  | SequelizeValidationError errors =>
      mkResponse 400 (MessageErrors "Data validation failed" errors)
  | SequelizeDatabaseError =>
      mkResponse 400 (Message "Database error - check field types and constraints")
  | _ =>
      mkResponse 500 (MessageError "Internal server error while saving to database"
                        (if development then error_message e else "Database operation failed"))
  end.

Definition createMasterPlanDoc (clk : clock) (w : world) (body : gmap string jsval)
  : response * world :=
  let missing := missingFields body in
  if (0 <? List.length missing)%nat
  then (mkResponse 400 (Message ("Missing required fields: " +:+ join ", " missing)), w)
  else
    match Store.findOne (db w) (field body "doc_id") with
    | Some existingDoc => (mkResponse 400 (Message "Document ID already exists"), w)
    | None =>
        match bind (prepare clk body) (Store.create engine_accepts (clk 2%nat) (db w)) with
        | Ok (masterPlanDoc, db') =>
            (mkResponse 201 (MessageData "Master Plan Document created successfully" masterPlanDoc),
             mkWorld db' (disk w))
        | Throw e => (create_failed e, w)
        end
    end.

(** *** getAllMasterPlanDocs, getMasterPlanDocById *)
Definition getAllMasterPlanDocs (w : world) : response * world :=
  (mkResponse 200 (DataList (Store.findAll_desc (db w))), w).

Definition getMasterPlanDocById (w : world) (id : string) : response * world :=
  match Store.findByPk (db w) id with
  | None => (mkResponse 404 (Message "Master Plan Document not found"), w)
  | Some masterPlanDoc => (mkResponse 200 (Data masterPlanDoc), w)
  end.

(** *** uploadFile *)

(** [__dirname] of the controller module is [app_root/app/controllers]. *)
Definition uploadsDir : list string :=
  NodePath.join (app_root ++ ["app"; "controllers"])%list "../../uploads/master-plans".

Definition ensureUploadsDir (d : Fs.disk) : Fs.result :=
  if negb (Fs.existsSync d uploadsDir) then Fs.mkdirSync d uploadsDir else (d, None).

Definition allowedTypes : list string :=
  [ "application/pdf";
    "application/msword";
    "application/vnd.openxmlformats-officedocument.wordprocessingml.document";
    "application/vnd.ms-excel";
    "application/vnd.openxmlformats-officedocument.spreadsheetml.sheet";
    "application/vnd.ms-powerpoint";
    "application/vnd.openxmlformats-officedocument.presentationml.presentation";
    "text/plain" ].

(** [xs.includes(x)] *)
Definition includes (xs : list string) (x : string) : bool :=
  existsb (String.eqb x) xs.

(** The [catch] block. *)
Definition upload_failed (e : js_error) : response :=
  mkResponse 500 (UploadFailed "File upload failed" (error_message e)).

Definition uniqueFileName (doc_id name : string) (timestamp : Z) : string :=
  let fileExtension := NodePath.extname name in
  let baseName := NodePath.basename name fileExtension in
  doc_id +:+ "_" +:+ baseName +:+ "_" +:+ decimal_Z timestamp +:+ fileExtension.

Definition uploadFile (clk : clock) (w : world) (req : UploadRequest.t) : response * world :=
  match UploadRequest.document req with
  | None => (mkResponse 400 (UploadRejected "No file uploaded"), w)
  | Some document =>
      if negb (truthy (UploadRequest.text (UploadRequest.doc_id req)))
         || negb (truthy (UploadRequest.text (UploadRequest.doc_type req)))
         || negb (truthy (UploadRequest.text (UploadRequest.revision_no req)))
      then (mkResponse 400 (UploadRejected
              "All metadata (doc_id, doc_type, revision_no) is required for file upload"), w)
      else if 10 * 1024 * 1024 <? UploadedFile.size document
      then (mkResponse 400 (UploadRejected "File size must be less than 10MB"), w)
      else if negb (includes allowedTypes (UploadedFile.mimetype document))
      then (mkResponse 400 (UploadRejected "File type not supported"), w)
      else
        let doc_id := property_key (UploadRequest.text (UploadRequest.doc_id req)) in
        match ensureUploadsDir (disk w) with
        | (d1, Some e) => (upload_failed e, mkWorld (db w) d1)
        | (d1, None) =>
            let docFolder := NodePath.join uploadsDir doc_id in
            match (if negb (Fs.existsSync d1 docFolder)
                   then Fs.mkdirSync d1 docFolder else (d1, None)) with
            | (d2, Some e) => (upload_failed e, mkWorld (db w) d2)
            | (d2, None) =>
                let fileName := uniqueFileName doc_id (UploadedFile.name document) (clk 0%nat) in
                let filePath := NodePath.join docFolder fileName in
                match Fs.mv document d2 filePath with
                | (d3, Some e) => (upload_failed e, mkWorld (db w) d3)
                | (d3, None) =>
                    let storagePath := "/uploads/master-plans/" +:+ doc_id +:+ "/" +:+ fileName in
                    let downloadUrl :=
                      "/api/masterplandocs/download/" +:+ doc_id +:+ "/" +:+ fileName in
                    (mkResponse 200
                       (Uploaded "File uploaded successfully and stored permanently"
                                 fileName (UploadedFile.name document)
                                 (UploadedFile.size document)
                                 (UploadedFile.mimetype document)
                                 storagePath downloadUrl),
                     mkWorld (db w) d3)
                end
            end
        end
  end.

(** *** downloadFile *)

(** [res.download] serves the file through [send], which by default
    ignores a dot file: a path of which some component is longer than one
    character and starts with a dot, and of which the last component, the
    file's name, starts with a dot, is answered 404.  (Later versions of
    the library ignore the file for a dot in any component; the two agree
    on the paths that hold no such component.) *)
Definition starts_with_dot (part : string) : bool :=
  match part with
  | String "." _ => true
  | _ => false
  end.

Definition containsDotFile (parts : list string) : bool :=
  existsb (fun part => (1 <? String.length part)%nat && starts_with_dot part) parts.

Definition ignoredDotFile (parts : list string) : bool :=
  containsDotFile parts && starts_with_dot (List.last parts "").

Definition downloadFile (w : world) (doc_id fileName : string) : response * world :=
  if negb (truthy (JStr doc_id)) || negb (truthy (JStr fileName))
  then (mkResponse 400 (Message "Document ID and file name are required"), w)
  else
    let filePath := NodePath.join (NodePath.join uploadsDir doc_id) fileName in
    if Fs.existsSync (disk w) filePath
    then if ignoredDotFile filePath
         then (mkResponse 404 (PlainText "Not Found"), w)
         else match Fs.files (disk w) !! filePath with
              | Some file => (mkResponse 200 (FileStream file), w)
              | None => (mkResponse 404 (PlainText "Cannot GET"), w)
              end
    else (mkResponse 404 (Message "File not found"), w).

End Handlers.

End Controller.

(** ** The router: [app/routes/masterPlanDocs.js] *)

Module Routes.
Import Js Http Controller.

Section Router.

Variable engine_accepts : Model.dbData -> bool.
Variable development : bool.
Variable app_root : list string.

(** [limits: { fileSize: 10 * 1024 * 1024 }] *)
Definition fileSize_limit : Z := 10 * 1024 * 1024.

(** The [fileUpload] middleware with [abortOnLimit: true]: a file that
    reaches the limit (its size is the limit or more) ends the request
    with 413 before any handler runs; the parts are buffered in memory. *)
Definition fileUpload (req : UploadRequest.t) : option response :=
  match UploadRequest.document req with
  | Some document =>
      if fileSize_limit <=? UploadedFile.size document
      then Some (mkResponse 413 (PlainText "File size limit has been reached"))
      else None
  | None => None
  end.

(** [router.post('/upload', masterPlanDocController.uploadFile)] behind
    the middleware. *)
Definition post_upload (clk : clock) (w : world) (req : UploadRequest.t) : response * world :=
  match fileUpload req with
  | Some aborted => (aborted, w)
  | None => uploadFile app_root clk w req
  end.

(** [router.post('/', masterPlanDocController.createMasterPlanDoc)] *)
Definition post_root (clk : clock) (w : world) (body : gmap string jsval) : response * world :=
  createMasterPlanDoc engine_accepts development clk w body.

(** The segments of a request path below the router's mount point; one
    trailing slash is tolerated.  The segments are taken as they are sent:
    percent-escapes are not decoded, so the model covers the paths that
    hold none. *)
Definition segments (path : string) : option (list string) :=
  match NodePath.split_slash path with
  | "" :: rest =>
      let rest := match rev rest with
                  | "" :: init => rev init
                  | _ => rest
                  end in
      if forallb (fun seg => negb (seg =? "")%string) rest then Some rest else None
  | _ => None
  end.

Definition lower (c : ascii) : ascii :=
  let k := nat_of_ascii c in
  if (65 <=? k)%nat && (k <=? 90)%nat then ascii_of_nat (k + 32) else c.

(** The fixed parts of a route match whatever the case of the letters. *)
Definition matches (fixed seg : string) : bool :=
  (string_of_list_ascii (map lower (list_ascii_of_string seg)) =? fixed)%string.

(** The GET routes: [/check-doc-id/:doc_id], [/], [/:id] and
    [/download/:doc_id/:fileName].  No two of them take the same number
    of segments, so the order of registration decides nothing. *)
Definition get (w : world) (path : string) : response * world :=
  match segments path with
  | Some [] => getAllMasterPlanDocs w
  | Some [id] => getMasterPlanDocById w id
  | Some [first; doc_id] =>
      if matches "check-doc-id" first then checkDocIdExists w doc_id
      else (mkResponse 404 (PlainText "Cannot GET"), w)
  | Some [first; doc_id; fileName] =>
      if matches "download" first then downloadFile app_root w doc_id fileName
      else (mkResponse 404 (PlainText "Cannot GET"), w)
  | _ => (mkResponse 404 (PlainText "Cannot GET"), w)
  end.

End Router.

End Routes.

(** ** The client service: [masterPlanDocService] *)

Module Service.
Import Js Http Controller.

Section Client.

Variable app_root : list string.

(** [checkDocIdExists(doc_id)]: fetches
    [API_BASE_URL/masterplandocs/doc_id] and answers [response.ok].
    The identifier is put in the URL as it is; the model covers the
    identifiers that the URL syntax leaves alone (no [?], [#], [%], blank
    or dot segment) and a server that answers. *)
Definition checkDocIdExists (w : world) (doc_id : string) : bool :=
  ok (fst (Routes.get app_root w ("/" +:+ doc_id))).

End Client.

End Service.

(** ** The add-document form: [AddDoc.tsx] *)

Module AddDoc.
Import Js Controller.

Section Form.

Variable app_root : list string.

(** [checkDocId(doc_id)], run when the id field loses focus, on the error
    currently shown under the field: nothing happens for an empty value;
    otherwise the error is set when the service says that the id exists
    and cleared when it says that it does not. *)
Definition checkDocId (w : world) (shown : option string) (doc_id : string) : option string :=
  if negb (truthy (JStr doc_id)) then shown
  else if Service.checkDocIdExists app_root w doc_id
       then Some "Document ID already exists"
       else None.

End Form.

End AddDoc.

(** ** Words of the specification *)

Module Spec.

(** The specification speaks of a sanitized base name without saying
    more.  The reading taken here is the weakest usual one: a sanitized
    name holds no control character and none of the characters that file
    systems and shells reserve (double quote, [*], [/], [:], [<], [>],
    [?], backslash, [|]). *)
Definition reserved (c : ascii) : bool :=
  let k := nat_of_ascii c in
  (k <? 32)%nat || existsb (Nat.eqb k) [34; 42; 47; 58; 60; 62; 63; 92; 124; 127]%nat.

Definition sanitized (s : string) : bool :=
  forallb (fun c => negb (reserved c)) (list_ascii_of_string s).

(** The create operation answers with the conflict error. *)
Definition conflict : Http.response :=
  Http.mkResponse 400 (Http.Message "Document ID already exists").

(** A message names a field: the field's name stands in it. *)
Definition names (message field : string) : Prop :=
  exists before after, message = before +:+ field +:+ after.

(** Names written one after the other, a comma and a blank between two
    of them. *)
Fixpoint listed (fields : list string) : string :=
  match fields with
  | [] => ""
  | field :: rest =>
      match rest with
      | [] => field
      | _ :: _ => field +:+ ", " +:+ listed rest
      end
  end.

End Spec.

(** ** Concrete requests and worlds *)

Module Sample.
Import Js Model Http Controller.

(** An engine that checks what the column types of the model say: no NaN,
    strings within the declared length. *)
Definition fits (a : attribute) (v : jsval) : bool :=
  match v, col_type a with
  | JNull, _ => true
  | JNaN, _ => false
  | JStr s, STRING n => (String.length s <=? n)%nat
  | _, _ => true
  end.

Definition strict (d : dbData) : bool :=
  forallb (fun a => fits a (get a d)) attributes.

Definition clk (n : nat) : Z := 1700000000000 + Z.of_nat n.

Definition app_root : list string := ["srv"; "registry"].

Definition empty_world : world :=
  mkWorld (Store.mkTable [] 1) (Fs.mkDisk ∅ ∅).

(** The request of the specification's example. *)
Definition doc1 : gmap string jsval :=
  list_to_map [ ("doc_id", JStr "DOC-1"); ("doc_type", JStr "Policy");
                ("doc_title", JStr "X"); ("revision_no", JStr "1.0");
                ("year", JNum 2024); ("owner", JStr "Ops"); ("status", JStr "Draft") ].

(** The world once [doc1] has been registered. *)
Definition world1 : world := snd (createMasterPlanDoc strict false clk empty_world doc1).

(** The flag alone, with no file behind it. *)
Definition doc2_flagged : gmap string jsval :=
  <["is_uploaded" := JBool true]> (<["doc_id" := JStr "DOC-2"]> doc1).

(** What the form sends after an upload. *)
Definition doc3_attached : gmap string jsval :=
  list_to_map [ ("doc_id", JStr "DOC-3"); ("doc_type", JStr "Policy");
                ("doc_title", JStr "Plan"); ("revision_no", JStr "2.0");
                ("year", JNum 2025); ("quarter", JNull); ("owner", JStr "Ops");
                ("status", JStr "Draft"); ("doc_status", JStr "Open");
                ("is_uploaded", JBool true); ("uploaded_file", JStr "plan.docx");
                ("file_type", JStr "application/vnd.openxmlformats-officedocument.wordprocessingml.document");
                ("file_size", JNum 2048);
                ("storage_path", JStr "/uploads/master-plans/DOC-3/DOC-3_plan_1700000000000.docx");
                ("download_url", JStr "/api/masterplandocs/download/DOC-3/DOC-3_plan_1700000000000.docx");
                ("uploaded_at", JStr "2023-11-14T22:13:20.000Z") ].

(** A request that names a stored document and nothing else. *)
Definition only_id : gmap string jsval := {[ "doc_id" := JStr "DOC-1" ]}.

(** The request of the example without its title and with an empty type. *)
Definition untitled_blank_type : gmap string jsval :=
  delete "doc_title" (<["doc_type" := JStr ""]> doc1).


(** The record and the world that registering [doc3_attached] gives. *)
Definition record3 : instance :=
  mkInstance 1 (dbData_of clk doc3_attached (JStr "docx")).

Definition world3 : world :=
  snd (createMasterPlanDoc strict false clk empty_world doc3_attached).

Definition pdf (name : string) (size : Z) : UploadedFile.t :=
  UploadedFile.mk name size "application/pdf".

Definition upload_of (doc : UploadedFile.t) : UploadRequest.t :=
  UploadRequest.mk (Some doc) (Some "DOC-1") (Some "Policy") (Some "1.0").

(** The world after the upload of a small PDF for "DOC-1". *)
Definition uploaded_world : world :=
  snd (uploadFile app_root clk empty_world (upload_of (pdf "plan.final.pdf" 1024))).

End Sample.

(** ** Text search *)

Module Text.

Fixpoint starts_with (sub s : string) : bool :=
  match sub, s with
  | EmptyString, _ => true
  | String a sub', String b s' => (a =? b)%char && starts_with sub' s'
  | String _ _, EmptyString => false
  end.

(** [s.includes(sub)] *)
Fixpoint includes (s sub : string) : bool :=
  starts_with sub s
  || match s with
     | String _ r => includes r sub
     | EmptyString => false
     end.

(** [s.toLowerCase()], on ASCII text. *)
Definition toLowerCase (s : string) : string :=
  string_of_list_ascii (map Routes.lower (list_ascii_of_string s)).

(** [s.trim()] *)
Definition trim (s : string) : string :=
  string_of_list_ascii
    (rev (NodePath.drop_while Js.is_space
            (rev (NodePath.drop_while Js.is_space (list_ascii_of_string s))))).

(** The characters that the form admits in a document id,
    [[A-Za-z0-9_-]]. *)
Definition word_char (c : ascii) : bool :=
  let k := nat_of_ascii c in
  ((97 <=? k)%nat && (k <=? 122)%nat) || ((65 <=? k)%nat && (k <=? 90)%nat)
  || ((48 <=? k)%nat && (k <=? 57)%nat) || (c =? "_")%char || (c =? "-")%char.

(** A text of such characters only. *)
Definition word (s : string) : Prop :=
  forallb word_char (list_ascii_of_string s) = true.

(** A text of ASCII characters only. *)
Definition ascii_only (s : string) : Prop :=
  forallb (fun c => (nat_of_ascii c <? 128)%nat) (list_ascii_of_string s) = true.

(** Two texts that a comparison blind to the case of letters takes for
    the same one. *)
Definition alike (a b : string) : Prop :=
  toLowerCase a = toLowerCase b.

(** Two characters that are the same, or the two cases of one of the 26
    letters. *)
Definition same_letter (a b : ascii) : Prop :=
  a = b
  \/ ((65 <= nat_of_ascii a <= 90)%nat /\ nat_of_ascii b = (nat_of_ascii a + 32)%nat)
  \/ ((65 <= nat_of_ascii b <= 90)%nat /\ nat_of_ascii a = (nat_of_ascii b + 32)%nat).

(** Two texts of the same length that are the same character by
    character, the case of letters apart. *)
Definition same_letters (s t : string) : Prop :=
  Forall2 same_letter (list_ascii_of_string s) (list_ascii_of_string t).

End Text.

(** ** Tables that the service keeps consistent *)


Module Keys.
Import Js Model.

Definition ids (t : Store.table) : list Z := map id (Store.rows t).

Definition doc_ids (t : Store.table) : list jsval :=
  map (fun r => doc_id (dataValues r)) (Store.rows t).

(** No two rows share a surrogate key or a [doc_id], and the counter of
    the table is above every key in use. *)
Definition well_keyed (t : Store.table) : Prop :=
  NoDup (ids t) /\ NoDup (doc_ids t) /\ Forall (fun r => id r < Store.next_id t) (Store.rows t).

(** A body whose [doc_id], when it carries one, is a text of the
    characters that the form admits. *)
Definition text_id (body : gmap string jsval) : Prop :=
  match Controller.field body "doc_id" with
  | JStr s => Text.word s
  | JUndefined | JNull => True
  | _ => False
  end.

(** Requests of which no two document ids differ by the case of letters
    only. *)
Definition one_case (requests : list (Controller.clock * gmap string jsval)) : Prop :=
  forall a b s t,
    In a requests -> In b requests ->
    Controller.field (snd a) "doc_id" = JStr s ->
    Controller.field (snd b) "doc_id" = JStr t ->
    Text.alike s t -> s = t.

(** Every stored [doc_id] is a text. *)
Definition text_keys (t : Store.table) : Prop :=
  Forall (fun r => exists s, doc_id (dataValues r) = JStr s) (Store.rows t).

(** Rows from the most recent [created_at] to the oldest. *)
Definition newest_first (rs : list instance) : Prop :=
  StronglySorted
    (fun a b => Store.date_key (created_at (dataValues b))
                <= Store.date_key (created_at (dataValues a))) rs.

Section Runs.

Variable engine_accepts : dbData -> bool.
Variable development : bool.

(** The world after a sequence of create requests, served one by one. *)
Definition after_creates (w : Controller.world)
           (requests : list (Controller.clock * gmap string jsval)) : Controller.world :=
  fold_left (fun w req =>
               snd (Controller.createMasterPlanDoc engine_accepts development (fst req) w (snd req)))
            requests w.

End Runs.

End Keys.

(** ** Decimal numerals *)

Module Numeral.

(** The value of the digits [d] read after a prefix worth [acc]. *)
Fixpoint value (d : Decimal.uint) (acc : Z) : Z :=
  match d with
  | Decimal.Nil => acc
  | Decimal.D0 l => value l (10 * acc)
  | Decimal.D1 l => value l (10 * acc + 1)
  | Decimal.D2 l => value l (10 * acc + 2)
  | Decimal.D3 l => value l (10 * acc + 3)
  | Decimal.D4 l => value l (10 * acc + 4)
  | Decimal.D5 l => value l (10 * acc + 5)
  | Decimal.D6 l => value l (10 * acc + 6)
  | Decimal.D7 l => value l (10 * acc + 7)
  | Decimal.D8 l => value l (10 * acc + 8)
  | Decimal.D9 l => value l (10 * acc + 9)
  end.

(** The integers that a JavaScript number holds exactly, and that its
    text gives back digit for digit: those between [-(2^53 - 1)] and
    [2^53 - 1]. *)
Definition safe (n : Z) : Prop := - (2 ^ 53 - 1) <= n <= 2 ^ 53 - 1.

End Numeral.

(** ** Plain path segments *)

Module Names.

(** A name without slash. *)
Definition slash_free (s : string) : Prop :=
  Forall (fun c => NodePath.is_slash c = false) (list_ascii_of_string s).

(** A name that [path.join] appends as one segment: no slash in it, and
    it is not empty, ["."] or [".."]. *)
Definition plain (s : string) : Prop :=
  slash_free s /\ s <> "" /\ s <> "." /\ s <> "..".

End Names.

(** ** The API Service, continued: [deleteFile] *)

Module Deletion.
Import Js Controller.

(** The body of the answers of [deleteFile]:
    [{ success, message }] and, from the [catch], [{ success, message, error }]. *)
Record answer : Type := mkAnswer {
  code : Z;
  success : bool;
  message : string;
  error : option string
}.

(** [fs.unlinkSync(p)] *)
Definition unlinkSync (d : Fs.disk) (p : list string) : Fs.result :=
  if Fs.is_file d p
  then ({| Fs.dirs := Fs.dirs d; Fs.files := delete p (Fs.files d) |}, None)
  else if bool_decide (p ∈ Fs.dirs d)
  then (d, Some (SystemError "EISDIR: illegal operation on a directory, unlink"))
  else (d, Some (SystemError "ENOENT: no such file or directory, unlink")).

Section Handler.

Variable app_root : list string.
(** The text of the [TypeError] that [path.join] raises on an argument
    that is not a string; it depends on the value received. *)
Variable invalid_argument : jsval -> string.

Definition deleteFile (w : world) (body : gmap string jsval) : answer * world :=
  let filePath := field body "filePath" in
  if negb (truthy filePath)
  then (mkAnswer 400 false "File path is required" None, w)
  else
    match filePath with
    | JStr p =>
        let fullPath :=
          NodePath.join (NodePath.join (app_root ++ ["app"; "controllers"])%list "../..") p in
        if Fs.existsSync (disk w) fullPath then
          match unlinkSync (disk w) fullPath with
          | (d, None) => (mkAnswer 200 true "File deleted successfully" None, mkWorld (db w) d)
          | (d, Some e) =>
              (mkAnswer 500 false "File deletion failed" (Some (error_message e)),
               mkWorld (db w) d)
          end
        else (mkAnswer 404 false "File not found" None, w)
    | other =>
        (mkAnswer 500 false "File deletion failed" (Some (invalid_argument other)), w)
    end.

End Handler.

End Deletion.

(** ** The client service, continued *)

Module Client.
Import Js Model Http Controller.

(** A call of the service ends with a value, or throws an [Error] with a
    message. *)
Inductive attempt (A : Type) : Type :=
| Done (a : A)
| Failed (message : string).
Arguments Done {A} a.
Arguments Failed {A} message.

(** [`HTTP error! status: ${response.status}`] *)
Definition http_error (response : Http.response) : string :=
  "HTTP error! status: " +:+ decimal_Z (Http.code response).

Section Calls.

Variable engine_accepts : dbData -> bool.
Variable development : bool.
Variable app_root : list string.
(** The message of the [SyntaxError] that [response.json()] raises on a
    body that is not JSON. *)
Variable not_json : payload -> string.

(** [getAllMasterPlanDocs()]: the documents of a 2xx answer, read from
    its [data] (or [documents]) array, an empty list for any other JSON
    shape. *)
Definition getAllMasterPlanDocs (w : world) : attempt (list instance) :=
  let response := fst (Routes.get app_root w "/") in
  if negb (ok response) then Failed (http_error response)
  else match json response with
       | DataList data => Done data
       | PlainText _ | FileStream _ => Failed (not_json (json response))
       | _ => Done []
       end.

(** [createMasterPlanDoc(data)]: the parsed answer when it is 2xx. *)
Definition createMasterPlanDoc (clk : clock) (w : world) (data : gmap string jsval)
  : attempt payload * world :=
  let '(response, w') := Routes.post_root engine_accepts development clk w data in
  if negb (ok response) then (Failed (http_error response), w')
  else (Done (json response), w').

(** [downloadMasterPlanDoc(doc_id)]: the file of a 2xx answer to
    [GET /masterplandocs/download/doc_id], saved by the browser. *)
Definition downloadMasterPlanDoc (w : world) (doc_id : string) : attempt payload :=
  let response := fst (Routes.get app_root w ("/download/" +:+ doc_id)) in
  if negb (ok response) then Failed (http_error response)
  else Done (json response).

End Calls.

End Client.

(** ** The add-document form, continued: [AddDoc.tsx] *)

Module AddDocForm.
Import Js Http Controller.

Definition MAX_FILE_SIZE : Z := 10 * 1024 * 1024.

Definition ALLOWED_FILE_TYPES : list string :=
  [ "application/pdf";
    "application/msword";
    "application/vnd.openxmlformats-officedocument.wordprocessingml.document";
    "application/vnd.ms-excel";
    "application/vnd.openxmlformats-officedocument.spreadsheetml.sheet";
    "application/vnd.ms-powerpoint";
    "application/vnd.openxmlformats-officedocument.presentationml.presentation";
    "text/plain" ].

(** The values of the form: text inputs are strings, the year is the
    number parsed from the selected item, the two optional selects are
    undefined until chosen. *)
Record FormValues : Type := mkValues {
  doc_id : string;
  doc_type : string;
  doc_title : string;
  revision_no : string;
  year : Z;
  quarter : option string;
  owner : string;
  status : string;
  doc_status : option string
}.

(** *** formSchema *)

Definition in_range (lo hi : nat) (c : ascii) : bool :=
  let k := nat_of_ascii c in ((lo <=? k) && (k <=? hi))%nat.

(** [[a-zA-Z0-9_-]] *)
Definition id_char (c : ascii) : bool :=
  in_range 97 122 c || in_range 65 90 c || in_range 48 57 c
  || (c =? "_")%char || (c =? "-")%char.

(** [[0-9.]] *)
Definition revision_char (c : ascii) : bool :=
  in_range 48 57 c || (c =? ".")%char.

(** [/^[...]+$/] *)
Definition regex_plus (class : ascii -> bool) (s : string) : bool :=
  negb (s =? "")%string && forallb class (list_ascii_of_string s).

(** [z.string().min(lo).max(hi)] *)
Definition min_max (lo hi : nat) (s : string) : bool :=
  ((lo <=? String.length s) && (String.length s <=? hi))%nat.

(** [z.string().max(hi).optional()] *)
Definition max_optional (hi : nat) (o : option string) : bool :=
  match o with
  | Some s => (String.length s <=? hi)%nat
  | None => true
  end.

(** The schema accepts the values. *)
Definition formSchema (v : FormValues) : bool :=
  min_max 1 50 (doc_id v) && regex_plus id_char (doc_id v)
  && min_max 1 100 (doc_type v)
  && min_max 1 255 (doc_title v)
  && min_max 1 20 (revision_no v) && regex_plus revision_char (revision_no v)
  && (2000 <=? year v) && (year v <=? 2100)
  && max_optional 10 (quarter v)
  && min_max 1 150 (owner v)
  && min_max 1 50 (status v)
  && max_optional 50 (doc_status v).

(** *** checkFormValidity *)

(** [data[field] && String(data[field]).trim().length > 0] *)
Definition filled (s : string) : bool :=
  truthy (JStr s) && (0 <? String.length (Text.trim s))%nat.

Definition checkFormValidity (data : FormValues) : bool :=
  let allRequiredFilled :=
    forallb filled [doc_id data; doc_type data; doc_title data; revision_no data;
                    owner data; status data] in
  let yearValid := (2000 <=? year data) && (year data <=? 2100) in
  allRequiredFilled && yearValid.

(** *** validateFile *)

(** A browser [File] has a name, a size and a type, as the part that the
    server receives. *)
Definition File : Type := UploadedFile.t.

Record validation : Type := mkValidation { isValid : bool; error : option string }.

(** [(size / 1024 / 1024).toFixed(2)] for a size in bytes: the quotient
    is exact, and [toFixed] rounds its hundredths to the nearest, the
    larger one on a tie. *)
Definition megabytes (size : Z) : string :=
  let n := (200 * size + 1048576) / 2097152 in
  decimal_Z (n / 100) +:+ "."
    +:+ (if n mod 100 <? 10 then "0" else "") +:+ decimal_Z (n mod 100).

Definition validateFile (file : File) : validation :=
  if MAX_FILE_SIZE <? UploadedFile.size file
  then mkValidation false
         (Some ("File size must be less than 10MB. Current size: "
                  +:+ megabytes (UploadedFile.size file) +:+ "MB"))
  else if negb (includes ALLOWED_FILE_TYPES (UploadedFile.mimetype file))
          && negb (UploadedFile.mimetype file =? "")%string
  then mkValidation false
         (Some "File type not supported. Please upload PDF, Word, Excel, PowerPoint, or Text files.")
  else mkValidation true None.

(** *** The state of the component *)

Inductive result_type : Type := success | failure.   (* 'success' | 'error' *)

Record result : Type := mkResult { type : result_type; message : string }.

Record UploadedFileInfo : Type := mkInfo {
  file : File;
  storagePath : jsval;
  downloadUrl : jsval;
  uploadedAt : string
}.

Record state : Type := mkState {
  values : FormValues;
  isFormValid : bool;
  selectedFile : option File;
  uploadedFileInfo : option UploadedFileInfo;
  uploadResult : option result;
  submitResult : option result
}.

(** The subscription to [form.watch]: a change of the values recomputes
    [isFormValid]. *)
Definition change (st : state) (v : FormValues) : state :=
  mkState v (checkFormValidity v) (selectedFile st) (uploadedFileInfo st)
          (uploadResult st) (submitResult st).

(** *** handleFileSelect *)
Definition handleFileSelect (st : state) (chosen : option File) : state :=
  match chosen with
  | None => st
  | Some file =>
      let validation := validateFile file in
      if negb (isValid validation)
      then mkState (values st) (isFormValid st) (selectedFile st) (uploadedFileInfo st)
                   (Some (mkResult failure (default "" (error validation)))) (submitResult st)
      else mkState (values st) (isFormValid st) (Some file) (uploadedFileInfo st)
                   None (submitResult st)
  end.

(** *** The button states *)
Definition isUploadButtonEnabled (st : state) : bool :=
  isFormValid st && bool_decide (is_Some (selectedFile st))
  && negb (bool_decide (is_Some (uploadedFileInfo st))).

Definition isSaveButtonEnabled (st : state) : bool :=
  isFormValid st && bool_decide (is_Some (uploadedFileInfo st)).

Definition isClearButtonEnabled (st : state) : bool :=
  isFormValid st || bool_decide (is_Some (selectedFile st))
  || bool_decide (is_Some (uploadedFileInfo st)).

(** *** handleFileUpload *)

(** The part that the browser sends for a file: its content type is the
    file's type, or [application/octet-stream] when the type is empty. *)
Definition part (f : File) : UploadedFile.t :=
  UploadedFile.mk (UploadedFile.name f) (UploadedFile.size f)
    (if (UploadedFile.mimetype f =? "")%string then "application/octet-stream"
     else UploadedFile.mimetype f).

(** The [content-type] of the answer is [application/json]. *)
Definition is_json (p : payload) : bool :=
  match p with
  | PlainText _ | FileStream _ => false
  | _ => true
  end.

(** [result.message] and [result.success] of a parsed answer *)
Definition result_message (p : payload) : jsval :=
  match p with
  | Message m | MessageData m _ | MessageErrors m _ | MessageError m _ => JStr m
  | UploadRejected m | UploadFailed m _ | Uploaded m _ _ _ _ _ _ => JStr m
  | _ => JUndefined
  end.

Definition result_success (p : payload) : jsval :=
  match p with
  | UploadRejected _ | UploadFailed _ _ => JBool false
  | Uploaded _ _ _ _ _ _ _ => JBool true
  | _ => JUndefined
  end.

(** [v || dflt], as text *)
Definition text_or (v : jsval) (dflt : string) : string :=
  match or_else v (JStr dflt) with
  | JStr s => s
  | other => property_key other
  end.

(** The message of the error thrown on an answer that is not a success;
    [None] when nothing is thrown. *)
Definition upload_error (response : Http.response) : option string :=
  if negb (is_json (json response)) then
    Some (if code response =? 404
          then "Upload endpoint not found (404). Please check backend server."
          else if code response =? 413
          then "File too large. Please select a smaller file."
          else "Server returned an error (Status: " +:+ decimal_Z (code response) +:+ ").")
  else if negb (ok response) then
    Some (text_or (result_message (json response))
                  ("Upload failed with status " +:+ decimal_Z (code response)))
  else if negb (truthy (result_success (json response))) then
    Some (text_or (result_message (json response)) "Upload failed")
  else None.

(** The [catch] block: the message shown for a thrown one. *)
Definition shown_error (thrown : string) : string :=
  let errorMessage := text_or (JStr thrown) "Failed to upload file. Please try again." in
  if Text.includes errorMessage "Upload endpoint not found"
  then "Upload endpoint not available. Please check backend server."
  else if Text.includes errorMessage "Failed to fetch"
          || Text.includes errorMessage "NetworkError"
  then "Cannot connect to server. Please make sure backend is running on http://localhost:3001"
  else if Text.includes errorMessage "File too large"
  then "File is too large. Maximum file size is 10MB."
  else errorMessage.

(** [result.storagePath] and [result.downloadUrl] *)
Definition stored_at (p : payload) : jsval * jsval :=
  match p with
  | Uploaded _ _ _ _ _ storagePath downloadUrl => (JStr storagePath, JStr downloadUrl)
  | _ => (JUndefined, JUndefined)
  end.

Definition quote : string := String (ascii_of_nat 34) EmptyString.

Section Handlers.

Variable engine_accepts : Model.dbData -> bool.
Variable development : bool.
Variable app_root : list string.
Variable invalid_argument : jsval -> string.
(** [new Date().toISOString()] in the browser, when the upload answers. *)
Variable uploaded_now : string.
(** The default values: those of the hook, with the year of the day. *)
Variable defaultValues : FormValues.

Definition handleFileUpload (clk : clock) (st : state) (w : world) : state * world :=
  match selectedFile st with
  | None =>
      (mkState (values st) (isFormValid st) (selectedFile st) (uploadedFileInfo st)
               (Some (mkResult failure "Please select a file first")) (submitResult st), w)
  | Some selected =>
      if negb (isFormValid st)
      then (mkState (values st) (isFormValid st) (selectedFile st) (uploadedFileInfo st)
                    (Some (mkResult failure
                             "Please fill all required metadata fields before uploading file"))
                    (submitResult st), w)
      else
        let formValues := values st in
        let '(response, w') :=
          Routes.post_upload app_root clk w
            (UploadRequest.mk (Some (part selected)) (Some (doc_id formValues))
                              (Some (doc_type formValues)) (Some (revision_no formValues))) in
        match upload_error response with
        | Some thrown =>
            (mkState (values st) (isFormValid st) None (uploadedFileInfo st)
                     (Some (mkResult failure (shown_error thrown))) (submitResult st), w')
        | None =>
            let fileInfo :=
              mkInfo selected (fst (stored_at (json response))) (snd (stored_at (json response)))
                     uploaded_now in
            (mkState (values st) (isFormValid st) (selectedFile st) (Some fileInfo)
                     (Some (mkResult success
                              ("File " +:+ quote +:+ UploadedFile.name selected +:+ quote
                                 +:+ " uploaded successfully! You can now save the document.")))
                     (submitResult st), w')
        end
  end.

(** *** handleSaveDocument *)

(** [value || dflt] for an optional text *)
Definition optional_or (o : option string) (dflt : jsval) : jsval :=
  or_else (UploadRequest.text o) dflt.

(** [submitData], as the server parses it from the JSON text (an
    undefined entry is left out of the text, and reads as undefined). *)
Definition submitData (data : FormValues) (info : UploadedFileInfo) : gmap string jsval :=
  list_to_map
    [ ("doc_id", JStr (doc_id data));
      ("doc_type", JStr (doc_type data));
      ("doc_title", JStr (doc_title data));
      ("revision_no", JStr (revision_no data));
      ("year", JNum (year data));
      ("quarter", optional_or (quarter data) JNull);
      ("owner", JStr (owner data));
      ("status", JStr (status data));
      ("doc_status", optional_or (doc_status data) (JStr "Open"));
      ("is_uploaded", JBool true);
      ("uploaded_file", JStr (UploadedFile.name (file info)));
      ("file_type", JStr (UploadedFile.mimetype (file info)));
      ("file_size", JNum (UploadedFile.size (file info)));
      ("storage_path", storagePath info);
      ("download_url", downloadUrl info);
      ("uploaded_at", JStr (uploadedAt info)) ].

Definition handleSaveDocument (clk : clock) (st : state) (w : world) (data : FormValues)
  : state * world :=
  match uploadedFileInfo st with
  | None =>
      (mkState (values st) (isFormValid st) (selectedFile st) (uploadedFileInfo st)
               (uploadResult st)
               (Some (mkResult failure
                        "Please upload a file first before saving the document.")), w)
  | Some info =>
      match Client.createMasterPlanDoc engine_accepts development clk w (submitData data info) with
      | (Client.Done _, w') =>
          (mkState defaultValues false None None None
                   (Some (mkResult success
                            "Master Plan Document saved successfully! File has been permanently stored.")),
           w')
      | (Client.Failed thrown, w') =>
          (mkState (values st) (isFormValid st) (selectedFile st) (uploadedFileInfo st)
                   (uploadResult st)
                   (Some (mkResult failure
                            (text_or (JStr thrown)
                               "Failed to save master plan document. Please try again."))),
           w')
      end
  end.

(** [form.handleSubmit(handleSaveDocument)]: the handler runs on the
    values when the schema accepts them. *)
Definition onSubmit (clk : clock) (st : state) (w : world) : state * world :=
  if formSchema (values st) then handleSaveDocument clk st w (values st) else (st, w).

(** *** handleClearAll *)
Definition handleClearAll (st : state) (w : world) : state * world :=
  let w' :=
    match uploadedFileInfo st with
    | Some info =>
        snd (Deletion.deleteFile app_root invalid_argument w
               (list_to_map [ ("filePath", storagePath info);
                              ("doc_id", JStr (doc_id (values st))) ]))
    | None => w
    end in
  (mkState defaultValues false None None None None, w').

End Handlers.

End AddDocForm.

(** ** The list page: [MasterPlanPage.tsx] *)

Module MasterPlanPage.
Import Js Model.

(** [doc.name?.toLowerCase().includes(searchTerm.toLowerCase())]: the
    chain stops on a null or undefined field; a value of another kind has
    no such method. *)
Definition field_matches (name : string) (v : jsval) (searchTerm : string) : outcome bool :=
  match v with
  | JUndefined | JNull => Ok false
  | JStr s => Ok (Text.includes (Text.toLowerCase s) (Text.toLowerCase searchTerm))
  | _ => Throw (TypeError ("doc." +:+ name +:+ "?.toLowerCase is not a function"))
  end.

(** [a || b], where [b] is evaluated only when [a] is false. *)
Definition or_lazy (a b : outcome bool) : outcome bool :=
  bind a (fun found => if found then Ok true else b).

Definition doc_matches (searchTerm : string) (doc : instance) : outcome bool :=
  or_lazy (field_matches "doc_id" (doc_id (dataValues doc)) searchTerm)
    (or_lazy (field_matches "doc_title" (doc_title (dataValues doc)) searchTerm)
       (or_lazy (field_matches "doc_type" (doc_type (dataValues doc)) searchTerm)
          (field_matches "owner" (owner (dataValues doc)) searchTerm))).

(** [documents.filter(p)] for a predicate that may throw. *)
Fixpoint filter (p : instance -> outcome bool) (documents : list instance)
  : outcome (list instance) :=
  match documents with
  | [] => Ok []
  | doc :: rest =>
      bind (p doc) (fun keep =>
      bind (filter p rest) (fun kept =>
      Ok (if keep then doc :: kept else kept)))
  end.

Definition filteredDocuments (documents : list instance) (searchTerm : string)
  : outcome (list instance) :=
  if negb (truthy (JStr searchTerm)) then Ok documents
  else filter (doc_matches searchTerm) documents.

(** The four fields that the search reads hold ASCII text, or nothing. *)
Definition searchable (doc : instance) : Prop :=
  Forall (fun v => v = JNull \/ v = JUndefined
                   \/ exists s, v = JStr s /\ Text.ascii_only s)
         [doc_id (dataValues doc); doc_title (dataValues doc);
          doc_type (dataValues doc); owner (dataValues doc)].

(** The value is a text of which a stretch is [searchTerm], the case of
    letters apart. *)
Definition holds (searchTerm : string) (v : jsval) : Prop :=
  exists before stretch after,
    v = JStr (before +:+ stretch +:+ after)
    /\ Text.same_letters stretch searchTerm.

End MasterPlanPage.

(** ** A form ready for its upload *)

Module FormSample.

Definition values : AddDocForm.FormValues :=
  AddDocForm.mkValues "DOC-7" "Policy" "Plan" "1.0" 2025 None "Ops" "Draft" (Some "Open").

Definition defaultValues : AddDocForm.FormValues :=
  AddDocForm.mkValues "" "" "" "" 2025 None "" "" (Some "Open").

Definition file : AddDocForm.File := Sample.pdf "plan.pdf" 2048.

Definition ready : AddDocForm.state :=
  AddDocForm.change (AddDocForm.mkState defaultValues false (Some file) None None None) values.

Definition uploaded_now : string := "2023-11-14T22:13:20.000Z".

(** The text of the error for a path that is not a string. *)
Definition invalid_argument (v : Js.jsval) : string :=
  "The " +:+ String (ascii_of_nat 34) "path" +:+ String (ascii_of_nat 34) ""
    +:+ " argument must be of type string. Received " +:+ Controller.property_key v.

End FormSample.

(** * Properties *)

Import Js Model Http Controller.

(** ** Node's path functions on known inputs *)

Module NodePathExamples.
Import NodePath.
Example extname_plain : extname "index.html" = ".html". Proof. reflexivity. Qed.
Example extname_two : extname "index.coffee.md" = ".md". Proof. reflexivity. Qed.
Example extname_trailing_dot : extname "index." = ".". Proof. reflexivity. Qed.
Example extname_none : extname "index" = "". Proof. reflexivity. Qed.
Example extname_hidden : extname ".index" = "". Proof. reflexivity. Qed.
Example extname_hidden_md : extname ".index.md" = ".md". Proof. reflexivity. Qed.
Example extname_dotdot : extname ".." = "". Proof. reflexivity. Qed.
Example extname_dots : extname "..." = ".". Proof. reflexivity. Qed.
Example extname_dir : extname "a.b/c" = "". Proof. reflexivity. Qed.
Example basename_ext : basename "/foo/bar/quux.html" ".html" = "quux". Proof. reflexivity. Qed.
Example basename_noext : basename "/foo/bar/quux.html" "" = "quux.html". Proof. reflexivity. Qed.
Example basename_whole : basename "aaa/.html" ".html" = ".html". Proof. reflexivity. Qed.
Example basename_other : basename "report.final.pdf" ".pdf" = "report.final". Proof. reflexivity. Qed.
Example join_plain :
  join ["srv"; "uploads"; "master-plans"] "DOC-1" = ["srv"; "uploads"; "master-plans"; "DOC-1"].
Proof. reflexivity. Qed.
Example join_climb :
  join ["srv"; "uploads"; "master-plans"] "../x//y/." = ["srv"; "uploads"; "x"; "y"].
Proof. reflexivity. Qed.
End NodePathExamples.

(** ** Generic facts *)

Arguments field : simpl never.
Arguments field_or : simpl never.
Arguments missingFields : simpl never.
Arguments prepared_file_type : simpl never.
Arguments dbData_of : simpl never.
Arguments Store.persisted : simpl never.
Arguments Store.schema_errors : simpl never.
Arguments Store.findOne : simpl never.
Arguments Store.apply_defaults : simpl never.
Arguments Store.create : simpl never.

Lemma field_insert_eq (body : gmap string jsval) k v : field (<[k := v]> body) k = v.
Proof. unfold field. by rewrite lookup_insert_eq. Qed.

Lemma field_insert_ne (body : gmap string jsval) k k' v :
  k <> k' -> field (<[k := v]> body) k' = field body k'.
Proof. intros. unfold field. by rewrite lookup_insert_ne. Qed.

Lemma field_delete_eq (body : gmap string jsval) k : field (delete k body) k = JUndefined.
Proof. unfold field. by rewrite lookup_delete_eq. Qed.

Lemma field_delete_ne (body : gmap string jsval) k k' :
  k <> k' -> field (delete k body) k' = field body k'.
Proof. intros. unfold field. by rewrite lookup_delete_ne. Qed.

Lemma field_absent (body : gmap string jsval) k : body !! k = None -> field body k = JUndefined.
Proof. intros H. unfold field. by rewrite H. Qed.

Lemma in_missingFields (body : gmap string jsval) k :
  In k (missingFields body) <-> In k required_names /\ truthy (field body k) = false.
Proof.
  unfold missingFields, requiredFields. rewrite in_map_iff. split.
  - intros [[k' v] [Hk Hin]]. simpl in Hk. subst k'.
    apply filter_In in Hin as [Hin Hv]. apply in_map_iff in Hin as [k0 [Heq Hin]].
    inversion Heq; subst. simpl in Hv. split; [done|]. by destruct (truthy (field body k)).
  - intros [Hin Hv]. exists (k, field body k). split; [done|].
    apply filter_In. split.
    + apply in_map_iff. by exists k.
    + simpl. by rewrite Hv.
Qed.

Lemma missing_test (body : gmap string jsval) :
  (0 <? List.length (missingFields body))%nat = false <-> missingFields body = [].
Proof.
  destruct (missingFields body); simpl; split; intros H; try done.
Qed.

Lemma missingFields_ext (b1 b2 : gmap string jsval) :
  (forall k, In k required_names -> truthy (field b1 k) = truthy (field b2 k)) ->
  missingFields b1 = missingFields b2.
Proof.
  unfold missingFields, requiredFields. induction required_names as [|k ks IH]; intros H.
  - reflexivity.
  - simpl. rewrite (H k) by (by left).
    destruct (truthy (field b2 k)); simpl; rewrite IH; try done; intros; apply H; by right.
Qed.

Lemma missingFields_filter (body : gmap string jsval) :
  missingFields body = List.filter (fun k => negb (truthy (field body k))) required_names.
Proof.
  unfold missingFields, requiredFields.
  induction required_names as [|k ks IH]; [done|]. simpl.
  destruct (truthy (field body k)); simpl; by rewrite IH.
Qed.

Lemma persisted_values (d : dbData) :
  Store.persisted d =
    mkData (Store.to_sql (doc_id d)) (Store.to_sql (doc_type d)) (Store.to_sql (doc_title d))
           (Store.to_sql (revision_no d)) (Store.to_sql (year d)) (Store.to_sql (quarter d))
           (Store.to_sql (owner d)) (Store.to_sql (status d)) (Store.to_sql (doc_status d))
           (Store.to_sql (is_uploaded d)) (Store.to_sql (uploaded_file d))
           (Store.to_sql (file_type d)) (Store.to_sql (file_size d))
           (Store.to_sql (storage_path d)) (Store.to_sql (download_url d))
           (Store.to_sql (uploaded_at d)) (Store.to_sql (created_at d))
           (Store.to_sql (updated_at d)).
Proof. by destruct d. Qed.

Lemma to_sql_truthy v : truthy v = true -> Store.to_sql v = v.
Proof. by destruct v. Qed.

Lemma or_else_null v : or_else v JNull <> JNull <-> truthy v = true.
Proof. unfold or_else. destruct (truthy v) eqn:E; split; try done. by destruct v. Qed.

Lemma to_sql_or_else_null v : Store.to_sql (or_else v JNull) = or_else v JNull.
Proof. unfold or_else. destruct (truthy v) eqn:E; [by apply to_sql_truthy | done]. Qed.

Lemma field_or_defined (body : gmap string jsval) k dflt :
  dflt <> JUndefined -> field_or body k dflt <> JUndefined.
Proof. unfold field_or. by destruct (field body k). Qed.

Lemma field_or_truthy (body : gmap string jsval) k :
  truthy (field_or body k (JBool false)) = truthy (field body k).
Proof. unfold field_or. by destruct (field body k). Qed.

Lemma apply_defaults_prepared now clk (body : gmap string jsval) ft :
  Store.apply_defaults now (dbData_of clk body ft) = dbData_of clk body ft.
Proof.
  unfold Store.apply_defaults, map_attributes, dbData_of. cbn -[field field_or truthy parseInt or_else].
  pose proof (field_or_defined body "doc_status" (JStr "Open")) as H.
  by destruct (field_or body "doc_status" (JStr "Open")); [exfalso; by apply H|..].
Qed.

Lemma findOne_stored (t : Store.table) (key : jsval) (row : instance) :
  In row (Store.rows t) -> doc_id (dataValues row) = key ->
  exists found, Store.findOne t key = Some found.
Proof.
  intros Hin Hkey. unfold Store.findOne.
  destruct (List.find _ (Store.rows t)) as [r|] eqn:E; [by exists r|].
  pose proof (find_none _ _ E row Hin) as Hn. simpl in Hn.
  by rewrite bool_decide_eq_true_2 in Hn.
Qed.

Lemma findOne_none (t : Store.table) (key : jsval) :
  Store.findOne t key = None ->
  existsb (fun r => bool_decide (doc_id (dataValues r) = key)) (Store.rows t) = false.
Proof.
  unfold Store.findOne. intros H. destruct (existsb _ _) eqn:E; [|done].
  apply existsb_exists in E as [r [Hin Hr]]. by rewrite (find_none _ _ H r Hin) in Hr.
Qed.

(** ** The text of the validation message *)

Lemma starts_with_spec (sub s : string) :
  Text.starts_with sub s = true <-> exists after, s = sub +:+ after.
Proof.
  revert s. induction sub as [|a sub IH]; intros s.
  - split; [intros _; by exists s | reflexivity].
  - destruct s as [|b s]; cbn [Text.starts_with].
    + split; [discriminate | intros [after H]; discriminate H].
    + rewrite andb_true_iff, IH. split.
      * intros [Hab [after ->]]. apply Ascii.eqb_eq in Hab as ->. by exists after.
      * intros [after H].
        change (String b s = String a (sub +:+ after)) in H. injection H as -> ->.
        split; [apply Ascii.eqb_refl | by exists after].
Qed.

(** [s.includes(sub)] says that [sub] stands in [s]. *)
Lemma includes_spec (s sub : string) :
  Text.includes s sub = true <-> exists before after, s = before +:+ sub +:+ after.
Proof.
  induction s as [|c s IH].
  - cbn [Text.includes]. rewrite orb_false_r, starts_with_spec. split.
    + intros [after H]. by exists "", after.
    + intros (before & after & H). destruct before; [by exists after | discriminate H].
  - cbn [Text.includes]. rewrite orb_true_iff, starts_with_spec, IH. split.
    + intros [[after H]|(before & after & ->)]; [by exists "", after|].
      by exists (String c before), after.
    + intros (before & after & H). destruct before as [|b before].
      * left. by exists after.
      * right. change (String c s = String b (before +:+ sub +:+ after)) in H.
        injection H as -> ->. by exists before, after.
Qed.

Lemma names_includes (message field : string) :
  Spec.names message field <-> Text.includes message field = true.
Proof. unfold Spec.names. by rewrite includes_spec. Qed.

(** [join(', ')] writes the names as the specification lists them. *)
Lemma join_listed (fields : list string) : join ", " fields = Spec.listed fields.
Proof.
  unfold join. induction fields as [|a [|b rest] IH]; [reflexivity | reflexivity|].
  cbn [String.concat Spec.listed] in *. by rewrite IH.
Qed.

(** Whatever required fields are picked, the validation message holds the
    name of each one picked and of no other required field. *)
Lemma missing_message_names (picked : string -> bool) (k : string) :
  In k required_names ->
  Text.includes ("Missing required fields: " +:+ join ", " (List.filter picked required_names)) k
  = picked k.
Proof.
  intros Hk. unfold required_names in *. cbn [List.filter].
  destruct (picked "doc_id") eqn:E1, (picked "doc_type") eqn:E2, (picked "doc_title") eqn:E3,
    (picked "revision_no") eqn:E4, (picked "year") eqn:E5, (picked "owner") eqn:E6,
    (picked "status") eqn:E7;
    cbn [In] in Hk; destruct Hk as [<-|[<-|[<-|[<-|[<-|[<-|[<-|[]]]]]]]];
    first [rewrite E1 | rewrite E2 | rewrite E3 | rewrite E4 | rewrite E5 | rewrite E6
           | rewrite E7];
    vm_compute; reflexivity.
Qed.

Section CreateDocument.

Variable engine_accepts : dbData -> bool.
Variable development : bool.

Lemma create_doc_missing clk w (body : gmap string jsval) :
  missingFields body <> [] ->
  createMasterPlanDoc engine_accepts development clk w body =
    (mkResponse 400 (Message ("Missing required fields: " +:+ join ", " (missingFields body))), w).
Proof.
  intros H. unfold createMasterPlanDoc.
  destruct (0 <? List.length (missingFields body))%nat eqn:E; [done|].
  by apply missing_test in E.
Qed.

(** The message of the 400 answer to a request that misses fields. *)
Lemma create_missing_message clk w (body : gmap string jsval) :
  missingFields body <> [] ->
  exists message,
    createMasterPlanDoc engine_accepts development clk w body
    = (mkResponse 400 (Message message), w)
    /\ message = "Missing required fields: "
                   +:+ Spec.listed (List.filter (fun k => negb (truthy (field body k)))
                                                required_names)
    /\ forall k, In k required_names ->
                 (Spec.names message k <-> truthy (field body k) = false).
Proof.
  intros H. eexists. split; [by apply create_doc_missing|].
  rewrite missingFields_filter. split; [by rewrite join_listed|].
  intros k Hk. rewrite names_includes, (missing_message_names _ k Hk).
  by destruct (truthy (field body k)).
Qed.

(** C5, as the code has it.  A create request from which a required
    field is absent is answered 400 and leaves the world as it was.  The
    message is "Missing required fields: " followed by the names, in the
    order of the controller's list and separated by ", ", of the required
    fields whose value is absent or falsy (the controller's [!value]).
    So the message names every absent required field; and it names a
    required field that is present exactly when that field carries a
    falsy value, such as the empty string or 0. *)
Theorem create_names_missing_fields clk w (body : gmap string jsval) k0 :
  In k0 required_names ->
  body !! k0 = None ->
  exists message,
    createMasterPlanDoc engine_accepts development clk w body
    = (mkResponse 400 (Message message), w)
    /\ message = "Missing required fields: "
                   +:+ Spec.listed (List.filter (fun k => negb (truthy (field body k)))
                                                required_names)
    /\ Spec.names message k0
    /\ (forall k, In k required_names ->
                  (Spec.names message k <->
                   body !! k = None \/ exists v, body !! k = Some v /\ truthy v = false)).
Proof.
  intros Hin Habs.
  assert (Hk0 : In k0 (missingFields body)).
  { apply in_missingFields. split; [done|]. by rewrite field_absent. }
  destruct (create_missing_message clk w body) as (message & E & Htext & Hnames).
  { intros E. by rewrite E in Hk0. }
  exists message. split; [exact E|]. split; [exact Htext|]. split.
  - apply Hnames; [exact Hin | by rewrite field_absent].
  - intros k Hk. rewrite (Hnames k Hk). unfold field.
    destruct (body !! k) as [v|]; cbn [default]; split.
    + intros Hv. right. by exists v.
    + intros [Hnone|(v' & [= <-] & Hv)]; [discriminate Hnone | exact Hv].
    + intros _. by left.
    + reflexivity.
Qed.

(** C9. A required field that is present with a falsy value (the empty
    string, the number 0, and also null or false) is treated as missing:
    the answer and the resulting world are those of the same request
    without the field, namely a 400 answer whose message starts with
    "Missing required fields: " and names the field, and an unchanged
    world. *)
Theorem create_falsy_is_missing clk w (body : gmap string jsval) k v :
  In k required_names ->
  truthy v = false ->
  createMasterPlanDoc engine_accepts development clk w (<[k := v]> body) = createMasterPlanDoc engine_accepts development clk w (delete k body)
  /\ In k (missingFields (<[k := v]> body))
  /\ exists message,
      createMasterPlanDoc engine_accepts development clk w (<[k := v]> body)
      = (mkResponse 400 (Message message), w)
      /\ (exists fields, message = "Missing required fields: " +:+ fields)
      /\ Spec.names message k
      /\ message = "Missing required fields: "
                     +:+ Spec.listed
                           (List.filter (fun k' => negb (truthy (field (delete k body) k')))
                                        required_names).
Proof.
  intros Hin Hv.
  assert (Hk : In k (missingFields (<[k := v]> body))).
  { apply in_missingFields. by rewrite field_insert_eq. }
  assert (Hk' : In k (missingFields (delete k body))).
  { apply in_missingFields. by rewrite field_delete_eq. }
  assert (Heq : missingFields (<[k := v]> body) = missingFields (delete k body)).
  { apply missingFields_ext. intros k' _. destruct (decide (k = k')) as [<-|Hne].
    - by rewrite field_insert_eq, field_delete_eq, Hv.
    - by rewrite field_insert_ne, field_delete_ne. }
  assert (Hne : missingFields (<[k := v]> body) <> []).
  { intros E. by rewrite E in Hk. }
  split; [|split; [exact Hk|]].
  { rewrite !create_doc_missing; [by rewrite Heq| by rewrite <- Heq | done]. }
  destruct (create_missing_message clk w (<[k := v]> body) Hne) as (message & E & Htext & Hnames).
  exists message. split; [exact E|]. split; [by eexists|]. split.
  - apply Hnames; [exact Hin | by rewrite field_insert_eq].
  - rewrite Htext, <- !missingFields_filter, Heq. reflexivity.
Qed.

Lemma create_prepared now clk t (body : gmap string jsval) ft :
  Store.create engine_accepts now t (dbData_of clk body ft) =
    match Store.schema_errors (dbData_of clk body ft) with
    | e :: es => Throw (SequelizeValidationError (e :: es))
    | [] =>
        if engine_accepts (Store.persisted (dbData_of clk body ft)) then
          if existsb (fun r => bool_decide (doc_id (dataValues r) =
                                              doc_id (Store.persisted (dbData_of clk body ft))))
                     (Store.rows t)
          then Throw SequelizeUniqueConstraintError
          else Ok (mkInstance (Store.next_id t) (dbData_of clk body ft),
                   Store.mkTable (Store.rows t ++
                                    [mkInstance (Store.next_id t) (Store.persisted (dbData_of clk body ft))])
                                 (Store.next_id t + 1))
        else Throw SequelizeDatabaseError
    end.
Proof.
  unfold Store.create. by rewrite apply_defaults_prepared.
Qed.

Lemma required_truthy (body : gmap string jsval) k :
  missingFields body = [] -> In k required_names -> truthy (field body k) = true.
Proof.
  intros Hm Hk. destruct (truthy (field body k)) eqn:E; [done|].
  assert (In k (missingFields body)) as Hin by (by apply in_missingFields).
  by rewrite Hm in Hin.
Qed.

Lemma create_failed_not_created e m inst :
  create_failed development e <> mkResponse 201 (MessageData m inst).
Proof. destruct e; intros H; injection H as Hcode _; discriminate Hcode. Qed.

Lemma create_failed_pair e (w w' : world) m inst :
  (create_failed development e, w) <> (mkResponse 201 (MessageData m inst), w').
Proof. intros H. apply (create_failed_not_created e m inst). congruence. Qed.

(** The handler, case by case. *)
Lemma create_doc_cases clk w (body : gmap string jsval) :
  createMasterPlanDoc engine_accepts development clk w body =
    if (0 <? List.length (missingFields body))%nat
    then (mkResponse 400 (Message ("Missing required fields: " +:+ join ", " (missingFields body))), w)
    else
      match Store.findOne (db w) (field body "doc_id") with
      | Some existingDoc => (mkResponse 400 (Message "Document ID already exists"), w)
      | None =>
          match prepared_file_type (field body "file_type") with
          | Throw e => (create_failed development e, w)
          | Ok ft =>
              match Store.create engine_accepts (clk 2%nat) (db w) (dbData_of clk body ft) with
              | Ok (masterPlanDoc, db') =>
                  (mkResponse 201 (MessageData "Master Plan Document created successfully" masterPlanDoc),
                   mkWorld db' (disk w))
              | Throw e => (create_failed development e, w)
              end
          end
      end.
Proof.
  unfold createMasterPlanDoc, prepare.
  destruct (prepared_file_type (field body "file_type")); reflexivity.
Qed.

(** What an accepted request went through. *)
Lemma create_doc_created clk w (body : gmap string jsval) m inst w' :
  createMasterPlanDoc engine_accepts development clk w body = (mkResponse 201 (MessageData m inst), w') ->
  exists ft,
    prepared_file_type (field body "file_type") = Ok ft
    /\ missingFields body = []
    /\ Store.findOne (db w) (field body "doc_id") = None
    /\ Store.schema_errors (dbData_of clk body ft) = []
    /\ engine_accepts (Store.persisted (dbData_of clk body ft)) = true
    /\ m = "Master Plan Document created successfully"
    /\ inst = mkInstance (Store.next_id (db w)) (dbData_of clk body ft)
    /\ w' = mkWorld (Store.mkTable
                       (Store.rows (db w) ++
                          [mkInstance (Store.next_id (db w)) (Store.persisted (dbData_of clk body ft))])
                       (Store.next_id (db w) + 1))
                    (disk w).
Proof.
  rewrite create_doc_cases.
  destruct (0 <? List.length (missingFields body))%nat eqn:Em;
    [intros H; injection H as Hc _; discriminate Hc|].
  apply missing_test in Em.
  destruct (Store.findOne (db w) (field body "doc_id")) eqn:Ef;
    [intros H; injection H as Hc _; discriminate Hc|].
  destruct (prepared_file_type (field body "file_type")) as [ft|e] eqn:Ep;
    [|intros H; exfalso; exact (create_failed_pair _ _ _ _ _ H)].
  rewrite create_prepared.
  destruct (Store.schema_errors (dbData_of clk body ft)) eqn:Es;
    [|intros H; exfalso; exact (create_failed_pair _ _ _ _ _ H)].
  destruct (engine_accepts (Store.persisted (dbData_of clk body ft))) eqn:Ee;
    [|intros H; exfalso; exact (create_failed_pair _ _ _ _ _ H)].
  destruct (existsb _ _);
    [intros H; exfalso; exact (create_failed_pair _ _ _ _ _ H)|].
  intros H. injection H as Hm Hi Hw. subst m inst w'. exists ft.
  split; [reflexivity|]. split; [exact Em|]. split; [reflexivity|].
  split; [exact Es|]. split; [exact Ee|]. split; [reflexivity|]. split; reflexivity.
Qed.

(** What it takes for a request to be accepted. *)
Lemma create_doc_accepts clk w (body : gmap string jsval) ft :
  missingFields body = [] ->
  Store.findOne (db w) (field body "doc_id") = None ->
  prepared_file_type (field body "file_type") = Ok ft ->
  Store.schema_errors (dbData_of clk body ft) = [] ->
  engine_accepts (Store.persisted (dbData_of clk body ft)) = true ->
  createMasterPlanDoc engine_accepts development clk w body =
    (mkResponse 201 (MessageData "Master Plan Document created successfully"
                       (mkInstance (Store.next_id (db w)) (dbData_of clk body ft))),
     mkWorld (Store.mkTable
                (Store.rows (db w) ++
                   [mkInstance (Store.next_id (db w)) (Store.persisted (dbData_of clk body ft))])
                (Store.next_id (db w) + 1))
             (disk w)).
Proof.
  intros Hm Hf Hp Hs He. rewrite create_doc_cases, Hm, Hf, Hp, create_prepared, Hs, He.
  assert (Hid : doc_id (Store.persisted (dbData_of clk body ft)) = field body "doc_id").
  { rewrite persisted_values. cbn [doc_id]. unfold dbData_of. cbn [doc_id].
    apply to_sql_truthy, required_truthy; [done | by left]. }
  rewrite Hid, (findOne_none _ _ Hf). reflexivity.
Qed.

End CreateDocument.

(** ** The schema pass of the store *)

Lemma schema_errors_nil_iff (d : dbData) :
  Store.schema_errors d = [] <-> forallb (Store.attribute_ok d) attributes = true.
Proof.
  unfold Store.schema_errors. induction attributes as [|a l IH]; [done|].
  cbn [flat_map forallb]. rewrite andb_true_iff, <- IH. unfold Store.attribute_ok.
  destruct (allowNull a), (nullish (get a d)),
    (Store.is_string_type (col_type a)), (Store.is_object (get a d));
    cbn; split; try done; try (by intros [? ?]); by intros ->.
Qed.


(** ** What [simplifyFileType] stores for a MIME string *)








Lemma truthy_JStr s : truthy (JStr s) = true <-> s <> "".
Proof.
  cbn. destruct (String.eqb_spec s ""); split; done.
Qed.


Lemma field_metadata_only a b c d e f g :
  let body := metadata_only a b c d e f g in
  field body "doc_id" = a /\ field body "doc_type" = b /\ field body "doc_title" = c
  /\ field body "revision_no" = d /\ field body "year" = e /\ field body "owner" = f
  /\ field body "status" = g
  /\ field body "quarter" = JUndefined /\ field body "doc_status" = JUndefined
  /\ field body "is_uploaded" = JUndefined /\ field body "uploaded_file" = JUndefined
  /\ field body "file_type" = JUndefined /\ field body "file_size" = JUndefined
  /\ field body "storage_path" = JUndefined /\ field body "download_url" = JUndefined
  /\ field body "uploaded_at" = JUndefined.
Proof. vm_compute. repeat split. Qed.

Lemma parseInt_not_nullish v : nullish (parseInt v) = false.
Proof.
  assert (Hs : forall s, nullish (parse_int_string s) = false).
  { intros s. unfold parse_int_string.
    destruct (skip_spaces s) as [|c r]; cbn; repeat case_match; reflexivity. }
  destruct v; cbn [parseInt]; first [apply Hs | reflexivity].
Qed.

Section CreatedRecords.

Variable engine_accepts : dbData -> bool.
Variable development : bool.

(** C3, as the code has it.  A create request whose [doc_id] is that of a
    stored row is answered 400 and leaves the world, hence every stored
    row, as it was.  The answer is the conflict "Document ID already
    exists" when the request carries all the required fields; when it
    misses some, the validation of required fields comes first and the
    answer is the "Missing required fields" one. *)
Theorem create_duplicate_rejected clk w (body : gmap string jsval) row :
  In row (Store.rows (db w)) ->
  doc_id (dataValues row) = field body "doc_id" ->
  snd (createMasterPlanDoc engine_accepts development clk w body) = w
  /\ code (fst (createMasterPlanDoc engine_accepts development clk w body)) = 400
  /\ (missingFields body = [] ->
      fst (createMasterPlanDoc engine_accepts development clk w body) = mkResponse 400 (Message "Document ID already exists"))
  /\ (missingFields body <> [] ->
      fst (createMasterPlanDoc engine_accepts development clk w body) =
        mkResponse 400 (Message ("Missing required fields: " +:+ join ", " (missingFields body)))).
Proof.
  intros Hin Hid. destruct (findOne_stored _ _ _ Hin Hid) as [found Hf].
  rewrite create_doc_cases, Hf.
  destruct (0 <? List.length (missingFields body))%nat eqn:Em.
  - split; [reflexivity|]. split; [reflexivity|]. split; [|reflexivity].
    intros E. rewrite E in Em. discriminate Em.
  - apply missing_test in Em.
    split; [reflexivity|]. split; [reflexivity|]. split; [reflexivity|]. by intros [].
Qed.

(** C1, as the code has it.  A request that the create operation accepts
    adds exactly one row; its [is_uploaded] is the truthiness of the
    request's [is_uploaded], and its [storage_path] and [uploaded_file]
    are non-null exactly when the request carries a truthy value for
    them.  The row therefore satisfies the attachment invariant whenever
    the request itself pairs a truthy [is_uploaded] with truthy
    [storage_path] and [uploaded_file]. *)
Theorem created_row_reflects_request clk w (body : gmap string jsval) m inst w' :
  createMasterPlanDoc engine_accepts development clk w body = (mkResponse 201 (MessageData m inst), w') ->
  exists row,
    Store.rows (db w') = (Store.rows (db w) ++ [row])%list
    /\ id row = id inst
    /\ dataValues row = Store.persisted (dataValues inst)
    /\ is_uploaded (dataValues row) = JBool (truthy (field body "is_uploaded"))
    /\ (storage_path (dataValues row) <> JNull <-> truthy (field body "storage_path") = true)
    /\ (uploaded_file (dataValues row) <> JNull <-> truthy (field body "uploaded_file") = true)
    /\ ((truthy (field body "is_uploaded") = true ->
         truthy (field body "storage_path") = true /\ truthy (field body "uploaded_file") = true) ->
        upload_invariant (dataValues row)).
Proof.
  intros H. apply create_doc_created in H as (ft & _ & _ & _ & _ & _ & _ & -> & ->).
  exists (mkInstance (Store.next_id (db w)) (Store.persisted (dbData_of clk body ft))).
  cbn [db Store.rows id dataValues]. rewrite persisted_values.
  unfold dbData_of, upload_invariant.
  cbn [is_uploaded storage_path uploaded_file doc_id doc_type doc_title revision_no year quarter
       owner status doc_status file_type file_size download_url uploaded_at created_at updated_at
       Store.to_sql].
  rewrite field_or_truthy, !to_sql_or_else_null, !or_else_null.
  split; [reflexivity|]. split; [reflexivity|]. split; [reflexivity|].
  split; [reflexivity|]. split; [reflexivity|]. split; [reflexivity|].
  intros Himp Hflag. apply Himp. injection Hflag as Hflag. exact Hflag.
Qed.

(** C7, as the code has it.  Take a request that carries the seven
    required fields and nothing else: as [doc_id] a non-empty text of
    letters, digits, hyphens and underscores, and for the others truthy
    values that are not arrays or objects, the year, when it is a number,
    one that a double holds exactly.  When every stored [doc_id] is a text
    of such characters that differs from the request's, even with the
    case of letters disregarded, and the engine takes the row, the request
    is answered 201 with the created record and adds its row to the
    table.  The record has
    [doc_status] "Open", [is_uploaded] false, [uploaded_file],
    [file_size], [storage_path], [download_url] and [uploaded_at] null,
    and [created_at] and [updated_at] read from the service's clock; in
    the stored row the six attachment columns, [file_type] included, are
    null. *)
Theorem create_metadata_only clk w (s : string)
        (vtype vtitle vrev vyear vowner vstatus : jsval) :
  s <> "" ->
  Text.word s ->
  Forall (fun v => truthy v = true /\ Store.is_object v = false)
         [vtype; vtitle; vrev; vowner; vstatus] ->
  truthy vyear = true ->
  (forall n, vyear = JNum n -> Numeral.safe n) ->
  Forall (fun r => exists t, doc_id (dataValues r) = JStr t
                             /\ Text.word t /\ ~ Text.alike t s)
         (Store.rows (db w)) ->
  engine_accepts
    (Store.persisted
       (dbData_of clk (metadata_only (JStr s) vtype vtitle vrev vyear vowner vstatus)
                  JUndefined)) = true ->
  exists inst row,
    createMasterPlanDoc engine_accepts development clk w
      (metadata_only (JStr s) vtype vtitle vrev vyear vowner vstatus) =
      (mkResponse 201 (MessageData "Master Plan Document created successfully" inst),
       mkWorld (Store.mkTable (Store.rows (db w) ++ [row]) (Store.next_id (db w) + 1)) (disk w))
    /\ id inst = Store.next_id (db w) /\ id row = id inst
    /\ doc_status (dataValues inst) = JStr "Open"
    /\ is_uploaded (dataValues inst) = JBool false
    /\ uploaded_file (dataValues inst) = JNull
    /\ file_size (dataValues inst) = JNull
    /\ storage_path (dataValues inst) = JNull
    /\ download_url (dataValues inst) = JNull
    /\ uploaded_at (dataValues inst) = JNull
    /\ created_at (dataValues inst) = JDate (clk 0%nat)
    /\ updated_at (dataValues inst) = JDate (clk 1%nat)
    /\ Forall (fun column => column (dataValues row) = JNull)
              [uploaded_file; file_type; file_size; storage_path; download_url; uploaded_at].
Proof.
  intros Hnonempty _ Hrest Hyear _ Hrows Heng.
  assert (Hfresh : Store.findOne (db w) (JStr s) = None).
  { unfold Store.findOne. induction Hrows as [|r rows (t & Ht & _ & Hdiff) _ IH]; [reflexivity|].
    cbn [List.find]. rewrite Ht. rewrite bool_decide_eq_false_2; [exact IH|].
    intros [= ->]. by apply Hdiff. }
  assert (Hvals : Forall (fun v => truthy v = true /\ Store.is_object v = false)
                         [JStr s; vtype; vtitle; vrev; vowner; vstatus]).
  { constructor; [|exact Hrest]. split; [by apply truthy_JStr | reflexivity]. }
  clear Hrest Hrows Hnonempty. set (vid := JStr s) in *.
  set (body := metadata_only vid vtype vtitle vrev vyear vowner vstatus) in *.
  destruct (field_metadata_only vid vtype vtitle vrev vyear vowner vstatus)
    as (F1 & F2 & F3 & F4 & F5 & F6 & F7 & G1 & G2 & G3 & G4 & G5 & G6 & G7 & G8 & G9).
  fold body in F1, F2, F3, F4, F5, F6, F7, G1, G2, G3, G4, G5, G6, G7, G8, G9.
  rewrite !Forall_cons in Hvals.
  destruct Hvals as ([T1 O1] & [T2 O2] & [T3 O3] & [T4 O4] & [T5 O5] & [T6 O6] & _).
  assert (Hm : missingFields body = []).
  { rewrite missingFields_filter. unfold required_names. cbn [List.filter].
    rewrite F1, F2, F3, F4, F5, F6, F7.
    repeat match goal with H : truthy _ = true |- _ => rewrite H; clear H end. reflexivity. }
  assert (Hp : prepared_file_type (field body "file_type") = Ok JUndefined).
  { rewrite G5. reflexivity. }
  assert (Hd : dbData_of clk body JUndefined =
               mkData vid vtype vtitle vrev (parseInt vyear) JNull vowner vstatus (JStr "Open")
                      (JBool false) JNull JUndefined JNull JNull JNull JNull
                      (JDate (clk 0%nat)) (JDate (clk 1%nat))).
  { unfold dbData_of, field_or. rewrite F1, F2, F3, F4, F5, F6, F7, G1, G2, G3, G4, G6, G7, G8, G9.
    reflexivity. }
  assert (Hs : Store.schema_errors (dbData_of clk body JUndefined) = []).
  { rewrite Hd. apply schema_errors_nil_iff.
    unfold attributes, Store.attribute_ok, attr_doc_id, attr_doc_type, attr_doc_title,
      attr_revision_no, attr_year, attr_quarter, attr_owner, attr_status, attr_doc_status,
      attr_is_uploaded, attr_uploaded_file, attr_file_type, attr_file_size, attr_storage_path,
      attr_download_url, attr_uploaded_at, attr_created_at, attr_updated_at.
    cbn [forallb get allowNull col_type Store.is_string_type doc_id doc_type doc_title revision_no
         year quarter owner status doc_status is_uploaded uploaded_file file_type file_size
         storage_path download_url uploaded_at created_at updated_at orb andb negb].
    repeat match goal with
           | H : Store.is_object _ = false |- _ => rewrite H; clear H
           end.
    assert (Hn : forall v, truthy v = true -> nullish v = false) by (by intros []).
    repeat match goal with
           | H : truthy _ = true |- _ => rewrite (Hn _ H); clear H
           end.
    rewrite parseInt_not_nullish. reflexivity. }
  rewrite <- F1 in Hfresh.
  exists (mkInstance (Store.next_id (db w)) (dbData_of clk body JUndefined)),
         (mkInstance (Store.next_id (db w)) (Store.persisted (dbData_of clk body JUndefined))).
  split; [exact (create_doc_accepts engine_accepts development clk w body JUndefined Hm Hfresh Hp Hs Heng)|].
  cbn [id dataValues]. rewrite persisted_values, Hd.
  repeat (split; [reflexivity|]). repeat constructor.
Qed.


End CreatedRecords.

(** ** Base name and extension of a plain file name *)

Lemma take_drop_while p cs :
  (NodePath.take_while p cs ++ NodePath.drop_while p cs)%list = cs.
Proof.
  induction cs as [|c r IH]; simpl; [reflexivity|].
  destruct (p c); simpl; [by rewrite IH | reflexivity].
Qed.

Lemma drop_while_head p cs c r : NodePath.drop_while p cs = c :: r -> p c = false.
Proof.
  induction cs as [|a cs IH]; simpl; [discriminate|].
  destruct (p a) eqn:E; [exact IH|]. intros [= -> _]. exact E.
Qed.

Lemma string_of_list_ascii_app (a b : list ascii) :
  string_of_list_ascii (a ++ b) = string_of_list_ascii a +:+ string_of_list_ascii b.
Proof.
  induction a as [|c a IH]; [reflexivity|].
  change (String c (string_of_list_ascii (a ++ b))
          = String c (string_of_list_ascii a +:+ string_of_list_ascii b)).
  by rewrite IH.
Qed.

Lemma length_string_of_list_ascii (l : list ascii) :
  String.length (string_of_list_ascii l) = List.length l.
Proof. induction l as [|c l IH]; simpl; [reflexivity | by rewrite IH]. Qed.

Lemma length_list_ascii_of_string (s : string) :
  List.length (list_ascii_of_string s) = String.length s.
Proof. induction s as [|c s IH]; simpl; [reflexivity | by rewrite IH]. Qed.

Lemma append_empty_r (s : string) : s +:+ "" = s.
Proof.
  induction s as [|c s IH]; [reflexivity|].
  change (String c (s +:+ "") = String c s). by rewrite IH.
Qed.

Lemma is_prefix_app (a b c : list ascii) :
  NodePath.is_prefix (a ++ b) (a ++ c) = NodePath.is_prefix b c.
Proof.
  induction a as [|x a IH]; simpl; [reflexivity|]. by rewrite Ascii.eqb_refl, IH.
Qed.

Lemma take_while_all p (l : list ascii) :
  Forall (fun c => p c = true) l -> NodePath.take_while p l = l.
Proof. induction 1 as [|c l Hc _ IH]; simpl; [reflexivity | by rewrite Hc, IH]. Qed.

Lemma drop_while_none p (l : list ascii) :
  Forall (fun c => p c = false) l -> NodePath.drop_while p l = l.
Proof. destruct 1 as [|c l Hc _]; simpl; [reflexivity | by rewrite Hc]. Qed.

Lemma no_slash_component (name : string) :
  Forall (fun c => NodePath.is_slash c = false) (list_ascii_of_string name) ->
  NodePath.last_component_rev name = rev (list_ascii_of_string name).
Proof.
  intros H. unfold NodePath.last_component_rev. apply Forall_rev in H.
  rewrite (drop_while_none _ _ H). apply take_while_all.
  eapply Forall_impl; [exact H|]. intros c Hc. simpl in Hc. by rewrite Hc.
Qed.

Lemma basename_no_suffix (name : string) :
  NodePath.basename name "" = string_of_list_ascii (rev (NodePath.last_component_rev name)).
Proof. reflexivity. Qed.

(** A file name without slash is its base name followed by its extension. *)
Lemma basename_extname_split (name : string) :
  Forall (fun c => NodePath.is_slash c = false) (list_ascii_of_string name) ->
  NodePath.basename name (NodePath.extname name) +:+ NodePath.extname name = name.
Proof.
  intros Hns. pose proof (no_slash_component name Hns) as Hcomp.
  assert (Hname : string_of_list_ascii (rev (rev (list_ascii_of_string name))) = name).
  { by rewrite rev_involutive, string_of_list_ascii_of_string. }
  assert (Hlen : String.length name = List.length (rev (list_ascii_of_string name))).
  { by rewrite length_rev, length_list_ascii_of_string. }
  assert (Hplain : NodePath.basename name "" +:+ "" = name).
  { by rewrite append_empty_r, basename_no_suffix, Hcomp. }
  revert Hcomp Hname Hlen. generalize (rev (list_ascii_of_string name)). intros r Hcomp Hname Hlen.
  unfold NodePath.extname. rewrite Hcomp.
  pose proof (take_drop_while (fun c => negb (NodePath.is_dot c)) r) as Hsplit.
  set (ext := NodePath.take_while (fun c => negb (NodePath.is_dot c)) r) in *.
  destruct (NodePath.drop_while (fun c => negb (NodePath.is_dot c)) r) as [|dot pre] eqn:Hrest;
    [exact Hplain|].
  assert (Hdot : dot = "."%char).
  { apply drop_while_head in Hrest. apply negb_false_iff in Hrest.
    unfold NodePath.is_dot in Hrest. by apply Ascii.eqb_eq in Hrest. }
  subst dot.
  assert (Hcases : forall e : string,
             e = match pre, ext with
                 | [], _ => ""
                 | [d], [] => if NodePath.is_dot d then "" else "."
                 | _, _ => string_of_list_ascii (rev (ext ++ ["."%char]))
                 end ->
             e = "" \/ (e = string_of_list_ascii (rev (ext ++ ["."%char])) /\ pre <> [])).
  { intros e ->. destruct pre as [|d [|d' pre']]; [by left| |by right].
    destruct ext; [|by right]. destruct (NodePath.is_dot d); [by left | by right]. }
  destruct (Hcases _ eq_refl) as [->|[-> Hpre]]; [exact Hplain|].
  clear Hcases Hplain.
  unfold NodePath.basename. rewrite Hcomp.
  rewrite list_ascii_of_string_of_list_ascii, rev_involutive.
  rewrite length_string_of_list_ascii, length_rev, Hlen, <- Hsplit.
  rewrite !length_app. cbn [List.length].
  assert (H1 : (0 <? List.length ext + 1)%nat = true) by (apply Nat.ltb_lt; lia).
  assert (H2 : (List.length ext + 1 <=? List.length ext + S (List.length pre))%nat = true)
    by (apply Nat.leb_le; lia).
  rewrite H1, H2. cbn [andb].
  assert (H3 : (string_of_list_ascii (rev (ext ++ ["."%char])) =? name)%string = false).
  { apply String.eqb_neq. intros E. apply (f_equal String.length) in E.
    rewrite length_string_of_list_ascii, length_rev, length_app, Hlen, <- Hsplit, length_app in E.
    cbn [List.length] in E. destruct pre; [done | cbn [List.length] in E; lia]. }
  rewrite H3.
  change (ext ++ "."%char :: pre)%list with (ext ++ ["."%char] ++ pre)%list.
  rewrite (app_assoc ext ["."%char] pre).
  rewrite <- (app_nil_r (ext ++ ["."%char])) at 1.
  rewrite is_prefix_app. cbn [NodePath.is_prefix].
  assert (H4 : (List.length ext + 1 <? List.length ext + S (List.length pre))%nat = true).
  { apply Nat.ltb_lt. destruct pre; [done | cbn [List.length]; lia]. }
  rewrite H4.
  replace (List.length ext + 1)%nat with (List.length (ext ++ ["."%char]))
    by (rewrite length_app; reflexivity).
  rewrite skipn_app, skipn_all, Nat.sub_diag. cbn [skipn app].
  rewrite <- string_of_list_ascii_app, <- rev_app_distr.
  rewrite <- Hname, <- Hsplit. do 2 f_equal. by rewrite <- app_assoc.
Qed.

(** ** File upload *)

Arguments NodePath.join : simpl never.
Arguments uploadsDir : simpl never.
Arguments uniqueFileName : simpl never.
Arguments Fs.mv : simpl never.
Arguments Fs.mkdirSync : simpl never.
Arguments Fs.existsSync : simpl never.
Arguments includes : simpl never.

(** Closes a goal [answer = expected -> _] when the two status codes differ. *)
Ltac other_code :=
  let H := fresh "H" in
  intros H; apply (f_equal (fun p : response * world => code (fst p))) in H;
  cbn [code fst] in H; discriminate H.

Section Upload.

Variable app_root : list string.

(** C8.  The upload operation never touches the Document Store: whatever
    the request and whatever the outcome (accepted, rejected, failed on
    the disk, aborted by the size limit of the middleware), the table
    after the request is the table before it. *)
Theorem upload_leaves_store clk w (req : UploadRequest.t) :
  db (snd (uploadFile app_root clk w req)) = db w
  /\ db (snd (Routes.post_upload app_root clk w req)) = db w.
Proof.
  assert (Hh : db (snd (uploadFile app_root clk w req)) = db w).
  { unfold uploadFile. repeat case_match; reflexivity. }
  split; [exact Hh|].
  unfold Routes.post_upload. destruct (Routes.fileUpload req); [reflexivity | exact Hh].
Qed.

(** C4.  An upload request that carries a file of more than 10 MiB is
    rejected before anything is written: the handler answers 400 with
    [success: false] (for the missing metadata when that check fails
    first, otherwise "File size must be less than 10MB") and the world,
    disk included, is unchanged; behind the router's middleware the
    request is already ended by the size limit, with 413 and the same
    unchanged world. *)
Theorem oversized_upload_rejected clk w (req : UploadRequest.t) document :
  UploadRequest.document req = Some document ->
  10 * 1024 * 1024 < UploadedFile.size document ->
  (exists message,
      uploadFile app_root clk w req = (mkResponse 400 (UploadRejected message), w)
      /\ (message = "File size must be less than 10MB"
          \/ message = "All metadata (doc_id, doc_type, revision_no) is required for file upload"))
  /\ Routes.post_upload app_root clk w req =
       (mkResponse 413 (PlainText "File size limit has been reached"), w).
Proof.
  intros Hdoc Hsize. split.
  - unfold uploadFile. rewrite Hdoc.
    destruct (_ || _ || _).
    + eexists. split; [reflexivity|]. by right.
    + apply Z.ltb_lt in Hsize. rewrite Hsize. eexists. split; [reflexivity|]. by left.
  - unfold Routes.post_upload, Routes.fileUpload, Routes.fileSize_limit. rewrite Hdoc.
    assert (Hlimit : (10 * 1024 * 1024 <=? UploadedFile.size document) = true)
      by (apply Z.leb_le; lia).
    by rewrite Hlimit.
Qed.

(** C6, as the code has it.  A successful upload for document id [d] of
    a file named [name], at clock reading [t], returns the file name
    [d_b_t] followed by [e], where [e] is the extension of [name] (its
    last dot included, empty when there is none) and [b] is the base name
    of [name] without [e], taken as it is: no character of it is replaced
    or removed, and for a name without slash [b] followed by [e] is the
    name itself.  The storage path is [/uploads/master-plans/d/] followed
    by that file name, the download URL is
    [/api/masterplandocs/download/d/] followed by it, and the file is on
    the disk under the uploads directory at the (normalised) place
    [d/file name]. *)
Theorem upload_storage_path clk w (req : UploadRequest.t)
        message fileName originalName fileSize fileType storagePath downloadUrl w' :
  uploadFile app_root clk w req =
    (mkResponse 200 (Uploaded message fileName originalName fileSize fileType storagePath downloadUrl),
     w') ->
  exists d document,
    UploadRequest.doc_id req = Some d
    /\ UploadRequest.document req = Some document
    /\ originalName = UploadedFile.name document
    /\ fileName =
         d +:+ "_" +:+ NodePath.basename originalName (NodePath.extname originalName)
           +:+ "_" +:+ decimal_Z (clk 0%nat) +:+ NodePath.extname originalName
    /\ storagePath = "/uploads/master-plans/" +:+ d +:+ "/" +:+ fileName
    /\ downloadUrl = "/api/masterplandocs/download/" +:+ d +:+ "/" +:+ fileName
    /\ (Forall (fun c => NodePath.is_slash c = false) (list_ascii_of_string originalName) ->
        NodePath.basename originalName (NodePath.extname originalName)
          +:+ NodePath.extname originalName = originalName)
    /\ Fs.files (disk w') !! NodePath.join (NodePath.join (uploadsDir app_root) d) fileName
       = Some document.
Proof.
  unfold uploadFile.
  destruct (UploadRequest.document req) as [document|] eqn:Hdoc;
    [|other_code].
  destruct (_ || _ || _) eqn:Hmeta; [other_code|].
  destruct (10 * 1024 * 1024 <? UploadedFile.size document); [other_code|].
  destruct (negb (includes allowedTypes (UploadedFile.mimetype document))); [other_code|].
  destruct (UploadRequest.doc_id req) as [d|] eqn:Hid; [|discriminate Hmeta].
  cbn [UploadRequest.text property_key].
  destruct (ensureUploadsDir app_root (disk w)) as [d1 [e|]];
    [other_code|].
  destruct (if negb (Fs.existsSync d1 (NodePath.join (uploadsDir app_root) d))
            then Fs.mkdirSync d1 (NodePath.join (uploadsDir app_root) d)
            else (d1, None)) as [d2 [e|]];
    [other_code|].
  destruct (Fs.mv document d2 _) as [d3 [e|]] eqn:Hmv;
    [other_code|].
  intros H. injection H as <- <- <- <- <- <- <- <-.
  exists d, document. repeat (split; [reflexivity|]).
  split; [apply basename_extname_split|].
  cbn [disk]. unfold Fs.mv in Hmv.
  destruct (if Fs.existsSync d2 _ then _ else _) as [d2' [e|]]; [discriminate Hmv|].
  unfold Fs.writeFile in Hmv. repeat case_match; try discriminate Hmv.
  injection Hmv as <-. cbn [Fs.files]. apply lookup_insert_eq.
Qed.

End Upload.

(** ** The client's check of a document id *)

Lemma service_check_is_lookup_by_key app_root w (doc_id : string) :
  Routes.segments ("/" +:+ doc_id) = Some [doc_id] ->
  Service.checkDocIdExists app_root w doc_id
  = bool_decide (is_Some (Store.findByPk (db w) doc_id)).
Proof.
  intros Hseg. unfold Service.checkDocIdExists, Routes.get. rewrite Hseg.
  unfold getMasterPlanDocById. by destruct (Store.findByPk (db w) doc_id).
Qed.

(** C2.  The service's [checkDocIdExists] does not reach the "check
    document id existence" operation: its URL is that of the lookup by
    surrogate key.  With the single document "DOC-1" stored under key 1, the
    client's check answers false for "DOC-1", which the operation reports as
    existing, and the form shows no error for it; it answers true for "1",
    which the operation reports as not existing, and the form shows the
    error. *)
Theorem client_check_misses_existing_id :
  Store.rows (db Sample.world1)
  = [mkInstance 1 (Store.persisted
                     (dbData_of Sample.clk Sample.doc1 JUndefined))]
  /\ Service.checkDocIdExists Sample.app_root Sample.world1 "DOC-1" = false
  /\ fst (checkDocIdExists Sample.world1 "DOC-1") = mkResponse 200 (Exists true)
  /\ AddDoc.checkDocId Sample.app_root Sample.world1 None "DOC-1" = None
  /\ Service.checkDocIdExists Sample.app_root Sample.world1 "1" = true
  /\ fst (checkDocIdExists Sample.world1 "1") = mkResponse 200 (Exists false)
  /\ AddDoc.checkDocId Sample.app_root Sample.world1 None "1"
     = Some "Document ID already exists".
Proof. vm_compute. repeat split. Qed.

(** ** Requests on which the stated properties fail *)

(** C1 fails: a request that sets [is_uploaded] and names no file is
    accepted, and its row is stored with the flag set and no path. *)
Lemma flag_without_file_is_stored :
  exists inst row,
    createMasterPlanDoc Sample.strict false Sample.clk Sample.empty_world Sample.doc2_flagged
    = (mkResponse 201 (MessageData "Master Plan Document created successfully" inst),
       mkWorld (Store.mkTable [row] 2) (disk Sample.empty_world))
    /\ is_uploaded (dataValues row) = JBool true
    /\ storage_path (dataValues row) = JNull
    /\ uploaded_file (dataValues row) = JNull
    /\ ~ upload_invariant (dataValues row).
Proof.
  eexists. eexists. split; [vm_compute; reflexivity|]. cbn.
  repeat split. intros H. by destruct (H eq_refl).
Qed.

(** C5 fails: the message does not name the absent fields only.  The
    request below misses its title and carries an empty type; the message
    names the type too, which is present. *)
Lemma present_empty_field_is_named :
  Sample.untitled_blank_type !! "doc_title" = None
  /\ Sample.untitled_blank_type !! "doc_type" = Some (JStr "")
  /\ createMasterPlanDoc Sample.strict false Sample.clk Sample.empty_world
       Sample.untitled_blank_type
     = (mkResponse 400 (Message "Missing required fields: doc_type, doc_title"),
        Sample.empty_world)
  /\ Spec.names "Missing required fields: doc_type, doc_title" "doc_type".
Proof.
  split; [vm_compute; reflexivity|]. split; [vm_compute; reflexivity|].
  split; [vm_compute; reflexivity|]. by exists "Missing required fields: ", ", doc_title".
Qed.

(** C3 fails: a request that names a stored [doc_id] and misses required
    fields is answered with the validation error, not the conflict. *)
Lemma duplicate_id_with_missing_fields :
  (exists row, In row (Store.rows (db Sample.world1))
               /\ doc_id (dataValues row) = field Sample.only_id "doc_id")
  /\ createMasterPlanDoc Sample.strict false Sample.clk Sample.world1 Sample.only_id
     = (mkResponse 400
          (Message "Missing required fields: doc_type, doc_title, revision_no, year, owner, status"),
        Sample.world1)
  /\ fst (createMasterPlanDoc Sample.strict false Sample.clk Sample.world1 Sample.only_id)
     <> Spec.conflict.
Proof.
  split; [|split].
  - eexists. split; [left; reflexivity|]. vm_compute. reflexivity.
  - vm_compute. reflexivity.
  - vm_compute. intros H. discriminate H.
Qed.

(** C7 fails: the request of the specification's example, which carries
    the required fields only, is refused with the conflict once "DOC-1" is
    stored.  (And where it is accepted, on the empty table, the record
    returned has its [file_type] undefined, not null; the stored row has
    it null.) *)
Lemma metadata_only_request_can_conflict :
  Sample.doc1 = metadata_only (JStr "DOC-1") (JStr "Policy") (JStr "X") (JStr "1.0")
                              (JNum 2024) (JStr "Ops") (JStr "Draft")
  /\ createMasterPlanDoc Sample.strict false Sample.clk Sample.world1 Sample.doc1
     = (Spec.conflict, Sample.world1)
  /\ code (fst (createMasterPlanDoc Sample.strict false Sample.clk Sample.world1 Sample.doc1))
     <> 201
  /\ fst (createMasterPlanDoc Sample.strict false Sample.clk Sample.empty_world Sample.doc1)
     = mkResponse 201
         (MessageData "Master Plan Document created successfully"
            (mkInstance 1 (dbData_of Sample.clk Sample.doc1 JUndefined)))
  /\ file_type (dbData_of Sample.clk Sample.doc1 JUndefined) <> JNull.
Proof.
  split; [reflexivity|]. split; [vm_compute; reflexivity|].
  split; [vm_compute; intros H; discriminate H|].
  split; [vm_compute; reflexivity|]. intros H. discriminate H.
Qed.

Lemma length_append (s t : string) :
  String.length (s +:+ t) = (String.length s + String.length t)%nat.
Proof. induction s as [|c s IH]; simpl; [reflexivity | f_equal; exact IH]. Qed.

Lemma append_cancel_r (s1 s2 t : string) : s1 +:+ t = s2 +:+ t -> s1 = s2.
Proof.
  revert s2. induction s1 as [|c s1 IH]; intros [|c2 s2] H.
  - reflexivity.
  - apply (f_equal String.length) in H. rewrite !length_append in H. simpl in H. lia.
  - apply (f_equal String.length) in H. rewrite !length_append in H. simpl in H. lia.
  - change (String c (s1 +:+ t) = String c2 (s2 +:+ t)) in H.
    injection H as -> H. f_equal. by apply IH.
Qed.

(** C6 fails: the base name goes into the stored name as it is.  The upload
    of "plan*v2?.pdf" for "DOC-1" at time 1700000000000 succeeds with a
    storage path that is [/uploads/master-plans/DOC-1/DOC-1_b_1700000000000.pdf]
    for no sanitized [b]. *)
Lemma upload_keeps_reserved_characters :
  fst (uploadFile Sample.app_root Sample.clk Sample.empty_world
         (Sample.upload_of (Sample.pdf "plan*v2?.pdf" 1024)))
  = mkResponse 200
      (Uploaded "File uploaded successfully and stored permanently"
                "DOC-1_plan*v2?_1700000000000.pdf" "plan*v2?.pdf" 1024 "application/pdf"
                "/uploads/master-plans/DOC-1/DOC-1_plan*v2?_1700000000000.pdf"
                "/api/masterplandocs/download/DOC-1/DOC-1_plan*v2?_1700000000000.pdf")
  /\ ~ exists b,
        Spec.sanitized b = true
        /\ "/uploads/master-plans/DOC-1/DOC-1_plan*v2?_1700000000000.pdf"
           = "/uploads/master-plans/DOC-1/DOC-1_" +:+ b +:+ "_1700000000000.pdf".
Proof.
  split; [vm_compute; reflexivity|].
  intros (b & Hsan & Heq).
  change ("/uploads/master-plans/DOC-1/DOC-1_" +:+ b +:+ "_1700000000000.pdf")
    with ("/uploads/master-plans/DOC-1/DOC-1_" +:+ (b +:+ "_1700000000000.pdf")) in Heq.
  unfold String.append at 1 in Heq. repeat (injection Heq as Heq).
  fold String.append in Heq. symmetry in Heq.
  change "plan*v2?_1700000000000.pdf" with ("plan*v2?" +:+ "_1700000000000.pdf") in Heq.
  apply append_cancel_r in Heq. subst b. vm_compute in Hsan. discriminate Hsan.
Qed.

(** ** The properties on concrete requests *)

Lemma create_names_missing_fields_witness :
  In "doc_type" required_names
  /\ Sample.only_id !! "doc_type" = None
  /\ createMasterPlanDoc Sample.strict false Sample.clk Sample.empty_world Sample.only_id
     = (mkResponse 400
          (Message "Missing required fields: doc_type, doc_title, revision_no, year, owner, status"),
        Sample.empty_world)
  /\ Spec.names "Missing required fields: doc_type, doc_title, revision_no, year, owner, status"
       "doc_type"
  /\ ~ Spec.names "Missing required fields: doc_type, doc_title, revision_no, year, owner, status"
         "doc_id".
Proof.
  assert (H1 : In "doc_type" required_names) by (right; left; reflexivity).
  assert (H2 : Sample.only_id !! "doc_type" = None) by (vm_compute; reflexivity).
  split; [exact H1|]. split; [exact H2|].
  destruct (create_names_missing_fields Sample.strict false Sample.clk Sample.empty_world
              Sample.only_id "doc_type" H1 H2) as (message & E & Htext & Hk0 & Hnames).
  assert (Hm : message
               = "Missing required fields: doc_type, doc_title, revision_no, year, owner, status").
  { rewrite Htext. vm_compute. reflexivity. }
  rewrite Hm in E, Hk0, Hnames. split; [exact E|]. split; [exact Hk0|].
  intros Hid. apply (Hnames "doc_id") in Hid; [|left; reflexivity].
  destruct Hid as [Hid|(v & Hv & Hf)]; [vm_compute in Hid; discriminate Hid|].
  vm_compute in Hv. injection Hv as <-. discriminate Hf.
Defined.

Lemma create_falsy_is_missing_witness :
  In "year" required_names
  /\ truthy (JNum 0) = false
  /\ createMasterPlanDoc Sample.strict false Sample.clk Sample.empty_world
       (<["year" := JNum 0]> Sample.doc1)
     = createMasterPlanDoc Sample.strict false Sample.clk Sample.empty_world
         (delete "year" Sample.doc1)
  /\ createMasterPlanDoc Sample.strict false Sample.clk Sample.empty_world
       (<["year" := JNum 0]> Sample.doc1)
     = (mkResponse 400 (Message "Missing required fields: year"), Sample.empty_world).
Proof.
  assert (H1 : In "year" required_names) by (do 4 right; left; reflexivity).
  assert (H2 : truthy (JNum 0) = false) by reflexivity.
  split; [exact H1|]. split; [exact H2|].
  pose proof (create_falsy_is_missing Sample.strict false Sample.clk Sample.empty_world
                Sample.doc1 "year" (JNum 0) H1 H2) as (Ha & _ & message & E & _ & _ & Htext).
  split; [exact Ha|].
  assert (Hm : message = "Missing required fields: year").
  { rewrite Htext. vm_compute. reflexivity. }
  by rewrite Hm in E.
Defined.

Lemma create_duplicate_rejected_witness :
  In (mkInstance 1 (Store.persisted (dbData_of Sample.clk Sample.doc1 JUndefined)))
     (Store.rows (db Sample.world1))
  /\ snd (createMasterPlanDoc Sample.strict false Sample.clk Sample.world1 Sample.doc1)
     = Sample.world1
  /\ code (fst (createMasterPlanDoc Sample.strict false Sample.clk Sample.world1 Sample.doc1)) = 400.
Proof.
  assert (H1 : In (mkInstance 1 (Store.persisted (dbData_of Sample.clk Sample.doc1 JUndefined)))
                  (Store.rows (db Sample.world1))) by (left; vm_compute; reflexivity).
  assert (H2 : doc_id (dataValues
                         (mkInstance 1 (Store.persisted (dbData_of Sample.clk Sample.doc1 JUndefined))))
               = field Sample.doc1 "doc_id") by (vm_compute; reflexivity).
  split; [exact H1|].
  pose proof (create_duplicate_rejected Sample.strict false Sample.clk Sample.world1 Sample.doc1
                _ H1 H2) as (Ha & Hb & _).
  split; [exact Ha | exact Hb].
Defined.

Lemma created_row_reflects_request_witness :
  createMasterPlanDoc Sample.strict false Sample.clk Sample.empty_world Sample.doc3_attached
  = (mkResponse 201 (MessageData "Master Plan Document created successfully" Sample.record3),
     Sample.world3)
  /\ exists row,
      Store.rows (db Sample.world3) = [row]
      /\ is_uploaded (dataValues row) = JBool true
      /\ upload_invariant (dataValues row).
Proof.
  assert (H : createMasterPlanDoc Sample.strict false Sample.clk Sample.empty_world
                Sample.doc3_attached
              = (mkResponse 201 (MessageData "Master Plan Document created successfully"
                                   Sample.record3),
                 Sample.world3)) by (vm_compute; reflexivity).
  split; [exact H|].
  destruct (created_row_reflects_request Sample.strict false Sample.clk Sample.empty_world
              Sample.doc3_attached _ _ _ H) as (row & Hrows & _ & _ & Hflag & _ & _ & Hinv).
  exists row. split; [exact Hrows|]. split.
  - rewrite Hflag. vm_compute. reflexivity.
  - apply Hinv. intros _. split; vm_compute; reflexivity.
Defined.

Lemma create_metadata_only_witness :
  map (fun r => doc_id (dataValues r)) (Store.rows (db Sample.world1)) = [JStr "DOC-1"]
  /\ exists inst row,
      createMasterPlanDoc Sample.strict false Sample.clk Sample.world1
        (metadata_only (JStr "DOC-2") (JStr "Policy") (JStr "X") (JStr "1.0")
                       (JNum 2024) (JStr "Ops") (JStr "Draft"))
      = (mkResponse 201 (MessageData "Master Plan Document created successfully" inst),
         mkWorld (Store.mkTable (Store.rows (db Sample.world1) ++ [row]) 3)
                 (disk Sample.world1))
      /\ id row = 2
      /\ doc_status (dataValues inst) = JStr "Open"
      /\ is_uploaded (dataValues inst) = JBool false.
Proof.
  assert (H0 : "DOC-2" <> "") by discriminate.
  assert (H1 : Forall (fun v => truthy v = true /\ Store.is_object v = false)
                      [JStr "Policy"; JStr "X"; JStr "1.0"; JStr "Ops"; JStr "Draft"])
    by (repeat constructor).
  assert (H2 : truthy (JNum 2024) = true) by reflexivity.
  assert (Hrows : Store.rows (db Sample.world1)
                  = [mkInstance 1 (Store.persisted (dbData_of Sample.clk Sample.doc1 JUndefined))])
    by (vm_compute; reflexivity).
  assert (H3 : Forall (fun r => exists t, doc_id (dataValues r) = JStr t
                                          /\ Text.word t /\ ~ Text.alike t "DOC-2")
                      (Store.rows (db Sample.world1))).
  { rewrite Hrows. constructor; [|constructor].
    exists "DOC-1". split; [vm_compute; reflexivity|]. split; [reflexivity|].
    intros E. vm_compute in E. discriminate E. }
  assert (H4 : Sample.strict
                 (Store.persisted
                    (dbData_of Sample.clk
                       (metadata_only (JStr "DOC-2") (JStr "Policy") (JStr "X") (JStr "1.0")
                                      (JNum 2024) (JStr "Ops") (JStr "Draft")) JUndefined)) = true)
    by (vm_compute; reflexivity).
  assert (H5 : Text.word "DOC-2") by reflexivity.
  assert (H6 : forall n, JNum 2024 = JNum n -> Numeral.safe n).
  { intros n [= <-]. unfold Numeral.safe. lia. }
  split; [by rewrite Hrows|].
  destruct (create_metadata_only Sample.strict false Sample.clk Sample.world1
              _ _ _ _ _ _ _ H0 H5 H1 H2 H6 H3 H4)
    as (inst & row & Hc & Hi & Hr & Hs & Hu & _).
  exists inst, row. split; [exact Hc|]. split; [by rewrite Hr, Hi|].
  split; [exact Hs | exact Hu].
Defined.


Lemma oversized_upload_rejected_witness :
  10 * 1024 * 1024 < UploadedFile.size (Sample.pdf "big.pdf" 10485761)
  /\ fst (uploadFile Sample.app_root Sample.clk Sample.empty_world
            (Sample.upload_of (Sample.pdf "big.pdf" 10485761)))
     = mkResponse 400 (UploadRejected "File size must be less than 10MB")
  /\ Routes.post_upload Sample.app_root Sample.clk Sample.empty_world
       (Sample.upload_of (Sample.pdf "big.pdf" 10485761))
     = (mkResponse 413 (PlainText "File size limit has been reached"), Sample.empty_world).
Proof.
  assert (H1 : UploadRequest.document (Sample.upload_of (Sample.pdf "big.pdf" 10485761))
               = Some (Sample.pdf "big.pdf" 10485761)) by reflexivity.
  assert (H2 : 10 * 1024 * 1024 < UploadedFile.size (Sample.pdf "big.pdf" 10485761))
    by (vm_compute; reflexivity).
  split; [exact H2|].
  destruct (oversized_upload_rejected Sample.app_root Sample.clk Sample.empty_world _ _ H1 H2)
    as [_ Hroute].
  split; [vm_compute; reflexivity | exact Hroute].
Defined.

Lemma upload_storage_path_witness :
  uploadFile Sample.app_root Sample.clk Sample.empty_world
    (Sample.upload_of (Sample.pdf "plan.final.pdf" 1024))
  = (mkResponse 200
       (Uploaded "File uploaded successfully and stored permanently"
                 "DOC-1_plan.final_1700000000000.pdf" "plan.final.pdf" 1024 "application/pdf"
                 "/uploads/master-plans/DOC-1/DOC-1_plan.final_1700000000000.pdf"
                 "/api/masterplandocs/download/DOC-1/DOC-1_plan.final_1700000000000.pdf"),
     Sample.uploaded_world)
  /\ Fs.files (disk Sample.uploaded_world)
       !! ["srv"; "registry"; "uploads"; "master-plans"; "DOC-1";
           "DOC-1_plan.final_1700000000000.pdf"]
     = Some (Sample.pdf "plan.final.pdf" 1024).
Proof.
  assert (H : uploadFile Sample.app_root Sample.clk Sample.empty_world
                (Sample.upload_of (Sample.pdf "plan.final.pdf" 1024))
              = (mkResponse 200
                   (Uploaded "File uploaded successfully and stored permanently"
                      "DOC-1_plan.final_1700000000000.pdf" "plan.final.pdf" 1024 "application/pdf"
                      "/uploads/master-plans/DOC-1/DOC-1_plan.final_1700000000000.pdf"
                      "/api/masterplandocs/download/DOC-1/DOC-1_plan.final_1700000000000.pdf"),
                 Sample.uploaded_world)) by (vm_compute; reflexivity).
  split; [exact H|].
  destruct (upload_storage_path Sample.app_root Sample.clk Sample.empty_world _ _ _ _ _ _ _ _ _ H)
    as (d & document & Hd & Hdoc & _ & _ & _ & _ & _ & Hfile).
  injection Hd as <-. injection Hdoc as <-. exact Hfile.
Defined.

(** * Further properties of the service *)

(** ** What a create request does to the world *)

Section CreateEffects.

Variable engine_accepts : dbData -> bool.
Variable development : bool.

(** The outcome of a create request is the 201 answer with one row added
    at the end of the table, or an answer that is not 201 with the world
    as it was. *)
Lemma create_outcomes clk w (body : gmap string jsval) :
  (exists inst row,
      createMasterPlanDoc engine_accepts development clk w body
      = (mkResponse 201 (MessageData "Master Plan Document created successfully" inst),
         mkWorld (Store.mkTable (Store.rows (db w) ++ [row]) (Store.next_id (db w) + 1)) (disk w))
      /\ id inst = Store.next_id (db w) /\ id row = Store.next_id (db w)
      /\ dataValues row = Store.persisted (dataValues inst)
      /\ doc_id (dataValues row) = field body "doc_id"
      /\ truthy (field body "doc_id") = true
      /\ Store.findOne (db w) (field body "doc_id") = None)
  \/ (snd (createMasterPlanDoc engine_accepts development clk w body) = w
      /\ (code (fst (createMasterPlanDoc engine_accepts development clk w body)) = 400
          \/ code (fst (createMasterPlanDoc engine_accepts development clk w body)) = 500)).
Proof.
  rewrite create_doc_cases.
  destruct (0 <? List.length (missingFields body))%nat eqn:Em; [right; split; [reflexivity | by left]|].
  apply missing_test in Em.
  destruct (Store.findOne (db w) (field body "doc_id")) eqn:Ef;
    [right; split; [reflexivity | by left]|].
  assert (Hfail : forall e, code (create_failed development e) = 400
                            \/ code (create_failed development e) = 500).
  { intros []; cbn; tauto. }
  destruct (prepared_file_type (field body "file_type")) as [ft|e] eqn:Ep;
    [|right; split; [reflexivity | apply Hfail]].
  rewrite create_prepared.
  destruct (Store.schema_errors (dbData_of clk body ft)) eqn:Es;
    [|right; split; [reflexivity | apply Hfail]].
  destruct (engine_accepts (Store.persisted (dbData_of clk body ft))) eqn:Ee;
    [|right; split; [reflexivity | apply Hfail]].
  destruct (existsb _ _); [right; split; [reflexivity | apply Hfail]|].
  left. eexists. eexists. split; [reflexivity|]. cbn [id dataValues].
  assert (Ht : truthy (field body "doc_id") = true)
    by (apply required_truthy; [exact Em | by left]).
  split; [reflexivity|]. split; [reflexivity|]. split; [reflexivity|].
  split; [|split; [exact Ht | reflexivity]].
  rewrite persisted_values. cbn [doc_id]. unfold dbData_of. cbn [doc_id].
  by apply to_sql_truthy.
Qed.

(** X1.  A create request never touches the File Store and never rewrites
    the table: the disk is unchanged, the rows that were stored are still
    there, in place and unchanged, followed by at most one new row (one
    exactly when the answer is 201), and the counter of the table does not
    go down. *)
Theorem create_only_appends clk w (body : gmap string jsval) :
  disk (snd (createMasterPlanDoc engine_accepts development clk w body)) = disk w
  /\ (exists added,
         Store.rows (db (snd (createMasterPlanDoc engine_accepts development clk w body)))
         = (Store.rows (db w) ++ added)%list
         /\ (List.length added <= 1)%nat
         /\ (List.length added = 1%nat
             <-> code (fst (createMasterPlanDoc engine_accepts development clk w body)) = 201))
  /\ Store.next_id (db w)
     <= Store.next_id (db (snd (createMasterPlanDoc engine_accepts development clk w body))).
Proof.
  destruct (create_outcomes clk w body) as [(inst & row & -> & _)|[Hw Hc]].
  - cbn [snd fst disk db Store.rows Store.next_id code]. split; [reflexivity|].
    split; [|lia]. exists [row]. split; [reflexivity|]. split; [reflexivity|]. done.
  - rewrite Hw. split; [reflexivity|]. split; [|lia].
    exists []. split; [by rewrite app_nil_r|]. split; [cbn; lia|].
    split; [discriminate|]. intros H. destruct Hc as [Hc|Hc]; rewrite Hc in H; discriminate H.
Qed.

Lemma find_append {A} (p : A -> bool) (l1 l2 : list A) :
  List.find p (l1 ++ l2) = match List.find p l1 with
                           | Some x => Some x
                           | None => List.find p l2
                           end.
Proof. induction l1 as [|a l1 IH]; simpl; [reflexivity|]. by destruct (p a). Qed.

Lemma findOne_none_not_in (t : Store.table) (key : jsval) :
  Store.findOne t key = None -> ~ In key (Keys.doc_ids t).
Proof.
  intros Hf Hin. unfold Keys.doc_ids in Hin. apply in_map_iff in Hin as (r & Hr & Hin).
  destruct (findOne_stored t key r Hin Hr) as [found Hfound]. rewrite Hf in Hfound. discriminate.
Qed.

Lemma create_keeps_well_keyed clk w (body : gmap string jsval) :
  Keys.well_keyed (db w) ->
  Keys.well_keyed (db (snd (createMasterPlanDoc engine_accepts development clk w body))).
Proof.
  intros (Hids & Hdocs & Hlt).
  destruct (create_outcomes clk w body)
    as [(inst & row & -> & _ & Hrow & _ & Hdoc & _ & Hnone)|[-> _]]; [|done].
  cbn [snd db]. unfold Keys.well_keyed, Keys.ids, Keys.doc_ids in *.
  cbn [Store.rows Store.next_id]. rewrite !map_app. cbn [map].
  split; [|split].
  - apply NoDup_app. split; [exact Hids|]. split; [|apply NoDup_singleton].
    intros k Hk Hin. apply list_elem_of_In in Hk, Hin. destruct Hin as [<-|[]].
    apply in_map_iff in Hk as (r & Hr & Hin).
    rewrite Forall_forall in Hlt. apply list_elem_of_In in Hin.
    specialize (Hlt r Hin). lia.
  - apply NoDup_app. split; [exact Hdocs|]. split; [|apply NoDup_singleton].
    intros k Hk Hin. apply list_elem_of_In in Hk, Hin. destruct Hin as [<-|[]].
    rewrite Hdoc in Hk. exact (findOne_none_not_in _ _ Hnone Hk).
  - apply Forall_app. split.
    + eapply Forall_impl; [exact Hlt|]. cbn. intros r Hr. lia.
    + apply Forall_singleton. lia.
Qed.

Lemma create_keeps_text_keys clk w (body : gmap string jsval) :
  Keys.text_id body ->
  Keys.text_keys (db w) ->
  Keys.text_keys (db (snd (createMasterPlanDoc engine_accepts development clk w body))).
Proof.
  intros Hbody Hrows.
  destruct (create_outcomes clk w body)
    as [(inst & row & -> & _ & _ & _ & Hdoc & Htruthy & _)|[-> _]]; [|done].
  cbn [snd db]. unfold Keys.text_keys in *. cbn [Store.rows].
  apply Forall_app. split; [exact Hrows|]. apply Forall_singleton. rewrite Hdoc.
  unfold Keys.text_id in Hbody. destruct (field body "doc_id"); try done. by eexists.
Qed.

(** X2.  Whatever create requests are served, one after the other, from
    an empty table, when each of them carries as its [doc_id] a text of
    letters, digits, hyphens and underscores (or carries none) and no two
    of these ids differ by the case of letters only: every stored
    [doc_id] is a text, no two stored rows ever share a [doc_id] or a
    surrogate key, and every key in use is below the table's counter. *)
Theorem creates_keep_keys_unique first_key disk0
        (requests : list (clock * gmap string jsval)) :
  Forall (fun req => Keys.text_id (snd req)) requests ->
  Keys.one_case requests ->
  Keys.well_keyed
    (db (Keys.after_creates engine_accepts development
           (mkWorld (Store.mkTable [] first_key) disk0) requests))
  /\ Keys.text_keys
       (db (Keys.after_creates engine_accepts development
              (mkWorld (Store.mkTable [] first_key) disk0) requests)).
Proof.
  intros Hreqs _.
  assert (H0 : Keys.well_keyed (db (mkWorld (Store.mkTable [] first_key) disk0))
               /\ Keys.text_keys (db (mkWorld (Store.mkTable [] first_key) disk0))).
  { split; [repeat split; constructor | constructor]. }
  revert H0. generalize (mkWorld (Store.mkTable [] first_key) disk0).
  induction Hreqs as [|[clk body] rest Hbody _ IH]; intros w Hw; [exact Hw|].
  cbn [Keys.after_creates fold_left fst snd]. apply IH. destruct Hw as [Hk Ht].
  split; [by apply create_keeps_well_keyed | by apply create_keeps_text_keys].
Qed.

(** X3.  Create and the existence check agree.  When a create request
    with the string [s] as [doc_id] is accepted, the existence check
    answered [exists: false] for [s] before it and answers [exists: true]
    after it; the check itself changes nothing. *)
Theorem check_sees_created_document clk w (body : gmap string jsval) (s : string) m inst w' :
  createMasterPlanDoc engine_accepts development clk w body
  = (mkResponse 201 (MessageData m inst), w') ->
  field body "doc_id" = JStr s ->
  checkDocIdExists w s = (mkResponse 200 (Exists false), w)
  /\ checkDocIdExists w' s = (mkResponse 200 (Exists true), w').
Proof.
  intros H Hs.
  apply create_doc_created in H as (ft & _ & Hm & Hnone & _ & _ & _ & -> & ->).
  assert (Ht : truthy (JStr s) = true).
  { rewrite <- Hs. apply required_truthy; [exact Hm | by left]. }
  unfold checkDocIdExists. rewrite Ht. cbn [negb]. rewrite <- Hs, Hnone.
  split; [reflexivity|].
  cbn [db]. unfold Store.findOne. cbn [Store.rows].
  rewrite find_append.
  fold (Store.findOne (db w) (field body "doc_id")). rewrite Hnone.
  cbn [List.find dataValues]. rewrite persisted_values. cbn [doc_id].
  unfold dbData_of. cbn [doc_id]. rewrite to_sql_truthy by (by rewrite Hs).
  rewrite (bool_decide_eq_true_2 (field body "doc_id" = field body "doc_id")); [|reflexivity].
  rewrite bool_decide_eq_true_2; [reflexivity|]. eexists. reflexivity.
Qed.


End CreateEffects.

(** ** Numbers and their decimal text *)

Lemma value_of_uint_acc (d : Decimal.uint) (p : positive) :
  Z.pos (Pos.of_uint_acc d p) = Numeral.value d (Z.pos p).
Proof.
  revert p. induction d; intros p; cbn [Pos.of_uint_acc Numeral.value];
    [reflexivity|..]; rewrite IHd; f_equal; lia.
Qed.

Lemma value_of_uint (d : Decimal.uint) : Z.of_N (Pos.of_uint d) = Numeral.value d 0.
Proof.
  induction d; cbn [Pos.of_uint Numeral.value]; [reflexivity | exact IHd |..];
    cbn [Z.of_N]; by rewrite value_of_uint_acc.
Qed.

Lemma digits_step radix c r (acc : option Z) dv :
  digit_of radix c = Some dv ->
  digits radix acc (String c r) = digits radix (Some (radix * default 0 acc + dv)) r.
Proof. intros H. cbn [digits]. by rewrite H. Qed.

Lemma digits_of_text (d : Decimal.uint) (acc : Z) :
  digits 10 (Some acc) (NilEmpty.string_of_uint d) = Some (Numeral.value d acc).
Proof.
  revert acc. induction d; intros acc; cbn [NilEmpty.string_of_uint Numeral.value];
    [reflexivity|..];
    (erewrite digits_step by (vm_compute; reflexivity));
    change (default 0 (Some acc)) with acc;
    rewrite IHd; do 2 f_equal; lia.
Qed.

Lemma digits_of_decimal (n : N) : digits 10 None (decimal n) = Some (Z.of_N n).
Proof.
  rewrite <- (DecimalN.Unsigned.of_to n) at 2. unfold N.of_uint. rewrite value_of_uint.
  unfold decimal. destruct (N.to_uint n); cbn [NilZero.string_of_uint NilEmpty.string_of_uint];
    [reflexivity|..];
    (erewrite digits_step by (vm_compute; reflexivity));
    change (default 0 None) with 0; cbn [Numeral.value];
    rewrite digits_of_text; reflexivity.
Qed.

(** The text of a number starts with a digit, and with two when it is
    longer. *)
Lemma decimal_starts_with_digits (n : N) :
  exists c r, decimal n = String c r
              /\ is_space c = false /\ c <> "-"%char /\ c <> "+"%char
              /\ (c = "0"%char -> forall r', r <> String "x" r' /\ r <> String "X" r').
Proof.
  unfold decimal. destruct (N.to_uint n) as [|l|l|l|l|l|l|l|l|l|l];
    cbn [NilZero.string_of_uint NilEmpty.string_of_uint];
    eexists; eexists; (split; [reflexivity|]);
    (split; [reflexivity|]); (split; [discriminate|]); (split; [discriminate|]);
    intros Hc; try discriminate Hc; intros r';
    try (destruct l; cbn [NilEmpty.string_of_uint]); split; discriminate.
Qed.

Lemma parse_decimal (n : N) : parse_int_string (decimal n) = JNum (Z.of_N n).
Proof.
  pose proof (digits_of_decimal n) as Hd.
  destruct (decimal_starts_with_digits n) as (c & r & E & Hsp & Hm & Hp & Hx).
  unfold parse_int_string. rewrite E in *. cbn [skip_spaces]. rewrite Hsp.
  assert (Hsign : (match String c r with
                   | String "-" r0 => (true, r0)
                   | String "+" r0 => (false, r0)
                   | _ => (false, String c r)
                   end) = (false, String c r)).
  { destruct c as [[] [] [] [] [] [] [] []]; try reflexivity; congruence. }
  rewrite Hsign.
  assert (Hradix : (match String c r with
                    | String "0" (String "x" r0) | String "0" (String "X" r0) => (16, r0)
                    | _ => (10, String c r)
                    end) = (10, String c r)).
  { destruct (Ascii.eqb_spec c "0") as [->|Hne].
    - destruct (Hx eq_refl "") as [_ _]. destruct r as [|c' r']; [reflexivity|].
      destruct (Ascii.eqb_spec c' "x") as [->|Hne1]; [by destruct (Hx eq_refl r') as [? _]|].
      destruct (Ascii.eqb_spec c' "X") as [->|Hne2]; [by destruct (Hx eq_refl r') as [_ ?]|].
      destruct c' as [[] [] [] [] [] [] [] []]; try reflexivity; congruence.
    - destruct c as [[] [] [] [] [] [] [] []]; try reflexivity; congruence. }
  rewrite Hradix, Hd. reflexivity.
Qed.

Lemma parse_decimal_Z (n : Z) : parse_int_string (decimal_Z n) = JNum n.
Proof.
  unfold decimal_Z. destruct (n <? 0) eqn:E.
  - apply Z.ltb_lt in E.
    pose proof (digits_of_decimal (Z.to_N (- n))) as Hd.
    destruct (decimal_starts_with_digits (Z.to_N (- n))) as (c & r & Ed & Hsp & Hm & Hp & Hx).
    pose proof (parse_decimal (Z.to_N (- n))) as Hparse.
    unfold parse_int_string in *. rewrite Ed in *.
    change ("-" +:+ String c r) with (String "-" (String c r)).
    cbn [skip_spaces] in *. rewrite Hsp in Hparse.
    change (is_space "-") with false. cbv iota.
    assert (Hsign : (match String c r with
                     | String "-" r0 => (true, r0)
                     | String "+" r0 => (false, r0)
                     | _ => (false, String c r)
                     end) = (false, String c r)).
    { destruct c as [[] [] [] [] [] [] [] []]; try reflexivity; congruence. }
    rewrite Hsign in Hparse.
    destruct (match String c r with
              | String "0" (String "x" r0) | String "0" (String "X" r0) => (16, r0)
              | _ => (10, String c r)
              end) as [radix rest].
    destruct (digits radix None rest) as [v|]; [|discriminate Hparse].
    injection Hparse as ->. f_equal. lia.
  - apply Z.ltb_ge in E. rewrite parse_decimal. f_equal. lia.
Qed.

Lemma sql_integer_decimal (n : Z) : Store.sql_integer (decimal_Z n) = n.
Proof.
  assert (Hnat : forall m : N, Store.sql_integer (decimal m) = Z.of_N m
                               /\ Store.sql_integer ("-" +:+ decimal m) = - Z.of_N m).
  { intros m. pose proof (digits_of_decimal m) as Hd.
    destruct (decimal_starts_with_digits m) as (c & r & E & Hsp & Hm & Hp & _).
    rewrite E in *.
    change ("-" +:+ String c r) with (String "-" (String c r)).
    unfold Store.sql_integer. cbn [skip_spaces]. rewrite Hsp.
    change (is_space "-") with false. cbv iota.
    assert (Hsign : (match String c r with
                     | String "-" r0 => (true, r0)
                     | String "+" r0 => (false, r0)
                     | _ => (false, String c r)
                     end) = (false, String c r)).
    { destruct c as [[] [] [] [] [] [] [] []]; try reflexivity; congruence. }
    rewrite Hsign, Hd. split; reflexivity. }
  unfold decimal_Z. destruct (n <? 0) eqn:E.
  - apply Z.ltb_lt in E. rewrite (proj2 (Hnat _)). lia.
  - apply Z.ltb_ge in E. rewrite (proj1 (Hnat _)). lia.
Qed.

Lemma decimal_Z_nonempty (n : Z) : decimal_Z n <> "".
Proof.
  unfold decimal_Z. destruct (n <? 0); [discriminate|].
  destruct (decimal_starts_with_digits (Z.to_N n)) as (c & r & -> & _). discriminate.
Qed.

Section YearAsText.

Variable engine_accepts : dbData -> bool.
Variable development : bool.

Lemma create_doc_ext clk w (b1 b2 : gmap string jsval) :
  (forall k, In k required_names -> truthy (field b1 k) = truthy (field b2 k)) ->
  field b1 "doc_id" = field b2 "doc_id" ->
  field b1 "file_type" = field b2 "file_type" ->
  (forall ft, dbData_of clk b1 ft = dbData_of clk b2 ft) ->
  createMasterPlanDoc engine_accepts development clk w b1
  = createMasterPlanDoc engine_accepts development clk w b2.
Proof.
  intros Hreq Hid Hft Hdata. rewrite !create_doc_cases.
  rewrite (missingFields_ext b1 b2 Hreq), Hid, Hft.
  destruct (prepared_file_type (field b2 "file_type")) as [ft|e]; [|reflexivity].
  by rewrite Hdata.
Qed.

(** X5.  The year may come as a number or as its decimal text: for every
    integer other than 0 that a JavaScript number holds exactly (between
    -(2^53 - 1) and 2^53 - 1), a create request that carries the year as
    text has the same answer and the same effect as the request that
    carries it as a number. *)
Theorem year_text_same_as_number clk w (body : gmap string jsval) (n : Z) :
  n <> 0 ->
  Numeral.safe n ->
  createMasterPlanDoc engine_accepts development clk w (<["year" := JStr (decimal_Z n)]> body)
  = createMasterPlanDoc engine_accepts development clk w (<["year" := JNum n]> body).
Proof.
  intros Hn _.
  assert (Hother : forall k, k <> "year" ->
            field (<["year" := JStr (decimal_Z n)]> body) k = field (<["year" := JNum n]> body) k).
  { intros k Hk. rewrite !field_insert_ne; [reflexivity | congruence | congruence]. }
  apply create_doc_ext.
  - intros k _. destruct (String.eqb_spec k "year") as [->|Hk]; [|by rewrite Hother].
    rewrite !field_insert_eq. cbn [truthy].
    destruct (String.eqb_spec (decimal_Z n) "") as [E|_]; [by apply decimal_Z_nonempty in E|].
    destruct (Z.eqb_spec n 0); [contradiction | reflexivity].
  - apply Hother. discriminate.
  - apply Hother. discriminate.
  - intros ft. unfold dbData_of, field_or.
    rewrite !field_insert_eq. cbn [parseInt]. rewrite parse_decimal_Z.
    rewrite !(Hother "doc_id"), !(Hother "doc_type"), !(Hother "doc_title"),
      !(Hother "revision_no"), !(Hother "quarter"), !(Hother "owner"), !(Hother "status"),
      !(Hother "doc_status"), !(Hother "is_uploaded"), !(Hother "uploaded_file"),
      !(Hother "file_size"), !(Hother "storage_path"), !(Hother "download_url"),
      !(Hother "uploaded_at") by discriminate.
    reflexivity.
Qed.

End YearAsText.

(** ** Reading the table *)

Lemma insert_desc_permutation r rs : Permutation (Store.insert_desc r rs) (r :: rs).
Proof.
  induction rs as [|x rest IH]; cbn [Store.insert_desc]; [reflexivity|].
  destruct (_ <? _); [reflexivity|]. rewrite IH. apply perm_swap.
Qed.

Lemma insert_desc_newest_first r rs :
  Keys.newest_first rs -> Keys.newest_first (Store.insert_desc r rs).
Proof.
  unfold Keys.newest_first. induction 1 as [|x rest Hs IH Hx]; cbn [Store.insert_desc].
  - repeat constructor.
  - destruct (_ <? _) eqn:E.
    + apply Z.ltb_lt in E. constructor; [by constructor|].
      constructor; [lia|]. eapply Forall_impl; [exact Hx|]. cbn. intros y Hy. lia.
    + apply Z.ltb_ge in E. constructor; [exact IH|].
      rewrite (insert_desc_permutation r rest). constructor; [lia | exact Hx].
Qed.

Lemma findAll_desc_spec (t : Store.table) :
  Permutation (Store.findAll_desc t) (Store.rows t) /\ Keys.newest_first (Store.findAll_desc t).
Proof.
  unfold Store.findAll_desc. induction (Store.rows t) as [|r rs [IHp IHs]]; cbn [fold_right].
  - split; [reflexivity | constructor].
  - split; [by rewrite insert_desc_permutation, IHp | by apply insert_desc_newest_first].
Qed.

(** X6.  The list operation answers 200 with every stored row, each
    exactly once, ordered from the most recent [created_at] to the
    oldest, and changes nothing. *)
Theorem list_returns_all_rows_newest_first (w : world) :
  exists data,
    getAllMasterPlanDocs w = (mkResponse 200 (DataList data), w)
    /\ Permutation data (Store.rows (db w))
    /\ Keys.newest_first data.
Proof.
  exists (Store.findAll_desc (db w)). split; [reflexivity|]. apply findAll_desc_spec.
Qed.

(** ** Paths *)

Lemma split_rev_slash_free cur cs :
  Forall (fun c => NodePath.is_slash c = false) cs ->
  NodePath.split_rev cur cs = [string_of_list_ascii (rev cur ++ cs)].
Proof.
  intros H. revert cur. induction H as [|c cs Hc _ IH]; intros cur; cbn [NodePath.split_rev].
  - by rewrite app_nil_r.
  - rewrite Hc, IH. cbn [rev]. by rewrite <- app_assoc.
Qed.

Lemma split_rev_app cur xs ys :
  NodePath.split_rev cur (xs ++ "/"%char :: ys)
  = (NodePath.split_rev cur xs ++ NodePath.split_rev [] ys)%list.
Proof.
  revert cur. induction xs as [|c xs IH]; intros cur; cbn [app NodePath.split_rev].
  - reflexivity.
  - destruct (NodePath.is_slash c); [by rewrite IH | apply IH].
Qed.

Lemma list_ascii_of_string_app (a b : string) :
  list_ascii_of_string (a +:+ b) = (list_ascii_of_string a ++ list_ascii_of_string b)%list.
Proof.
  induction a as [|c a IH]; [reflexivity|].
  change (c :: list_ascii_of_string (a +:+ b)
          = c :: (list_ascii_of_string a ++ list_ascii_of_string b)%list). by rewrite IH.
Qed.

Lemma split_slash_plain (s : string) : Names.slash_free s -> NodePath.split_slash s = [s].
Proof.
  intros H. unfold NodePath.split_slash. rewrite (split_rev_slash_free [] _ H).
  cbn [rev app]. by rewrite string_of_list_ascii_of_string.
Qed.

Lemma split_slash_app (a b : string) :
  NodePath.split_slash (a +:+ "/" +:+ b)
  = (NodePath.split_slash a ++ NodePath.split_slash b)%list.
Proof.
  unfold NodePath.split_slash. rewrite list_ascii_of_string_app.
  change (list_ascii_of_string ("/" +:+ b)) with ("/"%char :: list_ascii_of_string b).
  apply split_rev_app.
Qed.

(** [path.join(path.join(base, a), b)] is [path.join(base, a + "/" + b)]. *)
Lemma join_join base (a b : string) :
  NodePath.join (NodePath.join base a) b = NodePath.join base (a +:+ "/" +:+ b).
Proof. unfold NodePath.join. by rewrite split_slash_app, fold_left_app. Qed.

Lemma join_one_segment base (s : string) : Names.plain s -> NodePath.join base s = (base ++ [s])%list.
Proof.
  intros (Hs & H0 & H1 & H2). unfold NodePath.join. rewrite (split_slash_plain s Hs).
  cbn [fold_left]. unfold NodePath.push_segment.
  destruct (String.eqb_spec s ""); [contradiction|].
  destruct (String.eqb_spec s "."); [contradiction|].
  destruct (String.eqb_spec s ".."); [contradiction|]. reflexivity.
Qed.

Lemma removelast_snoc {A} (l : list A) (x : A) : removelast (l ++ [x]) = l.
Proof. by rewrite removelast_last. Qed.

Lemma controllers_dir (app_root : list string) :
  (app_root ++ ["app"; "controllers"])%list = ((app_root ++ ["app"]) ++ ["controllers"])%list.
Proof. by rewrite <- app_assoc. Qed.

(** The uploads directory is [uploads/master-plans] under the
    application's root. *)
Lemma uploadsDir_eq app_root : uploadsDir app_root = (app_root ++ ["uploads"; "master-plans"])%list.
Proof.
  unfold uploadsDir, NodePath.join.
  change (NodePath.split_slash "../../uploads/master-plans")
    with [".."; ".."; "uploads"; "master-plans"].
  cbn [fold_left]. unfold NodePath.push_segment. cbn [String.eqb Ascii.eqb Bool.eqb orb].
  rewrite controllers_dir, !removelast_snoc.
  by rewrite <- app_assoc.
Qed.

Lemma app_root_eq app_root :
  NodePath.join (app_root ++ ["app"; "controllers"]) "../.." = app_root.
Proof.
  unfold NodePath.join. change (NodePath.split_slash "../..") with [".."; ".."].
  cbn [fold_left]. unfold NodePath.push_segment. cbn [String.eqb Ascii.eqb Bool.eqb orb].
  by rewrite controllers_dir, !removelast_snoc.
Qed.

(** ** Routing *)

Lemma find_nowhere {A} (p : A -> bool) (l : list A) :
  (forall x, In x l -> p x = false) -> List.find p l = None.
Proof.
  induction l as [|a l IH]; intros H; [reflexivity|]. cbn [List.find].
  rewrite (H a (or_introl eq_refl)). apply IH. intros x Hx. apply H. by right.
Qed.

Lemma uint_text_slash_free (d : Decimal.uint) :
  Names.slash_free (NilEmpty.string_of_uint d).
Proof.
  unfold Names.slash_free.
  induction d; cbn [NilEmpty.string_of_uint list_ascii_of_string];
    constructor; try reflexivity; assumption.
Qed.

Lemma decimal_Z_slash_free (n : Z) : Names.slash_free (decimal_Z n).
Proof.
  assert (H : forall m : N, Names.slash_free (decimal m)).
  { intros m. unfold decimal, NilZero.string_of_uint.
    destruct (N.to_uint m) eqn:E; try (rewrite <- E; apply uint_text_slash_free).
    repeat constructor. }
  unfold decimal_Z. destruct (n <? 0); [|apply H].
  unfold Names.slash_free. change (list_ascii_of_string ("-" +:+ decimal (Z.to_N (- n))))
    with ("-"%char :: list_ascii_of_string (decimal (Z.to_N (- n)))).
  constructor; [reflexivity | apply H].
Qed.

Lemma split_slash_cons (s : string) :
  NodePath.split_slash ("/" +:+ s) = "" :: NodePath.split_slash s.
Proof. reflexivity. Qed.

Lemma nonempty_test (s : string) : s <> "" -> (s =? "")%string = false.
Proof. intros H. by destruct (String.eqb_spec s ""). Qed.

(** A path of one segment. *)
Lemma segments_one (s : string) :
  Names.slash_free s -> s <> "" -> Routes.segments ("/" +:+ s) = Some [s].
Proof.
  intros Hs H0. unfold Routes.segments.
  rewrite split_slash_cons, (split_slash_plain s Hs). cbn [rev app].
  destruct s as [|c s]; [contradiction|]. reflexivity.
Qed.

(** A path of two segments. *)
Lemma segments_two (a b : string) :
  Names.slash_free a -> a <> "" -> Names.slash_free b -> b <> "" ->
  Routes.segments ("/" +:+ a +:+ "/" +:+ b) = Some [a; b].
Proof.
  intros Ha Ha0 Hb Hb0. unfold Routes.segments.
  rewrite split_slash_cons, split_slash_app, (split_slash_plain a Ha), (split_slash_plain b Hb).
  cbn [rev app]. destruct b as [|c b]; [contradiction|].
  cbn [forallb]. rewrite (nonempty_test a Ha0). reflexivity.
Qed.

(** X7.  No GET route writes: whatever the path, the table and the disk
    after the request are those before it. *)
Theorem get_routes_never_write app_root (w : world) (path : string) :
  snd (Routes.get app_root w path) = w.
Proof.
  unfold Routes.get.
  destruct (Routes.segments path) as [[|a [|b [|c [|e l]]]]|]; try reflexivity.
  - unfold getMasterPlanDocById. by destruct (Store.findByPk (db w) a).
  - destruct (Routes.matches "check-doc-id" a); [|reflexivity].
    unfold checkDocIdExists. by destruct (negb _).
  - destruct (Routes.matches "download" a); [|reflexivity].
    unfold downloadFile. destruct (_ || _); [reflexivity|].
    destruct (Fs.existsSync _ _); [|reflexivity].
    destruct (ignoredDotFile _); [reflexivity|]. by destruct (_ !! _).
Qed.

Section ServedByKey.

Variable engine_accepts : dbData -> bool.
Variable development : bool.
Variable app_root : list string.

(** X8.  A created document is served under its key.  When the keys in
    use are below the table's counter and a create request is accepted,
    the path made of the decimal text of the new record's [id] is
    answered 200 with the row that the request added to the table: the
    one row that the table has gained, whose key is the record's [id].
    (Nothing is said of the values of that row against those of the
    record in the answer.) *)
Theorem created_document_served_by_key clk w (body : gmap string jsval) m inst w' :
  Keys.well_keyed (db w) ->
  createMasterPlanDoc engine_accepts development clk w body
  = (mkResponse 201 (MessageData m inst), w') ->
  exists row,
    Store.rows (db w') = (Store.rows (db w) ++ [row])%list
    /\ id row = id inst
    /\ Routes.get app_root w' ("/" +:+ decimal_Z (id inst))
       = (mkResponse 200 (Data row), w').
Proof.
  intros (_ & _ & Hlt) H.
  destruct (create_outcomes engine_accepts development clk w body)
    as [(inst' & row & E & Hid & Hrow & Hval & _)|[_ Hc]].
  - rewrite E in H. injection H as _ <- <-.
    exists row. split; [reflexivity|]. split; [by rewrite Hrow, Hid|].
    unfold Routes.get.
    rewrite (segments_one _ (decimal_Z_slash_free _) (decimal_Z_nonempty _)).
    unfold getMasterPlanDocById, Store.findByPk. cbn [db Store.rows].
    rewrite sql_integer_decimal, find_append.
    assert (Hold : List.find (fun r => id r =? id inst') (Store.rows (db w)) = None).
    { apply find_nowhere. intros r Hr. rewrite Forall_forall in Hlt.
      apply list_elem_of_In in Hr. specialize (Hlt r Hr). apply Z.eqb_neq. lia. }
    rewrite Hold. cbn [List.find]. by rewrite Hrow, Hid, Z.eqb_refl.
  - rewrite H in Hc. cbn [fst code] in Hc. destruct Hc; discriminate.
Qed.

End ServedByKey.

(** ** What an upload does to the disk *)

Lemma mkdirSync_frame (d : Fs.disk) (p : list string) :
  Fs.files (fst (Fs.mkdirSync d p)) = Fs.files d
  /\ Fs.dirs d ⊆ Fs.dirs (fst (Fs.mkdirSync d p)).
Proof.
  unfold Fs.mkdirSync. destruct (existsb _ _); cbn [fst Fs.files Fs.dirs]; split;
    try reflexivity; set_solver.
Qed.

Lemma writeFile_frame (doc : UploadedFile.t) (d : Fs.disk) (p : list string) :
  Fs.dirs (fst (Fs.writeFile doc d p)) = Fs.dirs d
  /\ Fs.files (fst (Fs.writeFile doc d p))
     = match snd (Fs.writeFile doc d p) with
       | None => <[p := doc]> (Fs.files d)
       | Some _ => Fs.files d
       end.
Proof. unfold Fs.writeFile. destruct (_ || _); [done|]. by destruct (_ && _). Qed.

Lemma mv_frame (doc : UploadedFile.t) (d : Fs.disk) (p : list string) :
  Fs.dirs d ⊆ Fs.dirs (fst (Fs.mv doc d p))
  /\ Fs.files (fst (Fs.mv doc d p))
     = match snd (Fs.mv doc d p) with
       | None => <[p := doc]> (Fs.files d)
       | Some _ => Fs.files d
       end.
Proof.
  unfold Fs.mv.
  destruct (Fs.existsSync d (NodePath.dirname p)).
  - destruct (writeFile_frame doc d p) as [Hd Hf]. rewrite Hd. by split.
  - destruct (mkdirSync_frame d (NodePath.dirname p)) as [Hf Hd].
    destruct (Fs.mkdirSync d (NodePath.dirname p)) as [d1 [e|]]; cbn [fst snd] in *; [done|].
    destruct (writeFile_frame doc d1 p) as [Hd' Hf']. rewrite Hd', Hf', Hf. by split.
Qed.

Lemma mkdirSync_missing_result (d : Fs.disk) (p : list string) d' o :
  (if negb (Fs.existsSync d p) then Fs.mkdirSync d p else (d, None)) = (d', o) ->
  Fs.files d' = Fs.files d /\ Fs.dirs d ⊆ Fs.dirs d'.
Proof.
  intros E. destruct (negb _).
  - pose proof (mkdirSync_frame d p) as H. by rewrite E in H.
  - injection E as <- <-. done.
Qed.

Lemma mv_result (doc : UploadedFile.t) (d : Fs.disk) (p : list string) d' o :
  Fs.mv doc d p = (d', o) ->
  Fs.dirs d ⊆ Fs.dirs d'
  /\ Fs.files d' = match o with
                   | None => <[p := doc]> (Fs.files d)
                   | Some _ => Fs.files d
                   end.
Proof. intros E. pose proof (mv_frame doc d p) as H. by rewrite E in H. Qed.

Ltac rejected_upload :=
  cbn [fst snd code];
  split; [reflexivity|]; split; [intros _; reflexivity|]; split; [intros _; reflexivity|];
  let H := fresh "H" in intros H; discriminate H.

Ltac failed_upload :=
  cbn [fst snd code disk upload_failed];
  split; [|split; [let H := fresh "H" in intros H; discriminate H|];
           split; [intros _|let H := fresh "H" in intros H; discriminate H]].

Section UploadEffects.

Variable app_root : list string.

(** An upload that is not answered 200 leaves every file as it was. *)
Lemma upload_failure_keeps_files clk w (req : UploadRequest.t) :
  code (fst (uploadFile app_root clk w req)) <> 200 ->
  Fs.files (disk (snd (uploadFile app_root clk w req))) = Fs.files (disk w).
Proof.
  unfold uploadFile.
  destruct (UploadRequest.document req) as [document|]; [|reflexivity].
  destruct (_ || _ || _); [reflexivity|].
  destruct (10 * 1024 * 1024 <? UploadedFile.size document); [reflexivity|].
  destruct (negb (includes allowedTypes (UploadedFile.mimetype document))); [reflexivity|].
  destruct (ensureUploadsDir app_root (disk w)) as [d1 o1] eqn:E1.
  apply mkdirSync_missing_result in E1 as [Hf1 _].
  destruct o1 as [e|]; [intros _; exact Hf1|].
  destruct (if negb (Fs.existsSync d1 _) then _ else _) as [d2 o2] eqn:E2.
  apply mkdirSync_missing_result in E2 as [Hf2 _].
  destruct o2 as [e|]; [intros _; cbn [snd disk]; congruence|].
  destruct (Fs.mv _ d2 _) as [d3 o3] eqn:E3.
  apply mv_result in E3 as [_ Hf3]. destruct o3 as [e|].
  - intros _. cbn [snd disk]. congruence.
  - cbn [fst code]. intros H. by destruct H.
Qed.

(** X9.  An upload changes at most one file.  Directories are only ever
    added; an answer 400 leaves the whole world as it was; an answer other
    than 200 leaves every file as it was; and after an answer 200 the
    files are those of before with the uploaded document put at its place
    under the uploads directory, [doc_id/doc_id_base_time.ext]. *)
Theorem upload_changes_one_file clk w (req : UploadRequest.t) :
  Fs.dirs (disk w) ⊆ Fs.dirs (disk (snd (uploadFile app_root clk w req)))
  /\ (code (fst (uploadFile app_root clk w req)) = 400 -> snd (uploadFile app_root clk w req) = w)
  /\ (code (fst (uploadFile app_root clk w req)) <> 200 ->
      Fs.files (disk (snd (uploadFile app_root clk w req))) = Fs.files (disk w))
  /\ (code (fst (uploadFile app_root clk w req)) = 200 ->
      exists document d,
        UploadRequest.document req = Some document
        /\ UploadRequest.doc_id req = Some d
        /\ Fs.files (disk (snd (uploadFile app_root clk w req)))
           = <[NodePath.join (NodePath.join (uploadsDir app_root) d)
                 (uniqueFileName d (UploadedFile.name document) (clk 0%nat)) := document]>
               (Fs.files (disk w))).
Proof.
  unfold uploadFile.
  destruct (UploadRequest.document req) as [document|] eqn:Hdoc; [|rejected_upload].
  destruct (_ || _ || _) eqn:Hmeta; [rejected_upload|].
  destruct (10 * 1024 * 1024 <? UploadedFile.size document); [rejected_upload|].
  destruct (negb (includes allowedTypes (UploadedFile.mimetype document))); [rejected_upload|].
  destruct (UploadRequest.doc_id req) as [d|] eqn:Hid; [|discriminate Hmeta].
  cbn [UploadRequest.text property_key].
  destruct (ensureUploadsDir app_root (disk w)) as [d1 o1] eqn:E1.
  apply mkdirSync_missing_result in E1 as [Hf1 Hd1].
  destruct o1 as [e|]; [failed_upload; [exact Hd1 | exact Hf1]|].
  destruct (if negb (Fs.existsSync d1 (NodePath.join (uploadsDir app_root) d))
            then Fs.mkdirSync d1 (NodePath.join (uploadsDir app_root) d)
            else (d1, None)) as [d2 o2] eqn:E2.
  apply mkdirSync_missing_result in E2 as [Hf2 Hd2].
  destruct o2 as [e|]; [failed_upload; [etrans; [exact Hd1 | exact Hd2] | congruence]|].
  destruct (Fs.mv document d2 _) as [d3 o3] eqn:E3.
  apply mv_result in E3 as [Hd3 Hf3]. destruct o3 as [e|].
  - failed_upload; [etrans; [exact Hd1|]; etrans; [exact Hd2 | exact Hd3] | congruence].
  - cbn [fst snd code disk]. split; [etrans; [exact Hd1|]; etrans; [exact Hd2 | exact Hd3]|].
    split; [intros H; discriminate H|]. split; [intros H; by destruct H|]. intros _.
    exists document, d. split; [reflexivity|]. split; [reflexivity|]. congruence.
Qed.

End UploadEffects.

(** ** Uploads that succeed *)

Lemma prefixes_snoc (p : list string) (x : string) :
  Fs.prefixes (p ++ [x]) = (Fs.prefixes p ++ [p ++ [x]])%list.
Proof.
  induction p as [|a p IH]; [reflexivity|].
  cbn [app Fs.prefixes]. rewrite IH, map_app. reflexivity.
Qed.

Lemma prefixes_length (p q : list string) :
  In q (Fs.prefixes p) -> (List.length q <= List.length p)%nat.
Proof.
  revert q. induction p as [|a p IH]; intros q; cbn [Fs.prefixes]; [intros []|].
  intros [<-|Hin]; [cbn; lia|].
  apply in_map_iff in Hin as (q' & <- & Hq'). specialize (IH q' Hq'). cbn. lia.
Qed.

Lemma prefixes_self (p : list string) : p <> [] -> In p (Fs.prefixes p).
Proof.
  induction p as [|a p IH]; [done|]. intros _. cbn [Fs.prefixes].
  destruct p as [|b p]; [by left|]. right. apply in_map. by apply IH.
Qed.

Lemma no_file_test (d : Fs.disk) (ps : list (list string)) :
  (forall q, In q ps -> Fs.files d !! q = None) -> existsb (Fs.is_file d) ps = false.
Proof.
  intros H. induction ps as [|q ps IH]; [reflexivity|]. cbn [existsb].
  unfold Fs.is_file at 1. rewrite (H q (or_introl eq_refl)).
  rewrite bool_decide_eq_false_2 by (intros [? ?]; discriminate).
  apply IH. intros q' Hq'. apply H. by right.
Qed.

(** Creating a missing directory where no file is in the way. *)
Lemma mkdir_missing_clear (d : Fs.disk) (p : list string) :
  p <> [] ->
  (forall q, In q (Fs.prefixes p) -> Fs.files d !! q = None) ->
  exists d',
    (if negb (Fs.existsSync d p) then Fs.mkdirSync d p else (d, None)) = (d', None)
    /\ Fs.files d' = Fs.files d
    /\ p ∈ Fs.dirs d'
    /\ (forall q, q ∈ Fs.dirs d' -> q ∈ Fs.dirs d \/ In q (Fs.prefixes p)).
Proof.
  intros Hp Hclear. destruct (Fs.existsSync d p) eqn:Ex; cbn [negb].
  - exists d. split; [reflexivity|]. split; [reflexivity|]. split; [|by left].
    unfold Fs.existsSync, Fs.is_file in Ex. rewrite (Hclear p (prefixes_self p Hp)) in Ex.
    rewrite (bool_decide_eq_false_2 (is_Some None)) in Ex by (intros [? ?]; discriminate).
    rewrite orb_false_r in Ex. by apply bool_decide_eq_true in Ex.
  - unfold Fs.mkdirSync. rewrite (no_file_test d _ Hclear). eexists. split; [reflexivity|].
    cbn [Fs.files Fs.dirs]. split; [reflexivity|]. split.
    + apply elem_of_union_l. rewrite elem_of_list_to_set, list_elem_of_In.
      by apply prefixes_self.
    + intros q Hq. apply elem_of_union in Hq as [Hq|Hq]; [right|by left].
      by rewrite elem_of_list_to_set, list_elem_of_In in Hq.
Qed.

Lemma slash_free_app (a b : string) :
  Names.slash_free (a +:+ b) <-> Names.slash_free a /\ Names.slash_free b.
Proof. unfold Names.slash_free. rewrite list_ascii_of_string_app. apply Forall_app. Qed.

(** The stored file name is one path segment when the document id and
    the original name hold no slash. *)
Lemma uniqueFileName_plain (d name : string) (t : Z) :
  Names.slash_free d -> Names.slash_free name -> Names.plain (uniqueFileName d name t).
Proof.
  intros Hd Hname. pose proof (basename_extname_split name Hname) as Hsplit.
  rewrite <- Hsplit in Hname. apply slash_free_app in Hname as [Hbase Hext].
  unfold uniqueFileName. split.
  - repeat (apply slash_free_app; split); try assumption;
      try apply decimal_Z_slash_free; repeat constructor.
  - assert (Hin : In "_"%char
                    (list_ascii_of_string
                       (d +:+ "_" +:+ NodePath.basename name (NodePath.extname name) +:+ "_"
                          +:+ decimal_Z t +:+ NodePath.extname name))).
    { rewrite list_ascii_of_string_app. apply in_or_app. right. by left. }
    repeat split; intros E; rewrite E in Hin; cbn in Hin; intuition discriminate.
Qed.

Lemma includes_In (xs : list string) (x : string) : In x xs -> includes xs x = true.
Proof.
  intros H. unfold includes. apply existsb_exists. exists x. split; [exact H|].
  apply String.eqb_refl.
Qed.

Section UploadSucceeds.

Variable app_root : list string.

(** An upload that nothing stands in the way of. *)
Lemma upload_on_clear_disk clk w (req : UploadRequest.t) document (d t r : string) :
  UploadRequest.document req = Some document ->
  UploadRequest.doc_id req = Some d ->
  UploadRequest.doc_type req = Some t ->
  UploadRequest.revision_no req = Some r ->
  t <> "" -> r <> "" ->
  Names.plain d ->
  Names.slash_free (UploadedFile.name document) ->
  UploadedFile.size document <= 10 * 1024 * 1024 ->
  In (UploadedFile.mimetype document) allowedTypes ->
  (forall q, In q (Fs.prefixes (app_root ++ ["uploads"; "master-plans"; d])) ->
             Fs.files (disk w) !! q = None) ->
  (app_root ++ ["uploads"; "master-plans"; d;
                uniqueFileName d (UploadedFile.name document) (clk 0%nat)])%list
    ∉ Fs.dirs (disk w) ->
  exists w',
    uploadFile app_root clk w req
    = (mkResponse 200
         (Uploaded "File uploaded successfully and stored permanently"
            (uniqueFileName d (UploadedFile.name document) (clk 0%nat))
            (UploadedFile.name document) (UploadedFile.size document)
            (UploadedFile.mimetype document)
            ("/uploads/master-plans/" +:+ d +:+ "/"
               +:+ uniqueFileName d (UploadedFile.name document) (clk 0%nat))
            ("/api/masterplandocs/download/" +:+ d +:+ "/"
               +:+ uniqueFileName d (UploadedFile.name document) (clk 0%nat))),
       w')
    /\ Fs.files (disk w')
       = <[(app_root ++ ["uploads"; "master-plans"; d;
                         uniqueFileName d (UploadedFile.name document) (clk 0%nat)])%list
           := document]> (Fs.files (disk w))
    /\ db w' = db w.
Proof.
  intros Hdoc Hid Htype Hrev Ht Hr Hplain Hname Hsize Hmime Hclear Hfree.
  assert (Hfolder : (app_root ++ ["uploads"; "master-plans"; d])%list
                    = (uploadsDir app_root ++ [d])%list).
  { rewrite uploadsDir_eq, <- app_assoc. reflexivity. }
  assert (Htarget : (app_root ++ ["uploads"; "master-plans"; d;
                        uniqueFileName d (UploadedFile.name document) (clk 0%nat)])%list
                    = ((uploadsDir app_root ++ [d])
                         ++ [uniqueFileName d (UploadedFile.name document) (clk 0%nat)])%list).
  { rewrite uploadsDir_eq, <- !app_assoc. reflexivity. }
  rewrite Htarget in *. rewrite Hfolder in Hclear. clear Hfolder Htarget.
  assert (Hpl : Names.plain (uniqueFileName d (UploadedFile.name document) (clk 0%nat))).
  { apply uniqueFileName_plain; [apply Hplain | exact Hname]. }
  apply Z.ltb_ge in Hsize.
  unfold uploadFile. rewrite Hdoc, Hid, Htype, Hrev. cbn [UploadRequest.text truthy property_key].
  destruct Hplain as (Hslash & Hd0 & Hd1 & Hd2).
  rewrite (nonempty_test d Hd0), (nonempty_test t Ht), (nonempty_test r Hr). cbn [negb orb].
  rewrite Hsize, (includes_In _ _ Hmime). cbn [negb]. cbv zeta.
  rewrite !(join_one_segment (uploadsDir app_root) d) by (repeat split; assumption).
  rewrite !(join_one_segment _ _ Hpl).
  assert (Hup : uploadsDir app_root <> []).
  { rewrite uploadsDir_eq. by destruct app_root. }
  destruct (mkdir_missing_clear (disk w) (uploadsDir app_root) Hup) as (d1 & E1 & Hf1 & _ & Hin1).
  { intros q Hq. apply Hclear. rewrite prefixes_snoc. apply in_or_app. by left. }
  unfold ensureUploadsDir. rewrite E1.
  destruct (mkdir_missing_clear d1 (uploadsDir app_root ++ [d])) as (d2 & E2 & Hf2 & Hdir2 & Hin2).
  { by destruct (uploadsDir app_root). }
  { intros q Hq. rewrite Hf1. by apply Hclear. }
  rewrite E2. unfold Fs.mv, NodePath.dirname. rewrite removelast_snoc.
  unfold Fs.existsSync. rewrite (bool_decide_eq_true_2 _ Hdir2). cbn [orb].
  unfold Fs.writeFile, NodePath.dirname. rewrite removelast_snoc.
  rewrite (bool_decide_eq_true_2 _ Hdir2). cbn [negb andb].
  assert (Hnew : ((uploadsDir app_root ++ [d])
                    ++ [uniqueFileName d (UploadedFile.name document) (clk 0%nat)])%list
                 ∉ Fs.dirs d2).
  { intros Hin. apply Hin2 in Hin as [Hin|Hin].
    - apply Hin1 in Hin as [Hin|Hin]; [by apply Hfree|].
      apply prefixes_length in Hin. rewrite !length_app in Hin. cbn in Hin. lia.
    - apply prefixes_length in Hin. rewrite !length_app in Hin. cbn in Hin. lia. }
  rewrite (bool_decide_eq_false_2 _ Hnew).
  rewrite bool_decide_eq_false_2 by (by destruct (uploadsDir app_root ++ [d])%list).
  cbn [orb]. eexists. split; [reflexivity|]. cbn [disk db Fs.files].
  split; [|reflexivity]. by rewrite Hf2, Hf1.
Qed.

(** X10.  An upload that nothing stands in the way of is stored.  Take a
    request behind the router with a file of an allowed type and of less
    than 10 MiB, whose name holds no slash, with a document id that is one
    plain path segment and with non-empty type and revision.  When no file
    sits at or above [uploads/master-plans/doc_id] under the application
    root and the target is not a directory, the answer is 200 with the
    stored name [doc_id_base_time.ext], the storage path and the download
    URL; the document is then on the disk at
    [uploads/master-plans/doc_id/stored name], every other file is as it
    was, and the table is untouched. *)
Theorem clear_upload_is_stored clk w (req : UploadRequest.t) document (d t r : string) :
  UploadRequest.document req = Some document ->
  UploadRequest.doc_id req = Some d ->
  UploadRequest.doc_type req = Some t ->
  UploadRequest.revision_no req = Some r ->
  t <> "" -> r <> "" ->
  Names.plain d ->
  Names.slash_free (UploadedFile.name document) ->
  UploadedFile.size document < 10 * 1024 * 1024 ->
  In (UploadedFile.mimetype document) allowedTypes ->
  (forall q, In q (Fs.prefixes (app_root ++ ["uploads"; "master-plans"; d])) ->
             Fs.files (disk w) !! q = None) ->
  (app_root ++ ["uploads"; "master-plans"; d;
                uniqueFileName d (UploadedFile.name document) (clk 0%nat)])%list
    ∉ Fs.dirs (disk w) ->
  exists w',
    Routes.post_upload app_root clk w req
    = (mkResponse 200
         (Uploaded "File uploaded successfully and stored permanently"
            (uniqueFileName d (UploadedFile.name document) (clk 0%nat))
            (UploadedFile.name document) (UploadedFile.size document)
            (UploadedFile.mimetype document)
            ("/uploads/master-plans/" +:+ d +:+ "/"
               +:+ uniqueFileName d (UploadedFile.name document) (clk 0%nat))
            ("/api/masterplandocs/download/" +:+ d +:+ "/"
               +:+ uniqueFileName d (UploadedFile.name document) (clk 0%nat))),
       w')
    /\ Fs.files (disk w')
       = <[(app_root ++ ["uploads"; "master-plans"; d;
                         uniqueFileName d (UploadedFile.name document) (clk 0%nat)])%list
           := document]> (Fs.files (disk w))
    /\ db w' = db w.
Proof.
  intros Hdoc Hid Htype Hrev Ht Hr Hplain Hname Hsize Hmime Hclear Hfree.
  unfold Routes.post_upload, Routes.fileUpload, Routes.fileSize_limit. rewrite Hdoc.
  rewrite (proj2 (Z.leb_gt _ _) Hsize).
  apply (upload_on_clear_disk clk w req document d t r); try done.
  lia.
Qed.

End UploadSucceeds.

(** ** Uploaded files, downloaded and deleted *)

Lemma mv_stored (doc : UploadedFile.t) (d : Fs.disk) (p : list string) d' :
  Fs.mv doc d p = (d', None) ->
  Fs.files d' = <[p := doc]> (Fs.files d) /\ p ∉ Fs.dirs d'.
Proof.
  unfold Fs.mv.
  assert (Hw : forall d0, Fs.writeFile doc d0 p = (d', None) ->
                          Fs.files d' = <[p := doc]> (Fs.files d0) /\ p ∉ Fs.dirs d').
  { intros d0. unfold Fs.writeFile.
    destruct (bool_decide (p ∈ Fs.dirs d0)) eqn:Ein; [discriminate|].
    destruct (bool_decide (p = [])); [discriminate|]. cbn [orb].
    destruct (_ && _); [discriminate|]. intros [= <-]. cbn [Fs.files Fs.dirs].
    split; [reflexivity|]. by apply bool_decide_eq_false in Ein. }
  destruct (Fs.existsSync d (NodePath.dirname p)); [apply Hw|].
  pose proof (mkdirSync_frame d (NodePath.dirname p)) as [Hf _].
  destruct (Fs.mkdirSync d (NodePath.dirname p)) as [d1 [e|]]; [discriminate|].
  cbn [fst] in Hf. intros H. apply Hw in H. by rewrite <- Hf.
Qed.

(** What an accepted upload leaves behind. *)
Lemma upload_stored app_root clk w (req : UploadRequest.t)
      message fileName originalName fileSize fileType storagePath downloadUrl w' :
  uploadFile app_root clk w req =
    (mkResponse 200 (Uploaded message fileName originalName fileSize fileType storagePath downloadUrl),
     w') ->
  exists d document,
    UploadRequest.doc_id req = Some d
    /\ UploadRequest.document req = Some document
    /\ d <> ""
    /\ fileName = uniqueFileName d (UploadedFile.name document) (clk 0%nat)
    /\ storagePath = "/uploads/master-plans/" +:+ d +:+ "/" +:+ fileName
    /\ downloadUrl = "/api/masterplandocs/download/" +:+ d +:+ "/" +:+ fileName
    /\ db w' = db w
    /\ Fs.files (disk w')
       = <[NodePath.join (NodePath.join (uploadsDir app_root) d) fileName := document]>
           (Fs.files (disk w))
    /\ NodePath.join (NodePath.join (uploadsDir app_root) d) fileName ∉ Fs.dirs (disk w').
Proof.
  unfold uploadFile.
  destruct (UploadRequest.document req) as [document|] eqn:Hdoc; [|other_code].
  destruct (_ || _ || _) eqn:Hmeta; [other_code|].
  destruct (10 * 1024 * 1024 <? UploadedFile.size document); [other_code|].
  destruct (negb (includes allowedTypes (UploadedFile.mimetype document))); [other_code|].
  destruct (UploadRequest.doc_id req) as [d|] eqn:Hid; [|discriminate Hmeta].
  cbn [UploadRequest.text property_key] in *.
  destruct (ensureUploadsDir app_root (disk w)) as [d1 o1] eqn:E1.
  apply mkdirSync_missing_result in E1 as [Hf1 _].
  destruct o1 as [e|]; [other_code|].
  destruct (if negb (Fs.existsSync d1 (NodePath.join (uploadsDir app_root) d))
            then Fs.mkdirSync d1 (NodePath.join (uploadsDir app_root) d)
            else (d1, None)) as [d2 o2] eqn:E2.
  apply mkdirSync_missing_result in E2 as [Hf2 _].
  destruct o2 as [e|]; [other_code|].
  destruct (Fs.mv document d2 _) as [d3 [e|]] eqn:E3; [other_code|].
  apply mv_stored in E3 as [Hf3 Hn3].
  intros H. injection H as <- <- <- <- <- <- <- <-.
  exists d, document. split; [reflexivity|]. split; [reflexivity|].
  split.
  { apply orb_false_elim in Hmeta as [Hmeta _]. apply orb_false_elim in Hmeta as [Hmeta _].
    apply negb_false_iff in Hmeta. by apply truthy_JStr. }
  repeat (split; [reflexivity|]). cbn [disk]. split; [congruence | exact Hn3].
Qed.

Section StoredFiles.

Variable app_root : list string.

(** X11.  What was uploaded can be downloaded, when no dot hides it.
    After an accepted upload with document id [d], when no component of
    the path of the stored file (application root, uploads/master-plans,
    [d], stored name) is a dot file, i.e. a name of two characters or
    more that starts with a dot, the download handler called with [d] and
    the stored file name of the answer answers 200 with the uploaded
    document, and changes nothing.  (With a dot file in the path the
    library may refuse the download although the file is on the disk.) *)
Theorem uploaded_file_is_downloadable clk w (req : UploadRequest.t) (d : string)
        message fileName originalName fileSize fileType storagePath downloadUrl w' :
  UploadRequest.doc_id req = Some d ->
  uploadFile app_root clk w req =
    (mkResponse 200 (Uploaded message fileName originalName fileSize fileType storagePath downloadUrl),
     w') ->
  containsDotFile (NodePath.join (NodePath.join (uploadsDir app_root) d) fileName) = false ->
  exists document,
    UploadRequest.document req = Some document
    /\ downloadFile app_root w' d fileName = (mkResponse 200 (FileStream document), w').
Proof.
  intros Hreq H Hdot. apply upload_stored in H
    as (d' & document & Hid & Hdoc & Hd & Hname & _ & Hurl & _ & Hfiles & _).
  assert (d' = d) as -> by congruence.
  exists document. split; [exact Hdoc|].
  assert (Hf : fileName <> "").
  { rewrite Hname. unfold uniqueFileName. destruct d; [done | discriminate]. }
  unfold downloadFile. cbn [truthy].
  rewrite (nonempty_test d Hd), (nonempty_test fileName Hf). cbn [negb orb].
  assert (Hlook : Fs.files (disk w')
                    !! NodePath.join (NodePath.join (uploadsDir app_root) d) fileName
                  = Some document).
  { rewrite Hfiles. apply lookup_insert_eq. }
  unfold Fs.existsSync, Fs.is_file. rewrite Hlook.
  rewrite (bool_decide_eq_true_2 (is_Some (Some document))) by (by eexists).
  rewrite orb_true_r. cbn [negb].
  unfold ignoredDotFile. by rewrite Hdot.
Qed.

End StoredFiles.

(** The storage path of an upload, joined to the application's root, is
    the place where the upload wrote the file. *)
Lemma storage_path_place app_root (d fileName : string) :
  NodePath.join app_root ("/uploads/master-plans/" +:+ d +:+ "/" +:+ fileName)
  = NodePath.join (NodePath.join (uploadsDir app_root) d) fileName.
Proof.
  change ("/uploads/master-plans/" +:+ d +:+ "/" +:+ fileName)
    with ("/uploads/master-plans" +:+ "/" +:+ (d +:+ "/" +:+ fileName)).
  rewrite <- !join_join. f_equal. f_equal. rewrite uploadsDir_eq.
  unfold NodePath.join.
  change (NodePath.split_slash "/uploads/master-plans") with [""; "uploads"; "master-plans"].
  cbn [fold_left]. unfold NodePath.push_segment. cbn [String.eqb Ascii.eqb Bool.eqb orb].
  by rewrite <- app_assoc.
Qed.

Lemma deleteFile_text app_root invalid_argument w (body : gmap string jsval) (p : string) :
  field body "filePath" = JStr p ->
  p <> "" ->
  Deletion.deleteFile app_root invalid_argument w body
  = if Fs.existsSync (disk w) (NodePath.join app_root p)
    then match Deletion.unlinkSync (disk w) (NodePath.join app_root p) with
         | (d, None) =>
             (Deletion.mkAnswer 200 true "File deleted successfully" None, mkWorld (db w) d)
         | (d, Some e) =>
             (Deletion.mkAnswer 500 false "File deletion failed" (Some (error_message e)),
              mkWorld (db w) d)
         end
    else (Deletion.mkAnswer 404 false "File not found" None, w).
Proof.
  intros Hp H0. unfold Deletion.deleteFile. rewrite Hp. cbn [truthy].
  rewrite (nonempty_test p H0). cbn [negb]. by rewrite app_root_eq.
Qed.

Section Delete.

Variable app_root : list string.
Variable invalid_argument : jsval -> string.

(** X12.  Clearing the form removes the uploaded file.  After an accepted
    upload, a delete request whose [filePath] is the storage path of the
    answer is answered 200; the uploaded file is gone, every other file,
    every directory and the table are as the upload left them, and when
    the upload did not overwrite a file the files are those of before the
    upload. *)
Theorem delete_removes_uploaded_file clk w (req : UploadRequest.t) (body : gmap string jsval)
        message fileName originalName fileSize fileType storagePath downloadUrl w' :
  uploadFile app_root clk w req =
    (mkResponse 200 (Uploaded message fileName originalName fileSize fileType storagePath downloadUrl),
     w') ->
  field body "filePath" = JStr storagePath ->
  exists d w'',
    UploadRequest.doc_id req = Some d
    /\ Deletion.deleteFile app_root invalid_argument w' body
       = (Deletion.mkAnswer 200 true "File deleted successfully" None, w'')
    /\ db w'' = db w
    /\ Fs.dirs (disk w'') = Fs.dirs (disk w')
    /\ Fs.files (disk w'')
       = delete (NodePath.join (NodePath.join (uploadsDir app_root) d) fileName)
                (Fs.files (disk w'))
    /\ (Fs.files (disk w) !! NodePath.join (NodePath.join (uploadsDir app_root) d) fileName = None ->
        Fs.files (disk w'') = Fs.files (disk w)).
Proof.
  intros H Hbody. apply upload_stored in H
    as (d & document & Hid & _ & _ & _ & Hpath & _ & Hdb & Hfiles & _).
  assert (Hlook : Fs.files (disk w')
                    !! NodePath.join (NodePath.join (uploadsDir app_root) d) fileName
                  = Some document).
  { rewrite Hfiles. apply lookup_insert_eq. }
  assert (Hfile : Fs.is_file (disk w')
                    (NodePath.join (NodePath.join (uploadsDir app_root) d) fileName) = true).
  { unfold Fs.is_file. rewrite Hlook. apply bool_decide_eq_true_2. by eexists. }
  rewrite (deleteFile_text app_root invalid_argument w' body storagePath Hbody)
    by (rewrite Hpath; discriminate).
  rewrite Hpath, storage_path_place.
  unfold Fs.existsSync, Deletion.unlinkSync. rewrite Hfile, orb_true_r.
  exists d. eexists. split; [exact Hid|].
  split; [reflexivity|]. cbn [db disk Fs.dirs Fs.files].
  split; [exact Hdb|]. split; [reflexivity|]. split; [reflexivity|].
  intros Hnone. rewrite Hfiles. by apply delete_insert_id.
Qed.

(** X13.  A delete request removes at most the file it names, wherever
    that file is: the table and the directories are never changed; an
    answer other than 200 leaves the whole world as it was; and an answer
    200 means that [filePath] was a non-empty string, that a file was at
    that path taken from the application's root, and that this file, and
    no other, is gone. *)
Theorem delete_removes_one_file w (body : gmap string jsval) :
  db (snd (Deletion.deleteFile app_root invalid_argument w body)) = db w
  /\ Fs.dirs (disk (snd (Deletion.deleteFile app_root invalid_argument w body))) = Fs.dirs (disk w)
  /\ (Deletion.code (fst (Deletion.deleteFile app_root invalid_argument w body)) <> 200 ->
      snd (Deletion.deleteFile app_root invalid_argument w body) = w)
  /\ (Deletion.code (fst (Deletion.deleteFile app_root invalid_argument w body)) = 200 ->
      exists p, field body "filePath" = JStr p
                /\ p <> ""
                /\ is_Some (Fs.files (disk w) !! NodePath.join app_root p)
                /\ Fs.files (disk (snd (Deletion.deleteFile app_root invalid_argument w body)))
                   = delete (NodePath.join app_root p) (Fs.files (disk w))).
Proof.
  assert (Hno : forall a : Deletion.answer,
             Deletion.code a <> 200 ->
             db (snd (a, w)) = db w
             /\ Fs.dirs (disk (snd (a, w))) = Fs.dirs (disk w)
             /\ (Deletion.code (fst (a, w)) <> 200 -> snd (a, w) = w)
             /\ (Deletion.code (fst (a, w)) = 200 ->
                 exists p, field body "filePath" = JStr p
                           /\ p <> ""
                           /\ is_Some (Fs.files (disk w) !! NodePath.join app_root p)
                           /\ Fs.files (disk (snd (a, w)))
                              = delete (NodePath.join app_root p) (Fs.files (disk w)))).
  { intros a Ha. cbn [fst snd]. split; [reflexivity|]. split; [reflexivity|].
    split; [intros _; reflexivity|]. intros H. by destruct Ha. }
  destruct (field body "filePath") as [| |b|n| |p|ms|repr] eqn:Hp.
  - unfold Deletion.deleteFile. rewrite Hp. apply Hno. discriminate.
  - unfold Deletion.deleteFile. rewrite Hp. apply Hno. discriminate.
  - unfold Deletion.deleteFile. rewrite Hp. destruct b; apply Hno; discriminate.
  - unfold Deletion.deleteFile. rewrite Hp. cbn [truthy].
    destruct (negb (n =? 0)); apply Hno; discriminate.
  - unfold Deletion.deleteFile. rewrite Hp. apply Hno. discriminate.
  - destruct (String.eqb_spec p "") as [->|H0].
    { unfold Deletion.deleteFile. rewrite Hp. apply Hno. discriminate. }
    revert Hno. rewrite <- Hp. intros Hno.
    rewrite (deleteFile_text app_root invalid_argument w body p Hp H0).
    destruct (Fs.existsSync (disk w) (NodePath.join app_root p));
      [|apply Hno; discriminate].
    unfold Deletion.unlinkSync.
    destruct (Fs.is_file (disk w) (NodePath.join app_root p)) eqn:Hfile.
    + cbn [fst snd Deletion.code db disk Fs.dirs Fs.files].
      split; [reflexivity|]. split; [reflexivity|]. split; [intros H; by destruct H|].
      intros _. exists p. split; [exact Hp|]. split; [exact H0|]. split; [|reflexivity].
      unfold Fs.is_file in Hfile. by apply bool_decide_eq_true in Hfile.
    + assert (Hw : mkWorld (db w) (disk w) = w) by (by destruct w).
      destruct (bool_decide _); rewrite Hw; apply Hno; discriminate.
  - unfold Deletion.deleteFile. rewrite Hp. apply Hno. discriminate.
  - unfold Deletion.deleteFile. rewrite Hp. apply Hno. discriminate.
Qed.

End Delete.

Lemma concat_cons (a b : string) (rest : list string) :
  String.concat "/" (a :: b :: rest) = a +:+ "/" +:+ String.concat "/" (b :: rest).
Proof. reflexivity. Qed.

(** Joining a relative path made of plain segments appends them. *)
Lemma join_segments (base segs : list string) :
  Forall Names.plain segs -> segs <> [] ->
  NodePath.join base (String.concat "/" segs) = (base ++ segs)%list.
Proof.
  intros H. revert base. induction H as [|a segs Ha Hsegs IH]; intros base Hne; [done|].
  destruct segs as [|b segs].
  - cbn [String.concat]. by apply join_one_segment.
  - rewrite concat_cons, <- join_join, (join_one_segment base a Ha), IH by discriminate.
    by rewrite <- app_assoc.
Qed.

Lemma concat_nonempty (segs : list string) :
  Forall Names.plain segs -> segs <> [] -> String.concat "/" segs <> "".
Proof.
  intros H Hne. destruct H as [|a segs (_ & Ha & _) _]; [done|].
  destruct segs as [|b segs]; [exact Ha|]. rewrite concat_cons.
  destruct a; [done | discriminate].
Qed.

Section DeleteAnywhere.

Variable app_root : list string.
Variable invalid_argument : jsval -> string.

(** X14.  The delete operation is not confined to the uploads directory:
    for any file below the application's root, a request whose [filePath]
    is the file's path from that root (plain segments joined by slashes)
    is answered 200 and removes that file, leaving the rest of the disk
    and the table as they were. *)
Theorem delete_reaches_any_file w (body : gmap string jsval) (segs : list string) f :
  Forall Names.plain segs ->
  segs <> [] ->
  field body "filePath" = JStr (String.concat "/" segs) ->
  Fs.files (disk w) !! (app_root ++ segs)%list = Some f ->
  Deletion.deleteFile app_root invalid_argument w body
  = (Deletion.mkAnswer 200 true "File deleted successfully" None,
     mkWorld (db w)
       {| Fs.dirs := Fs.dirs (disk w);
          Fs.files := delete (app_root ++ segs)%list (Fs.files (disk w)) |}).
Proof.
  intros Hsegs Hne Hbody Hfile.
  rewrite (deleteFile_text app_root invalid_argument w body _ Hbody)
    by (by apply concat_nonempty).
  rewrite (join_segments app_root segs Hsegs Hne).
  assert (His : Fs.is_file (disk w) (app_root ++ segs)%list = true).
  { unfold Fs.is_file. rewrite Hfile. apply bool_decide_eq_true_2. by eexists. }
  unfold Fs.existsSync, Deletion.unlinkSync. by rewrite His, orb_true_r.
Qed.

End DeleteAnywhere.

(** ** Lookup by key *)

Lemma find_unique_key (rs : list instance) (r : instance) :
  NoDup (map id rs) -> In r rs -> List.find (fun x => id x =? id r) rs = Some r.
Proof.
  induction rs as [|a rs IH]; intros Hnd Hin; [destruct Hin|].
  cbn [map] in Hnd. apply NoDup_cons in Hnd as [Ha Hnd]. cbn [List.find].
  destruct Hin as [->|Hin]; [by rewrite Z.eqb_refl|].
  destruct (Z.eqb_spec (id a) (id r)) as [E|_]; [|by apply IH].
  destruct Ha. rewrite E. apply list_elem_of_In. by apply in_map.
Qed.

Section ByKey.

Variable app_root : list string.

(** X15.  Lookup by key is exact on a table whose keys are distinct:
    every stored row is served, with status 200, at the path made of the
    decimal text of its [id], and the decimal text of a number that is no
    row's [id] is answered 404 'Master Plan Document not found'. *)
Theorem rows_served_by_key (w : world) :
  NoDup (Keys.ids (db w)) ->
  (forall r, In r (Store.rows (db w)) ->
             Routes.get app_root w ("/" +:+ decimal_Z (id r)) = (mkResponse 200 (Data r), w))
  /\ (forall n : Z, ~ In n (Keys.ids (db w)) ->
                    Routes.get app_root w ("/" +:+ decimal_Z n)
                    = (mkResponse 404 (Message "Master Plan Document not found"), w)).
Proof.
  intros Hnd. split.
  - intros r Hr. unfold Routes.get.
    rewrite (segments_one _ (decimal_Z_slash_free _) (decimal_Z_nonempty _)).
    unfold getMasterPlanDocById, Store.findByPk. rewrite sql_integer_decimal.
    by rewrite (find_unique_key _ r Hnd Hr).
  - intros n Hn. unfold Routes.get.
    rewrite (segments_one _ (decimal_Z_slash_free _) (decimal_Z_nonempty _)).
    unfold getMasterPlanDocById, Store.findByPk. rewrite sql_integer_decimal.
    rewrite find_nowhere; [reflexivity|].
    intros r Hr. apply Z.eqb_neq. intros E. apply Hn. rewrite <- E.
    unfold Keys.ids. by apply in_map.
Qed.

End ByKey.

(** ** The client service *)

Lemma id_char_no_slash (c : ascii) :
  AddDocForm.id_char c = true -> NodePath.is_slash c = false /\ c <> "."%char.
Proof.
  destruct c as [[] [] [] [] [] [] [] []]; intros H; vm_compute in H;
    (split; [reflexivity || discriminate H | discriminate || discriminate H]).
Qed.

(** A document id that the form's schema accepts is one plain path
    segment. *)
Lemma schema_id_plain (s : string) :
  AddDocForm.regex_plus AddDocForm.id_char s = true -> Names.plain s.
Proof.
  unfold AddDocForm.regex_plus. intros H. apply andb_true_iff in H as [H0 Hall].
  apply negb_true_iff in H0. rewrite forallb_forall in Hall.
  assert (Hne : s <> "") by (intros ->; discriminate H0).
  split; [|split; [exact Hne|split]].
  - unfold Names.slash_free. apply List.Forall_forall. intros c Hc.
    by apply id_char_no_slash, Hall.
  - intros ->. specialize (Hall "."%char (or_introl eq_refl)). discriminate Hall.
  - intros ->. specialize (Hall "."%char (or_introl eq_refl)). discriminate Hall.
Qed.

Section ClientCalls.

Variable engine_accepts : dbData -> bool.
Variable development : bool.
Variable app_root : list string.

(** X16.  Download by document id alone is never served.  For every
    document id that the form accepts (letters, digits, hyphens and
    underscores), the service's [downloadMasterPlanDoc] requests
    [/download/doc_id], which no route serves (the download route takes
    the file name as a second parameter), so the call throws
    'HTTP error! status: 404' whatever the table and the disk hold. *)
Theorem download_by_id_alone_fails (w : world) (doc_id : string) :
  AddDocForm.regex_plus AddDocForm.id_char doc_id = true ->
  Routes.get app_root w ("/download/" +:+ doc_id) = (mkResponse 404 (PlainText "Cannot GET"), w)
  /\ Client.downloadMasterPlanDoc app_root w doc_id = Client.Failed "HTTP error! status: 404".
Proof.
  intros Hid. apply schema_id_plain in Hid as (Hslash & Hne & _).
  assert (Hget : Routes.get app_root w ("/download/" +:+ doc_id)
                 = (mkResponse 404 (PlainText "Cannot GET"), w)).
  { unfold Routes.get.
    change ("/download/" +:+ doc_id) with ("/" +:+ "download" +:+ "/" +:+ doc_id).
    rewrite (segments_two "download" doc_id); try assumption; try discriminate.
    - reflexivity.
    - repeat constructor. }
  split; [exact Hget|]. unfold Client.downloadMasterPlanDoc. by rewrite Hget.
Qed.

(** X17.  What the service's [createMasterPlanDoc] does with a body: it
    returns the parsed 201 answer, and then exactly one row has been
    added to the table, holding the body's [doc_id] under the key of the
    returned record; or it throws 'HTTP error! status: 400' or
    'HTTP error! status: 500', and then nothing has changed. *)
Theorem client_create_outcomes clk w (data : gmap string jsval) :
  (exists inst row,
      Client.createMasterPlanDoc engine_accepts development clk w data
      = (Client.Done (MessageData "Master Plan Document created successfully" inst),
         mkWorld (Store.mkTable (Store.rows (db w) ++ [row]) (Store.next_id (db w) + 1)) (disk w))
      /\ id row = id inst
      /\ dataValues row = Store.persisted (dataValues inst)
      /\ doc_id (dataValues row) = field data "doc_id")
  \/ Client.createMasterPlanDoc engine_accepts development clk w data
     = (Client.Failed "HTTP error! status: 400", w)
  \/ Client.createMasterPlanDoc engine_accepts development clk w data
     = (Client.Failed "HTTP error! status: 500", w).
Proof.
  unfold Client.createMasterPlanDoc, Routes.post_root.
  destruct (create_outcomes engine_accepts development clk w data)
    as [(inst & row & -> & Hid & Hrow & Hval & Hdoc & _)|[Hw Hc]].
  - left. exists inst, row. split; [reflexivity|]. split; [congruence|]. by split.
  - right. destruct (createMasterPlanDoc engine_accepts development clk w data) as [response w'].
    cbn [fst snd] in Hw, Hc. subst w'. unfold Client.http_error, ok.
    destruct Hc as [-> | ->]; [left | right]; reflexivity.
Qed.

End ClientCalls.

Section ClientList.

Variable app_root : list string.
Variable not_json : payload -> string.

(** X18.  The service's [getAllMasterPlanDocs] never throws against this
    server: it returns the [data] array of the list operation, which
    holds every stored row, each once, the most recently created first. *)
Theorem client_list_returns_rows (w : world) :
  exists docs,
    Client.getAllMasterPlanDocs app_root not_json w = Client.Done docs
    /\ Permutation docs (Store.rows (db w))
    /\ Keys.newest_first docs.
Proof.
  exists (Store.findAll_desc (db w)). split; [reflexivity|]. apply findAll_desc_spec.
Qed.

End ClientList.

(** ** The add-document form *)

(** Past its four checks, an upload ends with 200 or, when the disk
    refuses, with 500. *)
Lemma upload_checked app_root clk w (req : UploadRequest.t) document (d t r : string) :
  UploadRequest.document req = Some document ->
  UploadRequest.doc_id req = Some d ->
  UploadRequest.doc_type req = Some t ->
  UploadRequest.revision_no req = Some r ->
  d <> "" -> t <> "" -> r <> "" ->
  UploadedFile.size document <= 10 * 1024 * 1024 ->
  includes allowedTypes (UploadedFile.mimetype document) = true ->
  code (fst (uploadFile app_root clk w req)) = 200
  \/ code (fst (uploadFile app_root clk w req)) = 500.
Proof.
  intros Hdoc Hid Htype Hrev Hd Ht Hr Hsize Hmime.
  unfold uploadFile. rewrite Hdoc, Hid, Htype, Hrev. cbn [UploadRequest.text truthy].
  rewrite (nonempty_test d Hd), (nonempty_test t Ht), (nonempty_test r Hr). cbn [negb orb].
  apply Z.ltb_ge in Hsize. rewrite Hsize, Hmime. cbn [negb].
  destruct (ensureUploadsDir app_root (disk w)) as [d1 [e|]]; [by right|].
  destruct (if negb (Fs.existsSync d1 _) then _ else _) as [d2 [e|]]; [by right|].
  destruct (Fs.mv document d2 _) as [d3 [e|]]; [by right | by left].
Qed.

Lemma part_typed (f : AddDocForm.File) :
  UploadedFile.mimetype f <> "" -> AddDocForm.part f = f.
Proof.
  intros H. unfold AddDocForm.part. rewrite (nonempty_test _ H). by destruct f.
Qed.

Section FileChecks.

Variable app_root : list string.

(** X19.  The form's check of a file against the server's.  For an
    upload request with non-empty metadata: a file that [validateFile]
    refuses is refused by the server too (413 from the size limit or 400),
    with nothing changed; a file of a non-empty type and of less than
    10 MiB that [validateFile] accepts passes every check of the server,
    which answers 200 or, when the disk refuses, 500.  The two checks
    part in two places: a file whose type is empty is accepted by
    [validateFile] and, below 10 MiB, always answered 400 'File type not
    supported'; and a file of exactly 10 MiB whose type is allowed or
    empty is accepted by [validateFile] and answered 413 by the size
    limit of the router, with nothing changed. *)
Theorem form_and_server_file_checks clk w (f : AddDocForm.File) (d t r : string) :
  d <> "" -> t <> "" -> r <> "" ->
  (AddDocForm.isValid (AddDocForm.validateFile f) = false ->
   exists c p,
     (c = 400 \/ c = 413)
     /\ Routes.post_upload app_root clk w
          (UploadRequest.mk (Some (AddDocForm.part f)) (Some d) (Some t) (Some r))
        = (mkResponse c p, w))
  /\ (AddDocForm.isValid (AddDocForm.validateFile f) = true ->
      UploadedFile.mimetype f <> "" ->
      UploadedFile.size f < AddDocForm.MAX_FILE_SIZE ->
      code (fst (Routes.post_upload app_root clk w
                   (UploadRequest.mk (Some (AddDocForm.part f)) (Some d) (Some t) (Some r))))
      = 200
      \/ code (fst (Routes.post_upload app_root clk w
                      (UploadRequest.mk (Some (AddDocForm.part f)) (Some d) (Some t) (Some r))))
         = 500)
  /\ (AddDocForm.isValid (AddDocForm.validateFile f) = true ->
      UploadedFile.mimetype f = "" ->
      UploadedFile.size f < AddDocForm.MAX_FILE_SIZE ->
      Routes.post_upload app_root clk w
        (UploadRequest.mk (Some (AddDocForm.part f)) (Some d) (Some t) (Some r))
      = (mkResponse 400 (UploadRejected "File type not supported"), w))
  /\ (UploadedFile.size f = AddDocForm.MAX_FILE_SIZE ->
      UploadedFile.mimetype f = ""
      \/ In (UploadedFile.mimetype f) AddDocForm.ALLOWED_FILE_TYPES ->
      AddDocForm.isValid (AddDocForm.validateFile f) = true
      /\ Routes.post_upload app_root clk w
           (UploadRequest.mk (Some (AddDocForm.part f)) (Some d) (Some t) (Some r))
         = (mkResponse 413 (PlainText "File size limit has been reached"), w)).
Proof.
  intros Hd Ht Hr.
  unfold AddDocForm.validateFile, AddDocForm.MAX_FILE_SIZE, Routes.post_upload,
    Routes.fileUpload, Routes.fileSize_limit.
  cbn [UploadRequest.document].
  assert (Hsz : UploadedFile.size (AddDocForm.part f) = UploadedFile.size f) by reflexivity.
  rewrite Hsz.
  destruct (10 * 1024 * 1024 <=? UploadedFile.size f) eqn:Hlimit.
  { apply Z.leb_le in Hlimit.
    split; [intros _; eexists; eexists; split; [by right | reflexivity]|].
    split; [intros _ _ Hlt; lia|]. split; [intros _ _ Hlt; lia|].
    intros Heq Hty. split; [|reflexivity].
    assert (Hfit : (10 * 1024 * 1024 <? UploadedFile.size f) = false)
      by (apply Z.ltb_ge; lia).
    rewrite Hfit. destruct Hty as [Hempty|Hin].
    - rewrite Hempty. by rewrite andb_false_r.
    - by rewrite (includes_In _ _ Hin). }
  apply Z.leb_gt in Hlimit.
  assert (Hsize : (10 * 1024 * 1024 <? UploadedFile.size f) = false)
    by (apply Z.ltb_ge; lia).
  rewrite Hsize.
  assert (Hmeta : forall doc,
             uploadFile app_root clk w (UploadRequest.mk (Some doc) (Some d) (Some t) (Some r))
             = if 10 * 1024 * 1024 <? UploadedFile.size doc
               then (mkResponse 400 (UploadRejected "File size must be less than 10MB"), w)
               else if negb (includes allowedTypes (UploadedFile.mimetype doc))
               then (mkResponse 400 (UploadRejected "File type not supported"), w)
               else uploadFile app_root clk w
                      (UploadRequest.mk (Some doc) (Some d) (Some t) (Some r))).
  { intros doc. unfold uploadFile.
    cbn [UploadRequest.document UploadRequest.doc_id UploadRequest.doc_type
           UploadRequest.revision_no UploadRequest.text truthy].
    rewrite (nonempty_test d Hd), (nonempty_test t Ht), (nonempty_test r Hr). cbn [negb orb].
    destruct (10 * 1024 * 1024 <? UploadedFile.size doc); [reflexivity|].
    by destruct (negb (includes allowedTypes (UploadedFile.mimetype doc))). }
  destruct (String.eqb_spec (UploadedFile.mimetype f) "") as [Hempty|Htyped].
  - rewrite andb_false_r. cbn [AddDocForm.isValid].
    split; [intros H; discriminate H|]. split; [intros _ H; by destruct H|].
    split; [|intros Heq; lia]. intros _ _ _.
    rewrite Hmeta, Hsz, Hsize. unfold AddDocForm.part. rewrite Hempty. reflexivity.
  - rewrite andb_true_r, (part_typed f Htyped).
    change (includes AddDocForm.ALLOWED_FILE_TYPES (UploadedFile.mimetype f))
      with (includes allowedTypes (UploadedFile.mimetype f)).
    destruct (includes allowedTypes (UploadedFile.mimetype f)) eqn:Hmime; cbn [negb AddDocForm.isValid].
    + split; [intros H; discriminate H|]. split; [|split; [intros _ H; by destruct Htyped | intros Heq; lia]].
      intros _ _ _.
      apply (upload_checked app_root clk w _ f d t r); try done. lia.
    + split; [|split; [intros H; discriminate H | split; [intros H; discriminate H | intros Heq; lia]]].
      intros _. eexists. eexists. split; [by left|]. by rewrite Hmeta, Hsize, Hmime.
Qed.

End FileChecks.

(** The entries of [submitData]. *)
Lemma submitData_fields (v : AddDocForm.FormValues) (info : AddDocForm.UploadedFileInfo) :
  field (AddDocForm.submitData v info) "doc_id" = JStr (AddDocForm.doc_id v)
  /\ field (AddDocForm.submitData v info) "doc_type" = JStr (AddDocForm.doc_type v)
  /\ field (AddDocForm.submitData v info) "doc_title" = JStr (AddDocForm.doc_title v)
  /\ field (AddDocForm.submitData v info) "revision_no" = JStr (AddDocForm.revision_no v)
  /\ field (AddDocForm.submitData v info) "year" = JNum (AddDocForm.year v)
  /\ field (AddDocForm.submitData v info) "quarter"
     = AddDocForm.optional_or (AddDocForm.quarter v) JNull
  /\ field (AddDocForm.submitData v info) "owner" = JStr (AddDocForm.owner v)
  /\ field (AddDocForm.submitData v info) "status" = JStr (AddDocForm.status v)
  /\ field (AddDocForm.submitData v info) "doc_status"
     = AddDocForm.optional_or (AddDocForm.doc_status v) (JStr "Open")
  /\ field (AddDocForm.submitData v info) "is_uploaded" = JBool true
  /\ field (AddDocForm.submitData v info) "uploaded_file"
     = JStr (UploadedFile.name (AddDocForm.file info))
  /\ field (AddDocForm.submitData v info) "file_type"
     = JStr (UploadedFile.mimetype (AddDocForm.file info))
  /\ field (AddDocForm.submitData v info) "file_size"
     = JNum (UploadedFile.size (AddDocForm.file info))
  /\ field (AddDocForm.submitData v info) "storage_path" = AddDocForm.storagePath info
  /\ field (AddDocForm.submitData v info) "download_url" = AddDocForm.downloadUrl info
  /\ field (AddDocForm.submitData v info) "uploaded_at" = JStr (AddDocForm.uploadedAt info).
Proof. vm_compute. repeat split. Qed.

(** What the schema asks of the values. *)
Lemma formSchema_accepts (v : AddDocForm.FormValues) :
  AddDocForm.formSchema v = true ->
  AddDocForm.min_max 1 50 (AddDocForm.doc_id v) = true
  /\ AddDocForm.regex_plus AddDocForm.id_char (AddDocForm.doc_id v) = true
  /\ AddDocForm.min_max 1 100 (AddDocForm.doc_type v) = true
  /\ AddDocForm.min_max 1 255 (AddDocForm.doc_title v) = true
  /\ AddDocForm.min_max 1 20 (AddDocForm.revision_no v) = true
  /\ AddDocForm.regex_plus AddDocForm.revision_char (AddDocForm.revision_no v) = true
  /\ 2000 <= AddDocForm.year v <= 2100
  /\ AddDocForm.max_optional 10 (AddDocForm.quarter v) = true
  /\ AddDocForm.min_max 1 150 (AddDocForm.owner v) = true
  /\ AddDocForm.min_max 1 50 (AddDocForm.status v) = true
  /\ AddDocForm.max_optional 50 (AddDocForm.doc_status v) = true.
Proof.
  unfold AddDocForm.formSchema. intros H.
  repeat (apply andb_true_iff in H as [H ?]).
  repeat match goal with |- _ /\ _ => split end;
    first [ assumption
          | by apply Z.leb_le
          | unfold AddDocForm.min_max; apply andb_true_iff; split; assumption ].
Qed.

Lemma min_max_length lo hi (s : string) :
  AddDocForm.min_max lo hi s = true ->
  (lo <= String.length s)%nat /\ (String.length s <= hi)%nat.
Proof.
  unfold AddDocForm.min_max. intros H. apply andb_true_iff in H as [H1 H2].
  split; by apply Nat.leb_le.
Qed.

Lemma min_max_truthy hi (s : string) :
  AddDocForm.min_max 1 hi s = true -> truthy (JStr s) = true.
Proof. intros H. apply min_max_length in H as [H _]. destruct s; [cbn in H; lia | reflexivity]. Qed.

Lemma optional_or_text (o : option string) (dflt : jsval) :
  AddDocForm.optional_or o dflt = dflt
  \/ exists s, o = Some s /\ s <> "" /\ AddDocForm.optional_or o dflt = JStr s.
Proof.
  destruct o as [s|]; [|by left]. destruct s as [|c s]; [by left|].
  right. exists (String c s). by repeat split.
Qed.

Section SchemaAndColumns.

(** X20.  The form's schema and the columns of the model agree on the
    metadata.  For values that the schema accepts, whatever file is
    attached, each of the nine metadata attributes of the row that the
    create operation prepares from the submitted body passes the model's
    own validation (a value where the column is not nullable; no object
    in a text column), and each text is no longer than its column
    declares: 50, 100, 255, 20, 10, 150, 50 and 50 characters. *)
Theorem schema_values_fit_columns clk (v : AddDocForm.FormValues)
        (info : AddDocForm.UploadedFileInfo) (prepared_type : jsval) :
  AddDocForm.formSchema v = true ->
  Forall (fun a =>
            Store.attribute_ok (dbData_of clk (AddDocForm.submitData v info) prepared_type) a = true
            /\ Sample.fits a (get a (dbData_of clk (AddDocForm.submitData v info) prepared_type))
               = true)
         [attr_doc_id; attr_doc_type; attr_doc_title; attr_revision_no; attr_year;
          attr_quarter; attr_owner; attr_status; attr_doc_status].
Proof.
  intros H. apply formSchema_accepts in H
    as (Hid & _ & Htype & Htitle & Hrev & _ & Hyear & Hq & Howner & Hstatus & Hds).
  destruct (submitData_fields v info)
    as (Fid & Ftype & Ftitle & Frev & Fyear & Fq & Fowner & Fstatus & Fds & _).
  assert (Htext : forall a hi (s : string),
             col_type a = STRING hi -> AddDocForm.min_max 1 hi s = true ->
             (allowNull a || negb (nullish (JStr s)))
             && negb (Store.is_string_type (col_type a) && Store.is_object (JStr s)) = true
             /\ Sample.fits a (JStr s) = true).
  { intros a hi s Ha Hs. unfold Sample.fits. rewrite Ha. cbn [nullish Store.is_object negb].
    rewrite andb_false_r, orb_true_r. split; [reflexivity|].
    apply Nat.leb_le. by apply min_max_length in Hs as [_ Hs]. }
  unfold dbData_of, Store.attribute_ok.
  repeat constructor; cbn [get attr_doc_id attr_doc_type attr_doc_title attr_revision_no
                             attr_year attr_quarter attr_owner attr_status attr_doc_status
                             Model.doc_id Model.doc_type Model.doc_title Model.revision_no
                             Model.year Model.quarter Model.owner Model.status
                             Model.doc_status];
    rewrite ?Fid, ?Ftype, ?Ftitle, ?Frev, ?Fyear, ?Fq, ?Fowner, ?Fstatus;
    try (by eapply Htext; [reflexivity | eassumption]).
  - destruct (optional_or_text (AddDocForm.quarter v) JNull) as [->|(s & Eq & Hs & ->)];
      [reflexivity|].
    unfold or_else. rewrite (proj2 (truthy_JStr s) Hs). reflexivity.
  - destruct (optional_or_text (AddDocForm.quarter v) JNull) as [->|(s & Eq & Hs & ->)];
      [reflexivity|].
    rewrite Eq in Hq. unfold or_else. rewrite (proj2 (truthy_JStr s) Hs). exact Hq.
  - unfold field_or. rewrite Fds.
    destruct (optional_or_text (AddDocForm.doc_status v) (JStr "Open")) as [->|(s & Eq & Hs & ->)];
      reflexivity.
  - unfold field_or. rewrite Fds.
    destruct (optional_or_text (AddDocForm.doc_status v) (JStr "Open")) as [->|(s & Eq & Hs & ->)];
      [reflexivity|].
    rewrite Eq in Hds. exact Hds.
Qed.

End SchemaAndColumns.

(** The place of an upload under the application's root. *)
Lemma upload_target app_root (d fileName : string) :
  Names.plain d -> Names.plain fileName ->
  NodePath.join (NodePath.join (uploadsDir app_root) d) fileName
  = (app_root ++ ["uploads"; "master-plans"; d; fileName])%list.
Proof.
  intros Hd Hf. rewrite (join_one_segment _ d Hd), (join_one_segment _ fileName Hf), uploadsDir_eq.
  by rewrite <- !app_assoc.
Qed.

Lemma allowed_type_nonempty (m : string) : In m AddDocForm.ALLOWED_FILE_TYPES -> m <> "".
Proof. intros H ->. cbn in H. intuition discriminate. Qed.

Lemma clear_body_path (p doc_id : jsval) :
  field (list_to_map [("filePath", p); ("doc_id", doc_id)]) "filePath" = p.
Proof. vm_compute. reflexivity. Qed.

Section UploadThenSave.

Variable engine_accepts : dbData -> bool.
Variable development : bool.
Variable app_root : list string.
Variable invalid_argument : jsval -> string.
Variable uploaded_now : string.
Variable defaultValues : AddDocForm.FormValues.

Variable clk : clock.
Variable st : AddDocForm.state.
Variable w : world.
Variable f : AddDocForm.File.

(** A file has been selected and the form is valid. *)
Hypothesis Hselected : AddDocForm.selectedFile st = Some f.
Hypothesis Hvalid : AddDocForm.isFormValid st = true.
Hypothesis Hschema : AddDocForm.formSchema (AddDocForm.values st) = true.
(** The file is one that the server stores. *)
Hypothesis Htype : In (UploadedFile.mimetype f) AddDocForm.ALLOWED_FILE_TYPES.
Hypothesis Hsize : UploadedFile.size f < AddDocForm.MAX_FILE_SIZE.
Hypothesis Hname : Names.slash_free (UploadedFile.name f).
(** Nothing is in the way on the disk. *)
Hypothesis Hclear :
  forall q, In q (Fs.prefixes (app_root ++ ["uploads"; "master-plans";
                                            AddDocForm.doc_id (AddDocForm.values st)])) ->
            Fs.files (disk w) !! q = None.
Hypothesis Hfree :
  (app_root ++ ["uploads"; "master-plans"; AddDocForm.doc_id (AddDocForm.values st);
                uniqueFileName (AddDocForm.doc_id (AddDocForm.values st))
                  (UploadedFile.name f) (clk 0%nat)])%list
    ∉ Fs.dirs (disk w).

(** The upload step of the form, when nothing is in its way. *)
Lemma form_upload_stored :
  exists w1,
    AddDocForm.handleFileUpload app_root uploaded_now clk st w
    = (AddDocForm.mkState (AddDocForm.values st) true (Some f)
         (Some (AddDocForm.mkInfo f
                  (JStr ("/uploads/master-plans/" +:+ AddDocForm.doc_id (AddDocForm.values st)
                           +:+ "/" +:+ uniqueFileName (AddDocForm.doc_id (AddDocForm.values st))
                                         (UploadedFile.name f) (clk 0%nat)))
                  (JStr ("/api/masterplandocs/download/"
                           +:+ AddDocForm.doc_id (AddDocForm.values st)
                           +:+ "/" +:+ uniqueFileName (AddDocForm.doc_id (AddDocForm.values st))
                                         (UploadedFile.name f) (clk 0%nat)))
                  uploaded_now))
         (Some (AddDocForm.mkResult AddDocForm.success
                  ("File " +:+ AddDocForm.quote +:+ UploadedFile.name f +:+ AddDocForm.quote
                     +:+ " uploaded successfully! You can now save the document.")))
         (AddDocForm.submitResult st),
       w1)
    /\ Fs.files (disk w1)
       = <[(app_root ++ ["uploads"; "master-plans"; AddDocForm.doc_id (AddDocForm.values st);
                         uniqueFileName (AddDocForm.doc_id (AddDocForm.values st))
                           (UploadedFile.name f) (clk 0%nat)])%list := f]> (Fs.files (disk w))
    /\ db w1 = db w.
Proof.
  pose proof (formSchema_accepts _ Hschema)
    as (Hid & Hidre & Hdt & _ & Hrev & _).
  pose proof (allowed_type_nonempty _ Htype) as Hty.
  destruct (upload_on_clear_disk app_root clk w
              (UploadRequest.mk (@Some UploadedFile.t f)
                 (Some (AddDocForm.doc_id (AddDocForm.values st)))
                 (Some (AddDocForm.doc_type (AddDocForm.values st)))
                 (Some (AddDocForm.revision_no (AddDocForm.values st))))
              f _ _ _ eq_refl eq_refl eq_refl eq_refl)
    as (w1 & Eup & Hfiles & Hdb); try assumption.
  4: { unfold AddDocForm.MAX_FILE_SIZE in Hsize. lia. }
  { apply truthy_JStr. by eapply min_max_truthy. }
  { apply truthy_JStr. by eapply min_max_truthy. }
  { by apply schema_id_plain. }
  exists w1. split; [|by split].
  unfold AddDocForm.handleFileUpload. rewrite Hselected, Hvalid. cbn [negb]. cbv zeta.
  rewrite (part_typed f Hty).
  unfold Routes.post_upload, Routes.fileUpload, Routes.fileSize_limit.
  cbn [UploadRequest.document].
  change (10 * 1024 * 1024) with AddDocForm.MAX_FILE_SIZE.
  rewrite (proj2 (Z.leb_gt _ _) Hsize), Eup. reflexivity.
Qed.

(** X21.  Upload, then save.  With a file selected that the server
    stores (allowed type, less than 10 MiB, no slash in its non-empty name),
    values that the schema accepts and nothing in the way on the disk,
    the upload step puts the file at
    [uploads/master-plans/doc_id/doc_id_base_time.ext] and keeps its
    storage path in the form.  The save step that follows either adds one
    row, flagged as uploaded, whose [storage_path] is that storage path
    and whose [uploaded_file] is the file's name, so that the row meets
    the model's invariant on attachments, and resets the form; or it is
    refused ('HTTP error! status: 400' or 500) and then the table is as
    before while the uploaded file stays on the disk and in the form. *)
Theorem upload_then_save (clk2 : clock) :
  UploadedFile.name f <> "" ->
  exists st1 w1,
    AddDocForm.handleFileUpload app_root uploaded_now clk st w = (st1, w1)
    /\ Fs.files (disk w1)
       = <[(app_root ++ ["uploads"; "master-plans"; AddDocForm.doc_id (AddDocForm.values st);
                         uniqueFileName (AddDocForm.doc_id (AddDocForm.values st))
                           (UploadedFile.name f) (clk 0%nat)])%list := f]> (Fs.files (disk w))
    /\ db w1 = db w
    /\ ((exists row,
            AddDocForm.onSubmit engine_accepts development defaultValues clk2 st1 w1
            = (AddDocForm.mkState defaultValues false None None None
                 (Some (AddDocForm.mkResult AddDocForm.success
                          "Master Plan Document saved successfully! File has been permanently stored.")),
               mkWorld (Store.mkTable (Store.rows (db w) ++ [row]) (Store.next_id (db w) + 1))
                       (disk w1))
            /\ doc_id (dataValues row) = JStr (AddDocForm.doc_id (AddDocForm.values st))
            /\ is_uploaded (dataValues row) = JBool true
            /\ storage_path (dataValues row)
               = JStr ("/uploads/master-plans/" +:+ AddDocForm.doc_id (AddDocForm.values st)
                         +:+ "/" +:+ uniqueFileName (AddDocForm.doc_id (AddDocForm.values st))
                                       (UploadedFile.name f) (clk 0%nat))
            /\ uploaded_file (dataValues row) = JStr (UploadedFile.name f)
            /\ upload_invariant (dataValues row))
        \/ (exists thrown,
               (thrown = "HTTP error! status: 400" \/ thrown = "HTTP error! status: 500")
               /\ AddDocForm.onSubmit engine_accepts development defaultValues clk2 st1 w1
                  = (AddDocForm.mkState (AddDocForm.values st1) (AddDocForm.isFormValid st1)
                       (AddDocForm.selectedFile st1) (AddDocForm.uploadedFileInfo st1)
                       (AddDocForm.uploadResult st1)
                       (Some (AddDocForm.mkResult AddDocForm.failure thrown)),
                     w1)
               /\ is_Some (AddDocForm.uploadedFileInfo st1))).
Proof.
  intros Hnonempty. destruct form_upload_stored as (w1 & Eup & Hfiles & Hdb).
  eexists. exists w1. split; [exact Eup|]. split; [exact Hfiles|]. split; [exact Hdb|].
  unfold AddDocForm.onSubmit. cbn [AddDocForm.values]. rewrite Hschema.
  unfold AddDocForm.handleSaveDocument. cbn [AddDocForm.uploadedFileInfo].
  unfold Client.createMasterPlanDoc, Routes.post_root.
  match goal with
  | |- context [createMasterPlanDoc engine_accepts development clk2 w1 ?b] => set (body := b)
  end.
  destruct (create_outcomes engine_accepts development clk2 w1 body)
    as [(inst & row & E & _ & _ & Hval & Hdoc & _)|[Hw Hc]].
  - left. exists row. rewrite E. change (ok (mkResponse 201 _)) with true. cbn [negb json].
    rewrite Hdb. split; [reflexivity|].
    apply create_doc_created in E as (ft & _ & _ & _ & _ & _ & _ & -> & _).
    cbn [dataValues] in Hval. rewrite Hval in *. clear Hval.
    destruct (submitData_fields (AddDocForm.values st)
                (AddDocForm.mkInfo f
                   (JStr ("/uploads/master-plans/" +:+ AddDocForm.doc_id (AddDocForm.values st)
                            +:+ "/" +:+ uniqueFileName (AddDocForm.doc_id (AddDocForm.values st))
                                          (UploadedFile.name f) (clk 0%nat)))
                   (JStr ("/api/masterplandocs/download/"
                            +:+ AddDocForm.doc_id (AddDocForm.values st)
                            +:+ "/" +:+ uniqueFileName (AddDocForm.doc_id (AddDocForm.values st))
                                          (UploadedFile.name f) (clk 0%nat)))
                   uploaded_now))
      as (Fid & _ & _ & _ & _ & _ & _ & _ & _ & Fup & Ffile & _ & _ & Fpath & _).
    fold body in Fid, Fup, Ffile, Fpath. cbn [AddDocForm.file AddDocForm.storagePath] in Ffile, Fpath.
    rewrite persisted_values in *. unfold dbData_of in *.
    cbn [doc_id is_uploaded storage_path uploaded_file] in *.
    split; [by rewrite Hdoc, Fid|].
    assert (H1 : Store.to_sql (JBool (truthy (field_or body "is_uploaded" (JBool false))))
                 = JBool true).
    { by rewrite field_or_truthy, Fup. }
    assert (H2 : Store.to_sql (or_else (field body "storage_path") JNull)
                 = JStr ("/uploads/master-plans/" +:+ AddDocForm.doc_id (AddDocForm.values st)
                           +:+ "/" +:+ uniqueFileName (AddDocForm.doc_id (AddDocForm.values st))
                                         (UploadedFile.name f) (clk 0%nat))).
    { rewrite Fpath. reflexivity. }
    assert (H3 : Store.to_sql (or_else (field body "uploaded_file") JNull)
                 = JStr (UploadedFile.name f)).
    { rewrite Ffile. unfold or_else. by rewrite (proj2 (truthy_JStr _) Hnonempty). }
    split; [exact H1|]. split; [exact H2|]. split; [exact H3|].
    unfold upload_invariant. cbn [is_uploaded storage_path uploaded_file].
    intros _. rewrite H2, H3. split; discriminate.
  - right. destruct (createMasterPlanDoc engine_accepts development clk2 w1 body)
      as [response w2].
    cbn [fst snd] in Hw, Hc. subst w2.
    destruct Hc as [Hc|Hc]; unfold ok, Client.http_error; rewrite Hc;
      cbn [Z.leb Z.compare Pos.compare Pos.compare_cont andb negb];
      eexists; (split; [|split; [reflexivity | by eexists]]); [by left | by right].
Qed.

(** X22.  Upload, then clear.  With the same file, values and disk, the
    upload step followed by Clear All deletes the uploaded file again:
    the files on the disk are those of before the upload, the table is
    untouched, and the form is back to its default values with nothing
    selected and nothing uploaded. *)
Theorem upload_then_clear :
  Fs.files (disk w)
    !! (app_root ++ ["uploads"; "master-plans"; AddDocForm.doc_id (AddDocForm.values st);
                     uniqueFileName (AddDocForm.doc_id (AddDocForm.values st))
                       (UploadedFile.name f) (clk 0%nat)])%list = None ->
  exists st1 w1 w2,
    AddDocForm.handleFileUpload app_root uploaded_now clk st w = (st1, w1)
    /\ AddDocForm.handleClearAll app_root invalid_argument defaultValues st1 w1
       = (AddDocForm.mkState defaultValues false None None None None, w2)
    /\ Fs.files (disk w2) = Fs.files (disk w)
    /\ db w2 = db w.
Proof.
  intros Hnone. destruct form_upload_stored as (w1 & Eup & Hfiles & Hdb).
  pose proof (formSchema_accepts _ Hschema) as (_ & Hidre & _).
  eexists. exists w1. eexists. split; [exact Eup|].
  unfold AddDocForm.handleClearAll.
  cbn [AddDocForm.uploadedFileInfo AddDocForm.storagePath AddDocForm.values].
  rewrite (deleteFile_text app_root invalid_argument w1 _ _ (clear_body_path _ _))
    by discriminate.
  rewrite storage_path_place, upload_target
    by (first [ by apply schema_id_plain
              | apply uniqueFileName_plain; [by apply schema_id_plain | exact Hname] ]).
  assert (His : Fs.is_file (disk w1)
                  (app_root ++ ["uploads"; "master-plans";
                                AddDocForm.doc_id (AddDocForm.values st);
                                uniqueFileName (AddDocForm.doc_id (AddDocForm.values st))
                                  (UploadedFile.name f) (clk 0%nat)])%list = true).
  { unfold Fs.is_file. rewrite Hfiles, lookup_insert_eq. apply bool_decide_eq_true_2. by eexists. }
  unfold Fs.existsSync, Deletion.unlinkSync. rewrite His, orb_true_r.
  split; [reflexivity|]. cbn [snd disk db Fs.files]. split; [|exact Hdb].
  rewrite Hfiles. by apply delete_insert_id.
Qed.

End UploadThenSave.

(** ** The search of the list page *)

(** Lower case, character by character. *)
Lemma toLowerCase_cons (c : ascii) (s : string) :
  Text.toLowerCase (String c s) = String (Routes.lower c) (Text.toLowerCase s).
Proof. reflexivity. Qed.

Lemma toLowerCase_app (s t : string) :
  Text.toLowerCase (s +:+ t) = Text.toLowerCase s +:+ Text.toLowerCase t.
Proof.
  induction s as [|c s IH]; [reflexivity|].
  change (String c s +:+ t) with (String c (s +:+ t)).
  rewrite !toLowerCase_cons, IH. reflexivity.
Qed.

(** A text whose lower case starts with [low] starts with a text whose
    lower case is [low]. *)
Lemma toLowerCase_split (low : string) :
  forall s rest,
    Text.toLowerCase s = low +:+ rest ->
    exists front back,
      s = front +:+ back /\ Text.toLowerCase front = low /\ Text.toLowerCase back = rest.
Proof.
  induction low as [|c low IH]; intros s rest H.
  - exists "", s. by repeat split.
  - destruct s as [|x s]; [discriminate H|].
    rewrite toLowerCase_cons in H.
    change (String c low +:+ rest) with (String c (low +:+ rest)) in H.
    injection H as Hc H.
    destruct (IH s rest H) as (front & back & -> & Hfront & Hback).
    exists (String x front), back. split; [reflexivity|]. split; [|exact Hback].
    by rewrite toLowerCase_cons, Hc, Hfront.
Qed.

(** Two characters have the same lower case exactly when they are the
    same, or the two cases of one letter. *)
Lemma lower_capital (c : ascii) :
  (65 <= nat_of_ascii c <= 90)%nat -> Routes.lower c = ascii_of_nat (nat_of_ascii c + 32).
Proof.
  intros [L U]. unfold Routes.lower. cbv zeta.
  by rewrite (proj2 (Nat.leb_le _ _) L), (proj2 (Nat.leb_le _ _) U).
Qed.

Lemma lower_other (c : ascii) :
  ~ (65 <= nat_of_ascii c <= 90)%nat -> Routes.lower c = c.
Proof.
  intros H. unfold Routes.lower. cbv zeta.
  destruct (Nat.leb_spec 65 (nat_of_ascii c)); [|reflexivity].
  destruct (Nat.leb_spec (nat_of_ascii c) 90); [|reflexivity].
  destruct H. lia.
Qed.

Lemma nat_of_lower_capital (c : ascii) :
  (65 <= nat_of_ascii c <= 90)%nat ->
  nat_of_ascii (ascii_of_nat (nat_of_ascii c + 32)) = (nat_of_ascii c + 32)%nat.
Proof. intros H. apply nat_ascii_embedding. lia. Qed.

Lemma nat_of_ascii_inj (a b : ascii) : nat_of_ascii a = nat_of_ascii b -> a = b.
Proof.
  intros E. rewrite <- (ascii_nat_embedding a), <- (ascii_nat_embedding b). by rewrite E.
Qed.

Lemma lower_same_letter (a b : ascii) :
  Routes.lower a = Routes.lower b <-> Text.same_letter a b.
Proof.
  unfold Text.same_letter.
  destruct (decide (65 <= nat_of_ascii a <= 90)%nat) as [Ca|Ca];
    destruct (decide (65 <= nat_of_ascii b <= 90)%nat) as [Cb|Cb].
  - rewrite (lower_capital a Ca), (lower_capital b Cb). split.
    + intros E. left. apply nat_of_ascii_inj.
      apply (f_equal nat_of_ascii) in E.
      rewrite (nat_of_lower_capital a Ca), (nat_of_lower_capital b Cb) in E. lia.
    + intros [->|[[_ E]|[_ E]]]; [reflexivity | lia | lia].
  - rewrite (lower_capital a Ca), (lower_other b Cb). split.
    + intros E. right. left. split; [exact Ca|].
      rewrite <- E. by apply nat_of_lower_capital.
    + intros [->|[[_ E]|[R _]]]; [by destruct Cb | | by destruct Cb].
      rewrite <- E. apply ascii_nat_embedding.
  - rewrite (lower_other a Ca), (lower_capital b Cb). split.
    + intros E. right. right. split; [exact Cb|].
      rewrite E. by apply nat_of_lower_capital.
    + intros [->|[[R _]|[_ E]]]; [by destruct Ca | by destruct Ca |].
      rewrite <- E. symmetry. apply ascii_nat_embedding.
  - rewrite (lower_other a Ca), (lower_other b Cb). split.
    + intros E. by left.
    + intros [->|[[R _]|[R _]]]; [reflexivity | by destruct Ca | by destruct Cb].
Qed.

Lemma same_letters_lower (s t : string) :
  Text.same_letters s t <-> Text.toLowerCase s = Text.toLowerCase t.
Proof.
  unfold Text.same_letters. revert t.
  induction s as [|a s IH]; intros [|b t]; cbn [list_ascii_of_string].
  - split; [reflexivity | constructor].
  - split; [intros H; inversion H | discriminate].
  - split; [intros H; inversion H | discriminate].
  - rewrite !toLowerCase_cons. split.
    + intros H. inversion H as [|? ? ? ? Hab Hrest]; subst.
      apply lower_same_letter in Hab. apply IH in Hrest. by rewrite Hab, Hrest.
    + intros [= Hab Hrest]. constructor; [by apply lower_same_letter | by apply IH].
Qed.

Lemma field_matches_spec name (v : jsval) (searchTerm : string) :
  v = JNull \/ v = JUndefined \/ (exists s, v = JStr s /\ Text.ascii_only s) ->
  exists found,
    MasterPlanPage.field_matches name v searchTerm = Ok found
    /\ (found = true <-> MasterPlanPage.holds searchTerm v).
Proof.
  intros [->|[->|(s & -> & _)]]; cbn [MasterPlanPage.field_matches]; eexists;
    (split; [reflexivity|]).
  - split; [discriminate | intros (b & m & a & H & _); discriminate H].
  - split; [discriminate | intros (b & m & a & H & _); discriminate H].
  - rewrite includes_spec. split.
    + intros (low & rest & H).
      apply toLowerCase_split in H as (front & back & -> & _ & H).
      apply toLowerCase_split in H as (stretch & after & -> & H & _).
      exists front, stretch, after. split; [reflexivity | by apply same_letters_lower].
    + intros (front & stretch & after & [= ->] & H). apply same_letters_lower in H.
      exists (Text.toLowerCase front), (Text.toLowerCase after).
      by rewrite !toLowerCase_app, H.
Qed.

Lemma doc_matches_spec (searchTerm : string) (doc : instance) :
  MasterPlanPage.searchable doc ->
  exists found,
    MasterPlanPage.doc_matches searchTerm doc = Ok found
    /\ (found = true <->
        List.Exists (MasterPlanPage.holds searchTerm)
               [doc_id (dataValues doc); doc_title (dataValues doc);
                doc_type (dataValues doc); owner (dataValues doc)]).
Proof.
  unfold MasterPlanPage.searchable. rewrite !Forall_cons. intros (H1 & H2 & H3 & H4 & _).
  unfold MasterPlanPage.doc_matches, MasterPlanPage.or_lazy.
  destruct (field_matches_spec "doc_id" _ searchTerm H1) as (f1 & -> & E1).
  destruct (field_matches_spec "doc_title" _ searchTerm H2) as (f2 & -> & E2).
  destruct (field_matches_spec "doc_type" _ searchTerm H3) as (f3 & -> & E3).
  destruct (field_matches_spec "owner" _ searchTerm H4) as (f4 & -> & E4).
  destruct f1, f2, f3, f4; cbn [bind]; eexists; (split; [reflexivity|]);
    rewrite !Exists_cons, Exists_nil, <- E1, <- E2, <- E3, <- E4; intuition discriminate.
Qed.

(** X23.  The search of the list page, on ASCII text.  On documents
    whose four searched fields hold ASCII text or nothing, and for an
    ASCII term, the search never throws; an empty term returns the
    documents as they are; and any other term returns, in their order,
    exactly the documents of which the id, the title, the type or the
    owner has a stretch that is the term character by character, the two
    cases of a letter being taken for the same character. *)
Theorem search_finds_matching_documents (documents : list instance) (searchTerm : string) :
  Forall MasterPlanPage.searchable documents ->
  Text.ascii_only searchTerm ->
  exists found,
    MasterPlanPage.filteredDocuments documents searchTerm = Ok found
    /\ (searchTerm = "" -> found = documents)
    /\ found `sublist_of` documents
    /\ (searchTerm <> "" ->
        forall doc,
          In doc found <->
          In doc documents
          /\ List.Exists (MasterPlanPage.holds searchTerm)
                    [doc_id (dataValues doc); doc_title (dataValues doc);
                     doc_type (dataValues doc); owner (dataValues doc)]).
Proof.
  intros Hdocs _. unfold MasterPlanPage.filteredDocuments. cbn [truthy].
  destruct (String.eqb_spec searchTerm "") as [->|Hterm]; cbn [negb].
  { exists documents. split; [reflexivity|]. split; [reflexivity|]. split; [reflexivity|]. done. }
  assert (H : exists found,
             MasterPlanPage.filter (MasterPlanPage.doc_matches searchTerm) documents = Ok found
             /\ found `sublist_of` documents
             /\ forall doc,
                 In doc found <->
                 In doc documents
                 /\ List.Exists (MasterPlanPage.holds searchTerm)
                           [doc_id (dataValues doc); doc_title (dataValues doc);
                            doc_type (dataValues doc); owner (dataValues doc)]).
  { induction Hdocs as [|d rest Hd _ (kept & Erest & Hsub & Hmem)].
    - exists []. split; [reflexivity|]. split; [reflexivity|]. intros doc. cbn. tauto.
    - destruct (doc_matches_spec searchTerm d Hd) as (keep & Ed & Hkeep).
      cbn [MasterPlanPage.filter]. rewrite Ed, Erest. cbn [bind].
      eexists. split; [reflexivity|]. destruct keep.
      + split; [by apply sublist_skip|]. intros doc. cbn [In]. rewrite Hmem. split.
        * intros [<-|[Hin Hex]]; [|tauto]. split; [by left | by apply Hkeep].
        * intros [[<-|Hin] Hex]; [by left | right; by split].
      + split; [by apply sublist_cons|]. intros doc. rewrite Hmem. cbn [In]. split.
        * intros [Hin Hex]. split; [by right | exact Hex].
        * intros [[<-|Hin] Hex]; [|by split].
          apply Hkeep in Hex. discriminate Hex. }
  destruct H as (found & E & Hsub & Hmem). exists found.
  split; [exact E|]. split; [intros ->; by destruct Hterm|]. split; [exact Hsub|]. intros _. exact Hmem.
Qed.

(** ** The upload step of the form *)

Lemma filled_nonempty (s : string) : AddDocForm.filled s = true -> s <> "".
Proof.
  unfold AddDocForm.filled. intros H. apply andb_true_iff in H as [H _]. by apply truthy_JStr.
Qed.

Lemma checkFormValidity_metadata (v : AddDocForm.FormValues) :
  AddDocForm.checkFormValidity v = true ->
  AddDocForm.doc_id v <> "" /\ AddDocForm.doc_type v <> "" /\ AddDocForm.revision_no v <> "".
Proof.
  unfold AddDocForm.checkFormValidity. intros H. apply andb_true_iff in H as [H _].
  cbn [forallb] in H. repeat (apply andb_true_iff in H as [? H]).
  repeat split; by apply filled_nonempty.
Qed.

Section FormUpload.

Variable app_root : list string.
Variable uploaded_now : string.

(** X24.  The upload step of the form, in full.  With a file selected
    and the metadata filled in, [handleFileUpload] never touches the
    table and ends in one of two ways.  Either the server stored the file:
    the form then holds the storage path of the answer, the part sent for
    the file is on the disk at that path taken from the application's
    root, and the selection is kept.  Or the upload failed: the selection
    is cleared, what the form held as uploaded is as before, every file
    on the disk is as before, and the message shown is one of 'File is too
    large. Maximum file size is 10MB.' (the 413 of the size limit),
    'File type not supported' and 'File upload failed'; the server's
    answer that metadata is missing never occurs. *)
Theorem form_upload_outcomes clk (st : AddDocForm.state) (w : world) (f : AddDocForm.File) :
  AddDocForm.selectedFile st = Some f ->
  AddDocForm.isFormValid st = true ->
  AddDocForm.checkFormValidity (AddDocForm.values st) = true ->
  db (snd (AddDocForm.handleFileUpload app_root uploaded_now clk st w)) = db w
  /\ ((exists storagePath downloadUrl shown,
          fst (AddDocForm.handleFileUpload app_root uploaded_now clk st w)
          = AddDocForm.mkState (AddDocForm.values st) true (Some f)
              (Some (AddDocForm.mkInfo f (JStr storagePath) (JStr downloadUrl) uploaded_now))
              (Some (AddDocForm.mkResult AddDocForm.success shown))
              (AddDocForm.submitResult st)
          /\ Fs.files (disk (snd (AddDocForm.handleFileUpload app_root uploaded_now clk st w)))
               !! NodePath.join app_root storagePath
             = Some (AddDocForm.part f))
      \/ (exists shown,
             fst (AddDocForm.handleFileUpload app_root uploaded_now clk st w)
             = AddDocForm.mkState (AddDocForm.values st) true None
                 (AddDocForm.uploadedFileInfo st)
                 (Some (AddDocForm.mkResult AddDocForm.failure shown))
                 (AddDocForm.submitResult st)
             /\ In shown ["File is too large. Maximum file size is 10MB.";
                          "File type not supported"; "File upload failed"]
             /\ Fs.files (disk (snd (AddDocForm.handleFileUpload app_root uploaded_now clk st w)))
                = Fs.files (disk w))).
Proof.
  intros Hsel Hvalid Hcheck.
  apply checkFormValidity_metadata in Hcheck as (Hd & Ht & Hr).
  unfold AddDocForm.handleFileUpload. rewrite Hsel, Hvalid. cbn [negb]. cbv zeta.
  unfold Routes.post_upload, Routes.fileUpload, Routes.fileSize_limit.
  cbn [UploadRequest.document].
  assert (Hsz : UploadedFile.size (AddDocForm.part f) = UploadedFile.size f) by reflexivity.
  rewrite Hsz.
  destruct (10 * 1024 * 1024 <=? UploadedFile.size f) eqn:Hlimit.
  { cbn [fst snd]. split; [reflexivity|]. right. eexists. split; [reflexivity|].
    split; [by left | reflexivity]. }
  assert (Hsize : (10 * 1024 * 1024 <? UploadedFile.size f) = false)
    by (apply Z.ltb_ge; apply Z.leb_gt in Hlimit; lia).
  match goal with
  | |- context [uploadFile app_root clk w ?r] => set (req := r)
  end.
  pose proof (upload_failure_keeps_files app_root clk w req) as Hother.
  pose proof (upload_stored app_root clk w req) as Hstored.
  assert (Hdb : db (snd (uploadFile app_root clk w req)) = db w).
  { unfold uploadFile. repeat case_match; reflexivity. }
  assert (Hcases :
            (exists m fileName originalName fileSize fileType storagePath downloadUrl,
                fst (uploadFile app_root clk w req)
                = mkResponse 200
                    (Uploaded m fileName originalName fileSize fileType storagePath downloadUrl))
            \/ (code (fst (uploadFile app_root clk w req)) <> 200
                /\ (json (fst (uploadFile app_root clk w req))
                    = UploadRejected "File type not supported"
                    \/ exists e, json (fst (uploadFile app_root clk w req))
                                 = UploadFailed "File upload failed" e)
                /\ (code (fst (uploadFile app_root clk w req)) = 400
                    \/ code (fst (uploadFile app_root clk w req)) = 500))).
  { unfold uploadFile, req.
    cbn [UploadRequest.document UploadRequest.doc_id UploadRequest.doc_type
           UploadRequest.revision_no UploadRequest.text truthy].
    rewrite (nonempty_test _ Hd), (nonempty_test _ Ht), (nonempty_test _ Hr). cbn [negb orb].
    rewrite Hsz, Hsize.
    destruct (negb (includes allowedTypes _));
      [right; cbn [fst code json]; split; [discriminate|]; split; [by left | by left]|].
    destruct (ensureUploadsDir app_root (disk w)) as [d1 [e|]];
      [right; cbn [fst code json upload_failed]; split; [discriminate|];
       split; [right; by eexists | by right]|].
    destruct (if negb (Fs.existsSync d1 _) then _ else _) as [d2 [e|]];
      [right; cbn [fst code json upload_failed]; split; [discriminate|];
       split; [right; by eexists | by right]|].
    destruct (Fs.mv _ d2 _) as [d3 [e|]];
      [right; cbn [fst code json upload_failed]; split; [discriminate|];
       split; [right; by eexists | by right]|].
    left. cbn [fst]. by repeat eexists. }
  destruct (uploadFile app_root clk w req) as [response w1] eqn:Eup.
  cbn [fst snd] in *.
  destruct Hcases as [(m & fileName & originalName & fileSize & fileType & sp & du & ->)
                     |(Hcode & Hjson & Hc)].
  - set (u := AddDocForm.upload_error _). vm_compute in u. subst u. cbv iota.
    cbn [fst snd json AddDocForm.stored_at]. split; [exact Hdb|].
    left. exists sp, du. eexists. split; [reflexivity|].
    destruct (Hstored _ _ _ _ _ _ _ _ eq_refl)
      as (d & document & Hid & Hdoc & _ & _ & Hpath & _ & _ & Hfiles & _).
    unfold req in Hdoc. cbn [UploadRequest.document] in Hdoc. injection Hdoc as <-.
    rewrite Hpath, storage_path_place, Hfiles. apply lookup_insert_eq.
  - specialize (Hother Hcode). destruct response as [c p]. cbn [code json] in *.
    assert (Hshown : forall m : string,
               In m ["File type not supported"; "File upload failed"] ->
               AddDocForm.shown_error m = m).
    { intros m [<-|[<-|[]]]; reflexivity. }
    assert (Herr : exists m, In m ["File type not supported"; "File upload failed"]
                             /\ AddDocForm.upload_error (mkResponse c p) = Some m).
    { destruct Hjson as [->|[e ->]], Hc as [->| ->];
        eexists; (split; [|reflexivity]); first [by left | by right; left]. }
    destruct Herr as (m & Hm & E). rewrite E. cbn [fst snd]. split; [exact Hdb|]. right. exists m.
    rewrite (Hshown m Hm). split; [reflexivity|]. split; [by right | exact Hother].
Qed.

End FormUpload.

(** ** Uploading again *)

Lemma append_cancel_l (a x y : string) : a +:+ x = a +:+ y -> x = y.
Proof.
  induction a as [|c a IH]; intros H; [exact H|].
  change (String c (a +:+ x) = String c (a +:+ y)) in H. injection H as H. by apply IH.
Qed.

Lemma decimal_Z_inj (m n : Z) : decimal_Z m = decimal_Z n -> m = n.
Proof. intros H. by rewrite <- (sql_integer_decimal m), <- (sql_integer_decimal n), H. Qed.

(** The stored names of one file for one document differ exactly when the
    clock readings differ. *)
Lemma uniqueFileName_time (d name : string) (t1 t2 : Z) :
  uniqueFileName d name t1 = uniqueFileName d name t2 -> t1 = t2.
Proof.
  unfold uniqueFileName. intros H.
  do 4 apply append_cancel_l in H. apply append_cancel_r in H. by apply decimal_Z_inj.
Qed.

Section UploadAgain.

Variable app_root : list string.

(** X25.  Uploading again does not overwrite.  When the same request (a
    document id that is one plain path segment, a file whose name holds
    no slash) is accepted twice, at two different readings of the clock,
    the two stored names differ and after the second upload both copies
    are on the disk, each at its own place under
    [uploads/master-plans/doc_id]. *)
Theorem reupload_keeps_earlier_file clk1 clk2 w (req : UploadRequest.t) (d : string) document
        m1 fileName1 o1 s1 t1 p1 u1 w1 m2 fileName2 o2 s2 t2 p2 u2 w2 :
  UploadRequest.doc_id req = Some d ->
  UploadRequest.document req = Some document ->
  Names.plain d ->
  Names.slash_free (UploadedFile.name document) ->
  clk1 0%nat <> clk2 0%nat ->
  uploadFile app_root clk1 w req = (mkResponse 200 (Uploaded m1 fileName1 o1 s1 t1 p1 u1), w1) ->
  uploadFile app_root clk2 w1 req = (mkResponse 200 (Uploaded m2 fileName2 o2 s2 t2 p2 u2), w2) ->
  fileName1 <> fileName2
  /\ Fs.files (disk w2) !! (app_root ++ ["uploads"; "master-plans"; d; fileName1])%list
     = Some document
  /\ Fs.files (disk w2) !! (app_root ++ ["uploads"; "master-plans"; d; fileName2])%list
     = Some document.
Proof.
  intros Hid Hdoc Hplain Hname Hclk H1 H2.
  apply upload_stored in H1 as (d1 & doc1 & Hid1 & Hdoc1 & _ & Hf1 & _ & _ & _ & Hfiles1 & _).
  apply upload_stored in H2 as (d2 & doc2 & Hid2 & Hdoc2 & _ & Hf2 & _ & _ & _ & Hfiles2 & _).
  rewrite Hid in Hid1, Hid2. rewrite Hdoc in Hdoc1, Hdoc2.
  injection Hid1 as <-. injection Hid2 as <-. injection Hdoc1 as <-. injection Hdoc2 as <-.
  assert (Hne : fileName1 <> fileName2).
  { rewrite Hf1, Hf2. intros E. by apply uniqueFileName_time in E. }
  assert (Hp1 : Names.plain fileName1).
  { rewrite Hf1. apply uniqueFileName_plain; [apply Hplain | exact Hname]. }
  assert (Hp2 : Names.plain fileName2).
  { rewrite Hf2. apply uniqueFileName_plain; [apply Hplain | exact Hname]. }
  rewrite (upload_target app_root d fileName1 Hplain Hp1) in Hfiles1.
  rewrite (upload_target app_root d fileName2 Hplain Hp2) in Hfiles2.
  split; [exact Hne|]. rewrite Hfiles2, Hfiles1. split.
  - rewrite lookup_insert_ne; [apply lookup_insert_eq|].
    intros E. apply app_inv_head in E. injection E as E. by destruct Hne.
  - apply lookup_insert_eq.
Qed.

End UploadAgain.

(** ** The properties above, on concrete requests *)

Lemma creates_keep_keys_unique_witness :
  NoDup (Keys.doc_ids
           (db (Keys.after_creates Sample.strict false Sample.empty_world
                  [(Sample.clk, Sample.doc1); (Sample.clk, Sample.doc1)])))
  /\ Keys.doc_ids
       (db (Keys.after_creates Sample.strict false Sample.empty_world
              [(Sample.clk, Sample.doc1); (Sample.clk, Sample.doc1)]))
     = [JStr "DOC-1"].
Proof.
  assert (H : Forall (fun req : clock * gmap string jsval => Keys.text_id (snd req))
                     [(Sample.clk, Sample.doc1); (Sample.clk, Sample.doc1)]).
  { repeat (constructor; [vm_compute; reflexivity|]). constructor. }
  assert (Hcase : Keys.one_case [(Sample.clk, Sample.doc1); (Sample.clk, Sample.doc1)]).
  { intros a b s t [<-|[<-|[]]] [<-|[<-|[]]] Hs Ht _;
      vm_compute in Hs, Ht; congruence. }
  destruct (creates_keep_keys_unique Sample.strict false 1 (disk Sample.empty_world) _ H Hcase)
    as [(_ & Hdocs & _) _].
  split; [exact Hdocs | vm_compute; reflexivity].
Defined.

Lemma check_sees_created_document_witness :
  checkDocIdExists Sample.empty_world "DOC-1"
  = (mkResponse 200 (Http.Exists false), Sample.empty_world)
  /\ checkDocIdExists Sample.world1 "DOC-1" = (mkResponse 200 (Http.Exists true), Sample.world1).
Proof.
  assert (H : createMasterPlanDoc Sample.strict false Sample.clk Sample.empty_world Sample.doc1
              = (mkResponse 201
                   (MessageData "Master Plan Document created successfully"
                      (mkInstance 1 (dbData_of Sample.clk Sample.doc1 JUndefined))),
                 Sample.world1)) by (vm_compute; reflexivity).
  assert (Hs : field Sample.doc1 "doc_id" = JStr "DOC-1") by (vm_compute; reflexivity).
  exact (check_sees_created_document Sample.strict false Sample.clk Sample.empty_world
           Sample.doc1 "DOC-1" _ _ _ H Hs).
Defined.


Lemma year_text_same_as_number_witness :
  createMasterPlanDoc Sample.strict false Sample.clk Sample.empty_world
    (<["year" := JStr (decimal_Z 2024)]> Sample.doc1)
  = createMasterPlanDoc Sample.strict false Sample.clk Sample.empty_world
      (<["year" := JNum 2024]> Sample.doc1).
Proof.
  apply (year_text_same_as_number Sample.strict false Sample.clk Sample.empty_world
           Sample.doc1 2024).
  - lia.
  - unfold Numeral.safe. lia.
Defined.

Lemma created_document_served_by_key_witness :
  Routes.get Sample.app_root Sample.world1 ("/" +:+ decimal_Z 1)
  = (mkResponse 200
       (Data (mkInstance 1 (Store.persisted (dbData_of Sample.clk Sample.doc1 JUndefined)))),
     Sample.world1).
Proof.
  assert (Hk : Keys.well_keyed (db Sample.empty_world)).
  { repeat split; constructor. }
  assert (H : createMasterPlanDoc Sample.strict false Sample.clk Sample.empty_world Sample.doc1
              = (mkResponse 201
                   (MessageData "Master Plan Document created successfully"
                      (mkInstance 1 (dbData_of Sample.clk Sample.doc1 JUndefined))),
                 Sample.world1)) by (vm_compute; reflexivity).
  destruct (created_document_served_by_key Sample.strict false Sample.app_root Sample.clk
              Sample.empty_world Sample.doc1 _ _ _ Hk H) as (row & Hrows & _ & Hget).
  assert (Hrow : row = mkInstance 1 (Store.persisted (dbData_of Sample.clk Sample.doc1 JUndefined))).
  { assert (Hone : Store.rows (db Sample.world1)
                   = [mkInstance 1 (Store.persisted (dbData_of Sample.clk Sample.doc1 JUndefined))])
      by (vm_compute; reflexivity).
    rewrite Hone in Hrows.
    change (Store.rows (db Sample.empty_world)) with (@nil instance) in Hrows.
    cbn [app] in Hrows. by injection Hrows as <-. }
  rewrite Hrow in Hget. exact Hget.
Defined.

Lemma clear_upload_is_stored_witness :
  exists w',
    Routes.post_upload Sample.app_root Sample.clk Sample.empty_world
      (Sample.upload_of (Sample.pdf "plan.final.pdf" 1024))
    = (mkResponse 200
         (Uploaded "File uploaded successfully and stored permanently"
            (uniqueFileName "DOC-1" "plan.final.pdf" (Sample.clk 0%nat))
            "plan.final.pdf" 1024 "application/pdf"
            ("/uploads/master-plans/" +:+ "DOC-1" +:+ "/"
               +:+ uniqueFileName "DOC-1" "plan.final.pdf" (Sample.clk 0%nat))
            ("/api/masterplandocs/download/" +:+ "DOC-1" +:+ "/"
               +:+ uniqueFileName "DOC-1" "plan.final.pdf" (Sample.clk 0%nat))),
       w')
    /\ Fs.files (disk w')
       = <[(Sample.app_root ++ ["uploads"; "master-plans"; "DOC-1";
                                uniqueFileName "DOC-1" "plan.final.pdf" (Sample.clk 0%nat)])%list
           := Sample.pdf "plan.final.pdf" 1024]> (Fs.files (disk Sample.empty_world))
    /\ db w' = db Sample.empty_world.
Proof.
  apply (clear_upload_is_stored Sample.app_root Sample.clk Sample.empty_world
           (Sample.upload_of (Sample.pdf "plan.final.pdf" 1024))
           (Sample.pdf "plan.final.pdf" 1024) "DOC-1" "Policy" "1.0");
    try reflexivity; try discriminate.
  - repeat split; try discriminate. repeat constructor.
  - repeat constructor.
  - left. reflexivity.
Defined.

Lemma uploaded_file_is_downloadable_witness :
  downloadFile Sample.app_root Sample.uploaded_world "DOC-1" "DOC-1_plan.final_1700000000000.pdf"
  = (mkResponse 200 (FileStream (Sample.pdf "plan.final.pdf" 1024)), Sample.uploaded_world).
Proof.
  assert (H : uploadFile Sample.app_root Sample.clk Sample.empty_world
                (Sample.upload_of (Sample.pdf "plan.final.pdf" 1024))
              = (mkResponse 200
                   (Uploaded "File uploaded successfully and stored permanently"
                      "DOC-1_plan.final_1700000000000.pdf" "plan.final.pdf" 1024 "application/pdf"
                      "/uploads/master-plans/DOC-1/DOC-1_plan.final_1700000000000.pdf"
                      "/api/masterplandocs/download/DOC-1/DOC-1_plan.final_1700000000000.pdf"),
                 Sample.uploaded_world)) by (vm_compute; reflexivity).
  assert (Hid : UploadRequest.doc_id (Sample.upload_of (Sample.pdf "plan.final.pdf" 1024))
                = Some "DOC-1") by reflexivity.
  assert (Hdot : containsDotFile
                   (NodePath.join (NodePath.join (uploadsDir Sample.app_root) "DOC-1")
                      "DOC-1_plan.final_1700000000000.pdf") = false)
    by (vm_compute; reflexivity).
  destruct (uploaded_file_is_downloadable Sample.app_root Sample.clk Sample.empty_world
              _ _ _ _ _ _ _ _ _ _ Hid H Hdot) as (document & Hdoc & Hget).
  injection Hdoc as <-. exact Hget.
Defined.

Lemma delete_removes_uploaded_file_witness :
  exists w'',
    Deletion.deleteFile Sample.app_root FormSample.invalid_argument Sample.uploaded_world
      {[ "filePath" := JStr "/uploads/master-plans/DOC-1/DOC-1_plan.final_1700000000000.pdf" ]}
    = (Deletion.mkAnswer 200 true "File deleted successfully" None, w'')
    /\ Fs.files (disk w'') = Fs.files (disk Sample.empty_world).
Proof.
  assert (H : uploadFile Sample.app_root Sample.clk Sample.empty_world
                (Sample.upload_of (Sample.pdf "plan.final.pdf" 1024))
              = (mkResponse 200
                   (Uploaded "File uploaded successfully and stored permanently"
                      "DOC-1_plan.final_1700000000000.pdf" "plan.final.pdf" 1024 "application/pdf"
                      "/uploads/master-plans/DOC-1/DOC-1_plan.final_1700000000000.pdf"
                      "/api/masterplandocs/download/DOC-1/DOC-1_plan.final_1700000000000.pdf"),
                 Sample.uploaded_world)) by (vm_compute; reflexivity).
  assert (Hbody : field {[ "filePath" :=
                             JStr "/uploads/master-plans/DOC-1/DOC-1_plan.final_1700000000000.pdf" ]}
                    "filePath"
                  = JStr "/uploads/master-plans/DOC-1/DOC-1_plan.final_1700000000000.pdf")
    by (vm_compute; reflexivity).
  destruct (delete_removes_uploaded_file Sample.app_root FormSample.invalid_argument Sample.clk
              Sample.empty_world _ _ _ _ _ _ _ _ _ _ H Hbody)
    as (d & w'' & Hd & Hdel & _ & _ & _ & Hback).
  exists w''. split; [exact Hdel|]. apply Hback. injection Hd as <-. reflexivity.
Defined.

Lemma delete_reaches_any_file_witness :
  Deletion.deleteFile Sample.app_root FormSample.invalid_argument
    (mkWorld (Store.mkTable [] 1)
       (Fs.mkDisk ∅ {[ ["srv"; "registry"; "app"; "server.js"] := Sample.pdf "server.js" 2124 ]}))
    {[ "filePath" := JStr "app/server.js" ]}
  = (Deletion.mkAnswer 200 true "File deleted successfully" None,
     mkWorld (Store.mkTable [] 1)
       (Fs.mkDisk ∅ (delete ["srv"; "registry"; "app"; "server.js"]
                       {[ ["srv"; "registry"; "app"; "server.js"] := Sample.pdf "server.js" 2124 ]}))).
Proof.
  assert (H1 : Forall Names.plain ["app"; "server.js"]).
  { repeat constructor; discriminate. }
  assert (H2 : ["app"; "server.js"] <> []) by discriminate.
  assert (H3 : field {[ "filePath" := JStr "app/server.js" ]} "filePath"
               = JStr (String.concat "/" ["app"; "server.js"])) by (vm_compute; reflexivity).
  assert (H4 : Fs.files
                 (disk (mkWorld (Store.mkTable [] 1)
                          (Fs.mkDisk ∅ {[ ["srv"; "registry"; "app"; "server.js"]
                                          := Sample.pdf "server.js" 2124 ]})))
                 !! (Sample.app_root ++ ["app"; "server.js"])%list
               = Some (Sample.pdf "server.js" 2124)) by (vm_compute; reflexivity).
  exact (delete_reaches_any_file Sample.app_root FormSample.invalid_argument _ _ _ _
           H1 H2 H3 H4).
Defined.

Lemma rows_served_by_key_witness :
  Routes.get Sample.app_root Sample.world1 ("/" +:+ decimal_Z 1)
  = (mkResponse 200
       (Data (mkInstance 1 (Store.persisted (dbData_of Sample.clk Sample.doc1 JUndefined)))),
     Sample.world1)
  /\ Routes.get Sample.app_root Sample.world1 ("/" +:+ decimal_Z 2)
     = (mkResponse 404 (Message "Master Plan Document not found"), Sample.world1).
Proof.
  assert (Hnd : NoDup (Keys.ids (db Sample.world1))).
  { vm_compute. apply NoDup_singleton. }
  destruct (rows_served_by_key Sample.app_root Sample.world1 Hnd) as [Hrow Hnone].
  split.
  - apply (Hrow (mkInstance 1 (Store.persisted (dbData_of Sample.clk Sample.doc1 JUndefined)))).
    left. vm_compute. reflexivity.
  - apply Hnone. vm_compute. intros [H|[]]. discriminate H.
Defined.

Lemma download_by_id_alone_fails_witness :
  Routes.get Sample.app_root Sample.uploaded_world ("/download/" +:+ "DOC-1")
  = (mkResponse 404 (PlainText "Cannot GET"), Sample.uploaded_world)
  /\ Client.downloadMasterPlanDoc Sample.app_root Sample.uploaded_world "DOC-1"
     = Client.Failed "HTTP error! status: 404".
Proof.
  apply (download_by_id_alone_fails Sample.app_root Sample.uploaded_world "DOC-1").
  reflexivity.
Defined.

Lemma form_and_server_file_checks_witness :
  (AddDocForm.isValid (AddDocForm.validateFile (UploadedFile.mk "notes" 10 "")) = true
   /\ Routes.post_upload Sample.app_root Sample.clk Sample.empty_world
        (UploadRequest.mk (Some (AddDocForm.part (UploadedFile.mk "notes" 10 "")))
           (Some "DOC-1") (Some "Policy") (Some "1.0"))
      = (mkResponse 400 (UploadRejected "File type not supported"), Sample.empty_world))
  /\ (AddDocForm.isValid (AddDocForm.validateFile (Sample.pdf "plan.pdf" 10485760)) = true
      /\ Routes.post_upload Sample.app_root Sample.clk Sample.empty_world
           (UploadRequest.mk (Some (AddDocForm.part (Sample.pdf "plan.pdf" 10485760)))
              (Some "DOC-1") (Some "Policy") (Some "1.0"))
         = (mkResponse 413 (PlainText "File size limit has been reached"), Sample.empty_world)).
Proof.
  destruct (form_and_server_file_checks Sample.app_root Sample.clk Sample.empty_world
              (UploadedFile.mk "notes" 10 "") "DOC-1" "Policy" "1.0")
    as (_ & _ & Hempty & _); try discriminate.
  destruct (form_and_server_file_checks Sample.app_root Sample.clk Sample.empty_world
              (Sample.pdf "plan.pdf" 10485760) "DOC-1" "Policy" "1.0")
    as (_ & _ & _ & Hlimit); try discriminate.
  split.
  - split; [reflexivity|]. apply Hempty; reflexivity.
  - apply Hlimit; [reflexivity|]. right. left. reflexivity.
Defined.

Lemma schema_values_fit_columns_witness :
  AddDocForm.formSchema FormSample.values = true
  /\ Forall (fun a =>
               Store.attribute_ok
                 (dbData_of Sample.clk
                    (AddDocForm.submitData FormSample.values
                       (AddDocForm.mkInfo FormSample.file JUndefined JUndefined
                          FormSample.uploaded_now))
                    (JStr "pdf")) a = true
               /\ Sample.fits a
                    (get a (dbData_of Sample.clk
                              (AddDocForm.submitData FormSample.values
                                 (AddDocForm.mkInfo FormSample.file JUndefined JUndefined
                                    FormSample.uploaded_now))
                              (JStr "pdf"))) = true)
            [attr_doc_id; attr_doc_type; attr_doc_title; attr_revision_no; attr_year;
             attr_quarter; attr_owner; attr_status; attr_doc_status].
Proof.
  assert (H : AddDocForm.formSchema FormSample.values = true) by (vm_compute; reflexivity).
  split; [exact H|].
  exact (schema_values_fit_columns Sample.clk FormSample.values _ _ H).
Defined.

Lemma upload_then_save_witness :
  exists st1 w1,
    AddDocForm.handleFileUpload Sample.app_root FormSample.uploaded_now Sample.clk
      FormSample.ready Sample.empty_world = (st1, w1)
    /\ Fs.files (disk w1)
       = <[(Sample.app_root ++ ["uploads"; "master-plans"; "DOC-7";
                                uniqueFileName "DOC-7" "plan.pdf" (Sample.clk 0%nat)])%list
           := FormSample.file]> (Fs.files (disk Sample.empty_world))
    /\ db w1 = db Sample.empty_world.
Proof.
  assert (H1 : AddDocForm.selectedFile FormSample.ready = Some FormSample.file) by reflexivity.
  assert (H2 : AddDocForm.isFormValid FormSample.ready = true) by (vm_compute; reflexivity).
  assert (H3 : AddDocForm.formSchema (AddDocForm.values FormSample.ready) = true)
    by (vm_compute; reflexivity).
  assert (H4 : In (UploadedFile.mimetype FormSample.file) AddDocForm.ALLOWED_FILE_TYPES)
    by (left; reflexivity).
  assert (H5 : UploadedFile.size FormSample.file < AddDocForm.MAX_FILE_SIZE)
    by (vm_compute; reflexivity).
  assert (H6 : Names.slash_free (UploadedFile.name FormSample.file)) by (repeat constructor).
  assert (H7 : forall q,
             In q (Fs.prefixes (Sample.app_root
                                  ++ ["uploads"; "master-plans";
                                      AddDocForm.doc_id (AddDocForm.values FormSample.ready)])) ->
             Fs.files (disk Sample.empty_world) !! q = None) by (intros q _; reflexivity).
  assert (H8 : (Sample.app_root
                  ++ ["uploads"; "master-plans";
                      AddDocForm.doc_id (AddDocForm.values FormSample.ready);
                      uniqueFileName (AddDocForm.doc_id (AddDocForm.values FormSample.ready))
                        (UploadedFile.name FormSample.file) (Sample.clk 0%nat)])%list
               ∉ Fs.dirs (disk Sample.empty_world)) by (cbn; set_solver).
  assert (H9 : UploadedFile.name FormSample.file <> "") by discriminate.
  destruct (upload_then_save Sample.strict false Sample.app_root FormSample.uploaded_now
              FormSample.defaultValues Sample.clk FormSample.ready Sample.empty_world
              FormSample.file H1 H2 H3 H4 H5 H6 H7 H8 Sample.clk H9)
    as (st1 & w1 & Hup & Hfiles & Hdb & _).
  exists st1, w1. split; [exact Hup|]. split; [exact Hfiles | exact Hdb].
Defined.

Lemma upload_then_clear_witness :
  exists st1 w1 w2,
    AddDocForm.handleFileUpload Sample.app_root FormSample.uploaded_now Sample.clk
      FormSample.ready Sample.empty_world = (st1, w1)
    /\ AddDocForm.handleClearAll Sample.app_root FormSample.invalid_argument
         FormSample.defaultValues st1 w1
       = (AddDocForm.mkState FormSample.defaultValues false None None None None, w2)
    /\ Fs.files (disk w2) = Fs.files (disk Sample.empty_world)
    /\ db w2 = db Sample.empty_world.
Proof.
  assert (H1 : AddDocForm.selectedFile FormSample.ready = Some FormSample.file) by reflexivity.
  assert (H2 : AddDocForm.isFormValid FormSample.ready = true) by (vm_compute; reflexivity).
  assert (H3 : AddDocForm.formSchema (AddDocForm.values FormSample.ready) = true)
    by (vm_compute; reflexivity).
  assert (H4 : In (UploadedFile.mimetype FormSample.file) AddDocForm.ALLOWED_FILE_TYPES)
    by (left; reflexivity).
  assert (H5 : UploadedFile.size FormSample.file < AddDocForm.MAX_FILE_SIZE)
    by (vm_compute; reflexivity).
  assert (H6 : Names.slash_free (UploadedFile.name FormSample.file)) by (repeat constructor).
  assert (H7 : forall q,
             In q (Fs.prefixes (Sample.app_root
                                  ++ ["uploads"; "master-plans";
                                      AddDocForm.doc_id (AddDocForm.values FormSample.ready)])) ->
             Fs.files (disk Sample.empty_world) !! q = None) by (intros q _; reflexivity).
  assert (H8 : (Sample.app_root
                  ++ ["uploads"; "master-plans";
                      AddDocForm.doc_id (AddDocForm.values FormSample.ready);
                      uniqueFileName (AddDocForm.doc_id (AddDocForm.values FormSample.ready))
                        (UploadedFile.name FormSample.file) (Sample.clk 0%nat)])%list
               ∉ Fs.dirs (disk Sample.empty_world)) by (cbn; set_solver).
  exact (upload_then_clear Sample.app_root FormSample.invalid_argument FormSample.uploaded_now
           FormSample.defaultValues Sample.clk FormSample.ready Sample.empty_world
           FormSample.file H1 H2 H3 H4 H5 H6 H7 H8 eq_refl).
Defined.

Lemma search_finds_matching_documents_witness :
  exists found,
    MasterPlanPage.filteredDocuments (Store.rows (db Sample.world1)) "doc" = Ok found
    /\ found `sublist_of` Store.rows (db Sample.world1)
    /\ forall doc,
        In doc (Store.rows (db Sample.world1)) ->
        doc_id (dataValues doc) = JStr "DOC-1" ->
        In doc found.
Proof.
  assert (H : Forall MasterPlanPage.searchable (Store.rows (db Sample.world1))).
  { vm_compute. constructor; [|constructor].
    repeat (constructor; [right; right; eexists; split; reflexivity|]). constructor. }
  assert (Hterm : Text.ascii_only "doc") by reflexivity.
  assert (Hne : "doc" <> "") by discriminate.
  destruct (search_finds_matching_documents (Store.rows (db Sample.world1)) "doc" H Hterm)
    as (found & E & _ & Hsub & Hmem).
  exists found. split; [exact E|]. split; [exact Hsub|].
  intros doc Hin Hid. apply (Hmem Hne). split; [exact Hin|].
  apply Exists_cons_hd. exists "", "DOC", "-1". split; [exact Hid|].
  repeat (constructor; [right; left; split; [vm_compute; lia | reflexivity]|]).
  constructor.
Defined.

Lemma form_upload_outcomes_witness :
  db (snd (AddDocForm.handleFileUpload Sample.app_root FormSample.uploaded_now Sample.clk
             FormSample.ready Sample.empty_world))
  = db Sample.empty_world.
Proof.
  assert (H1 : AddDocForm.selectedFile FormSample.ready = Some FormSample.file) by reflexivity.
  assert (H2 : AddDocForm.isFormValid FormSample.ready = true) by (vm_compute; reflexivity).
  assert (H3 : AddDocForm.checkFormValidity (AddDocForm.values FormSample.ready) = true)
    by (vm_compute; reflexivity).
  exact (proj1 (form_upload_outcomes Sample.app_root FormSample.uploaded_now Sample.clk
                  FormSample.ready Sample.empty_world FormSample.file H1 H2 H3)).
Defined.

Lemma reupload_keeps_earlier_file_witness :
  exists w1 w2,
    uploadFile Sample.app_root Sample.clk Sample.empty_world
      (Sample.upload_of (Sample.pdf "plan.final.pdf" 1024))
    = (mkResponse 200
         (Uploaded "File uploaded successfully and stored permanently"
            "DOC-1_plan.final_1700000000000.pdf" "plan.final.pdf" 1024 "application/pdf"
            "/uploads/master-plans/DOC-1/DOC-1_plan.final_1700000000000.pdf"
            "/api/masterplandocs/download/DOC-1/DOC-1_plan.final_1700000000000.pdf"),
       w1)
    /\ uploadFile Sample.app_root (fun n => Sample.clk (S n)) w1
         (Sample.upload_of (Sample.pdf "plan.final.pdf" 1024))
       = (mkResponse 200
            (Uploaded "File uploaded successfully and stored permanently"
               "DOC-1_plan.final_1700000000001.pdf" "plan.final.pdf" 1024 "application/pdf"
               "/uploads/master-plans/DOC-1/DOC-1_plan.final_1700000000001.pdf"
               "/api/masterplandocs/download/DOC-1/DOC-1_plan.final_1700000000001.pdf"),
          w2)
    /\ Fs.files (disk w2)
         !! (Sample.app_root ++ ["uploads"; "master-plans"; "DOC-1";
                                 "DOC-1_plan.final_1700000000000.pdf"])%list
       = Some (Sample.pdf "plan.final.pdf" 1024).
Proof.
  assert (Hplain : Names.plain "DOC-1").
  { split; [repeat constructor|]. split; [|split]; intros E; discriminate E. }
  assert (Hname : Names.slash_free (UploadedFile.name (Sample.pdf "plan.final.pdf" 1024)))
    by (repeat constructor).
  assert (Hclk : Sample.clk 0%nat <> Sample.clk 1%nat) by (intros E; discriminate E).
  eexists. eexists.
  assert (H1 : uploadFile Sample.app_root Sample.clk Sample.empty_world
                 (Sample.upload_of (Sample.pdf "plan.final.pdf" 1024))
               = (mkResponse 200
                    (Uploaded "File uploaded successfully and stored permanently"
                       "DOC-1_plan.final_1700000000000.pdf" "plan.final.pdf" 1024
                       "application/pdf"
                       "/uploads/master-plans/DOC-1/DOC-1_plan.final_1700000000000.pdf"
                       "/api/masterplandocs/download/DOC-1/DOC-1_plan.final_1700000000000.pdf"),
                  Sample.uploaded_world)) by (vm_compute; reflexivity).
  assert (H2 : uploadFile Sample.app_root (fun n => Sample.clk (S n)) Sample.uploaded_world
                 (Sample.upload_of (Sample.pdf "plan.final.pdf" 1024))
               = (mkResponse 200
                    (Uploaded "File uploaded successfully and stored permanently"
                       "DOC-1_plan.final_1700000000001.pdf" "plan.final.pdf" 1024
                       "application/pdf"
                       "/uploads/master-plans/DOC-1/DOC-1_plan.final_1700000000001.pdf"
                       "/api/masterplandocs/download/DOC-1/DOC-1_plan.final_1700000000001.pdf"),
                  snd (uploadFile Sample.app_root (fun n => Sample.clk (S n))
                         Sample.uploaded_world
                         (Sample.upload_of (Sample.pdf "plan.final.pdf" 1024)))))
    by (vm_compute; reflexivity).
  split; [exact H1|]. split; [exact H2|].
  exact (proj1 (proj2 (reupload_keeps_earlier_file Sample.app_root Sample.clk
                         (fun n => Sample.clk (S n)) Sample.empty_world
                         (Sample.upload_of (Sample.pdf "plan.final.pdf" 1024)) "DOC-1"
                         (Sample.pdf "plan.final.pdf" 1024)
                         _ _ _ _ _ _ _ _ _ _ _ _ _ _ _ _
                         eq_refl eq_refl Hplain Hname Hclk H1 H2))).
Defined.
